(** * Daily log indices in Elasticsearch: [data/logs_model/elastic_logs.py]

    A shallow embedding of [ElasticsearchLogs] (index naming and validation,
    the retention decision, the one-time initialisation and the list / delete
    / exists operations) together with the properties of its specification.

    Conventions of the embedding.
    - A Python [str] is a [string]: characters range over the 8-bit code
      points, on which the regular-expression class [\d] is exactly [0-9].
    - Integers are [Z]; a naive [datetime] is a record of its seven fields.
    - Code that raises returns [Raise e]; stateful code is a function on
      [World], which holds the manager object, the connection registry of
      [elasticsearch_dsl.connections], the class attributes of [LogEntry],
      the log records and the trace of backend requests.
    - The Elasticsearch cluster is a section variable [backend]: an arbitrary
      function from the history of requests and the current request to a
      reply, so every theorem holds for every behaviour of the cluster. *)

From stdpp Require Import base gmap strings.
From Stdlib Require Import ZArith List Ascii String Bool Lia.
Import ListNotations.

#[local] Open Scope string_scope.
#[local] Open Scope Z_scope.

(** ** Python strings *)

Module PyStr.

(** [len(s)] *)
Definition len (s : string) : Z := Z.of_nat (String.length s).

(** [s.startswith(p)] *)
Fixpoint startswith (s p : string) {struct p} : bool :=
  match p with
  | EmptyString => true
  | String c p' =>
      match s with
      | EmptyString => false
      | String d s' => if Ascii.eqb c d then startswith s' p' else false
      end
  end.

(** [s[n:]] for [0 <= n] *)
Fixpoint slice_from (n : nat) (s : string) : string :=
  match n with
  | O => s
  | S n' => match s with EmptyString => EmptyString | String _ s' => slice_from n' s' end
  end.

(** The part of [s] after the first occurrence of the non-empty separator
    [sep], when there is one. *)
Fixpoint after_first (s sep : string) : option string :=
  if startswith s sep then Some (slice_from (String.length sep) s)
  else match s with
       | EmptyString => None
       | String _ s' => after_first s' sep
       end.

(** [s.split(sep, 1)[-1]]: [None] stands for the [ValueError] that an
    empty separator raises; without an occurrence the list is [[s]]. *)
Definition split1_last (s sep : string) : option string :=
  match sep with
  | EmptyString => None
  | _ => Some (match after_first s sep with Some t => t | None => s end)
  end.

(** [c.lower()] on the ASCII letters, and [s.lower()] *)
Definition lower_ascii (c : ascii) : ascii :=
  let n := nat_of_ascii c in
  if (Nat.leb 65 n && Nat.leb n 90)%bool then ascii_of_nat (n + 32) else c.

Fixpoint lower (s : string) : string :=
  match s with
  | EmptyString => EmptyString
  | String c s' => String (lower_ascii c) (lower s')
  end.

(** Truth value of a string: non-empty *)
Definition truthy (s : string) : bool :=
  match s with EmptyString => false | _ => true end.

End PyStr.

(** ** Regular expressions of Python's [re], as far as the program uses them *)

Module Re.

Inductive regex : Type :=
| Chr (c : ascii)                                (* a literal character *)
| Set_ (negated : bool) (ranges : list (ascii * ascii))  (* [...] and [^...] *)
| Seq (r1 r2 : regex)
| Alt (r1 r2 : regex)                            (* r1|r2, r1 tried first *)
| Rep (r : regex) (lo hi : nat)                  (* r{lo,hi}, greedy *)
| NegLook (r : regex)                            (* (?!r) *)
| Bol                                            (* ^ *)
| Eol                                            (* $ *)
| Group (name : option string) (r : regex).      (* (r) and (?P<name>r) *)

Definition in_range (c : ascii) (r : ascii * ascii) : bool :=
  (Nat.leb (nat_of_ascii (fst r)) (nat_of_ascii c)
   && Nat.leb (nat_of_ascii c) (nat_of_ascii (snd r)))%bool.

Definition in_set (negated : bool) (ranges : list (ascii * ascii)) (c : ascii) : bool :=
  xorb negated (existsb (in_range c) ranges).

(** A single character, written as a degenerate range. *)
Definition one (c : ascii) : ascii * ascii := (c, c).

(** [[a-b]] *)
Definition range (a b : ascii) : regex := Set_ false [(a, b)].

(** [\d] *)
Definition digit : regex := range "0" "9".

Definition groups : Type := list (string * string).

(** The result of a successful match: the end position and the groups. *)
Definition found : Type := (nat * groups)%type.

(** Backtracking matcher in continuation-passing style.  [pos] is the
    position of [s] in the subject string; [k] is what remains to be
    matched.  Alternatives are tried in the order of the pattern, so the
    result is the first match in the priority order of [re]. *)
Fixpoint run (r : regex) (pos : nat) (s : string) (g : groups)
         (k : nat -> string -> groups -> option found) {struct r} : option found :=
  match r with
  | Chr c =>
      match s with
      | String x s' => if Ascii.eqb x c then k (S pos) s' g else None
      | EmptyString => None
      end
  | Set_ negated ranges =>
      match s with
      | String x s' => if in_set negated ranges x then k (S pos) s' g else None
      | EmptyString => None
      end
  | Seq r1 r2 => run r1 pos s g (fun p s' g' => run r2 p s' g' k)
  | Alt r1 r2 =>
      match run r1 pos s g k with
      | Some f => Some f
      | None => run r2 pos s g k
      end
  | Rep r' lo hi =>
      (fix rep (lo hi : nat) (pos : nat) (s : string) (g : groups) {struct hi}
         : option found :=
         match hi with
         | O => match lo with O => k pos s g | S _ => None end
         | S hi' =>
             match run r' pos s g (fun p s' g' => rep (Nat.pred lo) hi' p s' g') with
             | Some f => Some f
             | None => match lo with O => k pos s g | S _ => None end
             end
         end) lo hi pos s g
  | NegLook r' =>
      match run r' pos s g (fun p _ g' => Some (p, g')) with
      | Some _ => None
      | None => k pos s g
      end
  | Bol => match pos with O => k pos s g | S _ => None end
  | Eol =>
      (* end of the string, or just before a newline that ends the string *)
      match s with
      | EmptyString => k pos s g
      | String x s' =>
          if Ascii.eqb x "010" then
            match s' with EmptyString => k pos s g | String _ _ => None end
          else None
      end
  | Group name r' =>
      run r' pos s g
          (fun p s' g' =>
             k p s' match name with
                    | Some n => (n, String.substring 0 (p - pos) s) :: g'
                    | None => g'
                    end)
  end.

(** [re.match(r, s)]: anchored at the start, not at the end. *)
Definition re_match (r : regex) (s : string) : option found :=
  run r 0 s [] (fun p _ g => Some (p, g)).

Definition is_not_None {A} (o : option A) : bool :=
  match o with Some _ => true | None => false end.

(** [m.group(name)] *)
Fixpoint group (g : groups) (name : string) : option string :=
  match g with
  | [] => None
  | (n, v) :: g' => if String.eqb n name then Some v else group g' name
  end.

End Re.

Import Re.

(** ** Module constants *)

Definition ELASTICSEARCH_TEMPLATE_CONNECTION_ALIAS : string := "logentry_template".
Definition INDEX_NAME_PREFIX : string := "logentry_".
Definition ELASTICSEARCH_DEFAULT_CONNECTION_TIMEOUT : Z := 15.
Definition ELASTICSEARCH_TEMPLATE_CONNECTION_TIMEOUT : Z := 60.

(** [VALID_INDEX_PATTERN]: the raw pattern
     [^((?!\.$|\.\.$|[-_+])([^A-Z:\/*?\Q<>|,# ]){1,255})$]
    where [Q] stands for the double-quote character (code 34). *)
Definition VALID_INDEX_PATTERN : regex :=
  Seq Bol
    (Seq (Group None
            (Seq (NegLook (Alt (Seq (Chr ".") Eol)
                          (Alt (Seq (Chr ".") (Seq (Chr ".") Eol))
                               (Set_ false [one "-"; one "_"; one "+"]))))
                 (Rep (Group None
                         (Set_ true [("A", "Z"); one ":"; one "/"; one "*"; one "?";
                                     one "034"; one "<"; one ">"; one "|"; one ",";
                                     one "#"; one " "]%char))
                      1 255)))
         Eol).

(** [ElasticsearchLogs._valid_index_prefix] *)
Definition _valid_index_prefix (prefix : string) : bool :=
  is_not_None (re_match VALID_INDEX_PATTERN prefix).

(** ** Naive dates and times of Python's [datetime] module *)

Module Py.

Record date : Type := mkdate { year : Z; month : Z; day : Z }.

Record datetime : Type :=
  mkdatetime { dt_date : date; hour : Z; minute : Z; second : Z; microsecond : Z }.

(** Always normalised: [0 <= seconds < 86400], [0 <= microseconds < 10^6]. *)
Record timedelta : Type := mktimedelta { days : Z; seconds : Z; microseconds : Z }.

Definition MINYEAR : Z := 1.
Definition MAXYEAR : Z := 9999.

Definition _is_leap (y : Z) : bool :=
  (y mod 4 =? 0) && (negb (y mod 100 =? 0) || (y mod 400 =? 0)).

Definition _days_before_year (y : Z) : Z :=
  let y' := y - 1 in y' * 365 + y' / 4 - y' / 100 + y' / 400.

(** The tables [_DAYS_IN_MONTH] and [_DAYS_BEFORE_MONTH], indexed from 1. *)
Definition _DAYS_IN_MONTH (m : Z) : Z :=
  match m with
  | 1 => 31 | 2 => 28 | 3 => 31 | 4 => 30 | 5 => 31 | 6 => 30
  | 7 => 31 | 8 => 31 | 9 => 30 | 10 => 31 | 11 => 30 | 12 => 31
  | _ => 0
  end.

Definition _DAYS_BEFORE_MONTH (m : Z) : Z :=
  match m with
  | 1 => 0 | 2 => 31 | 3 => 59 | 4 => 90 | 5 => 120 | 6 => 151
  | 7 => 181 | 8 => 212 | 9 => 243 | 10 => 273 | 11 => 304 | 12 => 334
  | _ => 0
  end.

Definition _days_in_month (y m : Z) : Z :=
  if (m =? 2) && _is_leap y then 29 else _DAYS_IN_MONTH m.

Definition _days_before_month (y m : Z) : Z :=
  _DAYS_BEFORE_MONTH m + (if (2 <? m) && _is_leap y then 1 else 0).

Definition _ymd2ord (y m d : Z) : Z :=
  _days_before_year y + _days_before_month y m + d.

(** [_check_date_fields]: what the constructor of [date] accepts. *)
Definition _check_date_fields (y m d : Z) : bool :=
  (MINYEAR <=? y) && (y <=? MAXYEAR) && (1 <=? m) && (m <=? 12)
  && (1 <=? d) && (d <=? _days_in_month y m).

Definition valid_date (d : date) : bool :=
  _check_date_fields (year d) (month d) (day d).

Definition toordinal (d : date) : Z := _ymd2ord (year d) (month d) (day d).

Definition midnight (d : date) : datetime := mkdatetime d 0 0 0 0.

(** The constructor [timedelta(days, seconds, microseconds)] with its
    normalisation by floor division. *)
Definition mk_timedelta (d s us : Z) : timedelta :=
  let s1 := s + us / 1000000 in
  mktimedelta (d + s1 / 86400) (s1 mod 86400) (us mod 1000000).

(** Comparison of tuples of integers, as [_cmp] does on the field tuples. *)
Fixpoint tuple_cmp (a b : list Z) : comparison :=
  match a, b with
  | [], [] => Eq
  | [], _ :: _ => Lt
  | _ :: _, [] => Gt
  | x :: a', y :: b' =>
      match x ?= y with
      | Eq => tuple_cmp a' b'
      | c => c
      end
  end.

Definition datetime_fields (t : datetime) : list Z :=
  [year (dt_date t); month (dt_date t); day (dt_date t);
   hour t; minute t; second t; microsecond t].

(** [a < b] on naive datetimes *)
Definition datetime_lt (a b : datetime) : bool :=
  match tuple_cmp (datetime_fields a) (datetime_fields b) with
  | Lt => true
  | _ => false
  end.

(** [a - b] on naive datetimes *)
Definition datetime_sub (a b : datetime) : timedelta :=
  let secs1 := second a + minute a * 60 + hour a * 3600 in
  let secs2 := second b + minute b * 60 + hour b * 3600 in
  mk_timedelta (toordinal (dt_date a) - toordinal (dt_date b))
               (secs1 - secs2) (microsecond a - microsecond b).

(** [a >= b] on timedeltas *)
Definition timedelta_ge (a b : timedelta) : bool :=
  match tuple_cmp [days a; seconds a; microseconds a]
                  [days b; seconds b; microseconds b] with
  | Lt => false
  | _ => true
  end.

(** *** Formatting and parsing with [INDEX_DATE_FORMAT = "%Y-%m-%d"] *)

Definition digit_char (n : Z) : ascii := ascii_of_nat (48 + Z.to_nat (n mod 10)).

(** The decimal digits of [n], zero-padded to [width] characters (exact
    for [0 <= n < 10^width], which holds for the fields of a date). *)
Fixpoint zero_padded (width : nat) (n : Z) : string :=
  match width with
  | O => EmptyString
  | S w => zero_padded w (n / 10) ++ String (digit_char n) EmptyString
  end.

(** The decimal digits of [n] without padding (exact for [0 <= n < 10^4],
    which holds for the year of a date). *)
Definition decimal (n : Z) : string :=
  if n <? 10 then zero_padded 1 n
  else if n <? 100 then zero_padded 2 n
  else if n <? 1000 then zero_padded 3 n
  else zero_padded 4 n.

(** [d.isoformat()]: the date written as [YYYY-MM-DD], the year with four
    digits, month and day with two, each zero-padded. *)
Definition isoformat (d : date) : string :=
  zero_padded 4 (year d) ++ "-" ++ zero_padded 2 (month d) ++ "-" ++ zero_padded 2 (day d).

(** [d.strftime("%Y-%m-%d")].  CPython hands the format to the [strftime] of
    the C library, and that of glibc writes [%Y] as the decimal digits of the
    year without padding (CPython pads the year itself only from version
    3.13 on); [%m] and [%d] are two digits.  So the years 1 to 999 are written
    with fewer than four digits. *)
Definition strftime_Ymd (d : date) : string :=
  decimal (year d) ++ "-" ++ zero_padded 2 (month d) ++ "-" ++ zero_padded 2 (day d).

(** The entries ['Y'], ['m'] and ['d'] of [_strptime.TimeRE]:
    [(?P<Y>\d\d\d\d)], [(?P<m>1[0-2]|0[1-9]|[1-9])] and
    [(?P<d>3[0-1]|[1-2]\d|0[1-9]|[1-9]| [1-9])]. *)
Definition TimeRE_Y : regex :=
  Group (Some "Y") (Seq digit (Seq digit (Seq digit digit))).

Definition TimeRE_m : regex :=
  Group (Some "m")
    (Alt (Seq (Chr "1") (range "0" "2"))
    (Alt (Seq (Chr "0") (range "1" "9"))
         (range "1" "9"))).

Definition TimeRE_d : regex :=
  Group (Some "d")
    (Alt (Seq (Chr "3") (range "0" "1"))
    (Alt (Seq (range "1" "2") digit)
    (Alt (Seq (Chr "0") (range "1" "9"))
    (Alt (range "1" "9")
         (Seq (Chr " ") (range "1" "9")))))).

(** The regular expression that [_strptime] compiles ["%Y-%m-%d"] to. *)
Definition FORMAT_REGEX : regex :=
  Seq TimeRE_Y (Seq (Chr "-") (Seq TimeRE_m (Seq (Chr "-") TimeRE_d))).

(** [int(s)] on what the groups above can hold: decimal digits after
    optional leading blanks. *)
Fixpoint int_digits (acc : Z) (s : string) : option Z :=
  match s with
  | EmptyString => Some acc
  | String c s' =>
      let n := nat_of_ascii c in
      if (Nat.leb 48 n && Nat.leb n 57)%bool
      then int_digits (10 * acc + Z.of_nat (n - 48)) s'
      else None
  end.

Fixpoint int (s : string) : option Z :=
  match s with
  | EmptyString => None
  | String c s' => if Ascii.eqb c " " then int s' else int_digits 0 s
  end.

(** [datetime.strptime(s, "%Y-%m-%d")]; [None] stands for [ValueError]:
    the string does not match the format, unconverted data remains after
    the match, or the fields are not a date of the calendar. *)
Definition strptime_Ymd (s : string) : option datetime :=
  match re_match FORMAT_REGEX s with
  | None => None
  | Some (end_, g) =>
      if negb (Nat.eqb (String.length s) end_) then None
      else
        match group g "Y", group g "m", group g "d" with
        | Some ys, Some ms, Some ds =>
            match int ys, int ms, int ds with
            | Some y, Some m, Some d =>
                if _check_date_fields y m d then Some (midnight (mkdate y m d)) else None
            | _, _, _ => None
            end
        | _, _, _ => None
        end
  end.

End Py.

Import Py.

(** ** Exceptions, the world and the monad of stateful code *)

Inductive exn : Type :=
| NotFoundError            (* elasticsearch.exceptions.NotFoundError *)
| AuthorizationException   (* elasticsearch.exceptions.AuthorizationException *)
| TransportError (info : string)  (* any other error of the client library *)
| ValueError
| KeyError
| AssertionError
| AttributeError.

Inductive Outcome (A : Type) : Type :=
| Ret (a : A)
| Raise (e : exn).
Arguments Ret {A} a.
Arguments Raise {A} e.

Inductive http_auth : Type :=
| AWS4Auth (access_key secret_key region service : string)
| BasicAuth (access_key secret_key : string).

(** A client object made by [connections.create_connection]. *)
Record Connection : Type := mkConnection {
  conn_host : option string;
  conn_port : option Z;
  conn_http_auth : option http_auth;
  conn_use_ssl : bool;
  conn_verify_certs : bool;
  conn_timeout : Z
}.

Definition settings : Type := list (string * string).

(** The requests that the program sends to the cluster. *)
Inductive request : Type :=
| GetTemplate (conn : Connection) (name : string)
| PutTemplate (conn : Connection) (name : string) (index_pattern : string)
              (index_settings : settings)
| IndicesGet (conn : Connection) (index : string)
| IndicesDelete (conn : Connection) (index : string).

(** A reply is the list of names (keys) of the returned document, or an
    exception. *)
Definition reply : Type := Outcome (list string).

Definition event : Type := (request * reply)%type.

Inductive LogRecord : Type :=
| LogWarn (msg : string)
| LogException (msg : string) (args : list string).

(** The object [self] of class [ElasticsearchLogs]. *)
Record ElasticsearchLogs : Type := mkElasticsearchLogs {
  _host : option string;
  _port : option Z;
  _access_key : option string;
  _secret_key : option string;
  _aws_region : option string;
  _index_prefix : string;
  _index_settings : option settings;
  _use_ssl : bool;
  _client : option Connection;
  _initialized : bool
}.

(** The class attributes of [LogEntry] that [LogEntry.init] sets. *)
Record LogEntryClass : Type := mkLogEntryClass {
  le_index : option (string * settings);   (* name and settings of [cls._index] *)
  le_index_prefix : option string;
  le_initialized : bool
}.

Record World : Type := mkWorld {
  self : ElasticsearchLogs;
  connections : gmap string Connection;
  LogEntry : LogEntryClass;
  logs : list LogRecord;
  trace : list event
}.

Definition M (A : Type) : Type := World -> Outcome A * World.

Definition ret {A} (a : A) : M A := fun w => (Ret a, w).
Definition raise {A} (e : exn) : M A := fun w => (Raise e, w).

Definition bind {A B} (m : M A) (f : A -> M B) : M B :=
  fun w => match m w with
           | (Ret a, w') => f a w'
           | (Raise e, w') => (Raise e, w')
           end.

Notation "x <- m ;; k" := (bind m (fun x => k))
  (at level 100, m at next level, right associativity).
Notation "m ;;; k" := (bind m (fun _ => k))
  (at level 100, right associativity).

(** [try: body except E: handler]: [handler e] is [None] for the exceptions
    that no [except] clause names. *)
Definition try_except {A} (body : M A) (handler : exn -> option (M A)) : M A :=
  fun w => match body w with
           | (Ret a, w') => (Ret a, w')
           | (Raise e, w') =>
               match handler e with
               | Some h => h w'
               | None => (Raise e, w')
               end
           end.

(** [try: body finally: cleanup]: the cleanup always runs; when it returns,
    the outcome of the body stands. *)
Definition try_finally {A} (body : M A) (cleanup : M unit) : M A :=
  fun w => match body w with
           | (r, w') =>
               match cleanup w' with
               | (Ret _, w'') => (r, w'')
               | (Raise e, w'') => (Raise e, w'')
               end
           end.

(** [assert b] *)
Definition assert (b : bool) : M unit :=
  if b then ret tt else raise AssertionError.

Definition get_self : M ElasticsearchLogs := fun w => (Ret (self w), w).

Definition set_self (f : ElasticsearchLogs -> ElasticsearchLogs) : M unit :=
  fun w => (Ret tt, mkWorld (f (self w)) (connections w) (LogEntry w) (logs w) (trace w)).

Definition set_client (c : option Connection) (o : ElasticsearchLogs) : ElasticsearchLogs :=
  mkElasticsearchLogs (_host o) (_port o) (_access_key o) (_secret_key o) (_aws_region o)
    (_index_prefix o) (_index_settings o) (_use_ssl o) c (_initialized o).

Definition set_initialized (b : bool) (o : ElasticsearchLogs) : ElasticsearchLogs :=
  mkElasticsearchLogs (_host o) (_port o) (_access_key o) (_secret_key o) (_aws_region o)
    (_index_prefix o) (_index_settings o) (_use_ssl o) (_client o) b.

Definition set_LogEntry (c : LogEntryClass) : M unit :=
  fun w => (Ret tt, mkWorld (self w) (connections w) c (logs w) (trace w)).

(** [logger.warn], [logger.exception] *)
Definition log (r : LogRecord) : M unit :=
  fun w => (Ret tt, mkWorld (self w) (connections w) (LogEntry w) (logs w ++ [r]) (trace w)).

(** [connections.create_connection(alias, ...)]: registers and returns the client. *)
Definition create_connection (alias : string) (c : Connection) : M Connection :=
  fun w => (Ret c, mkWorld (self w) (<[alias := c]> (connections w)) (LogEntry w)
                           (logs w) (trace w)).

(** [connections.remove_connection(alias)]: [KeyError] when there is none. *)
Definition remove_connection (alias : string) : M unit :=
  fun w => match connections w !! alias with
           | Some _ => (Ret tt, mkWorld (self w) (delete alias (connections w))
                                        (LogEntry w) (logs w) (trace w))
           | None => (Raise KeyError, w)
           end.

(** [connections.get_connection(alias)] *)
Definition get_connection (alias : string) : M Connection :=
  fun w => match connections w !! alias with
           | Some c => (Ret c, w)
           | None => (Raise KeyError, w)
           end.

(** Truth value of an optional string ([None] and the empty string are false). *)
Definition truthy_opt (o : option string) : bool :=
  match o with Some s => PyStr.truthy s | None => false end.

Definition str_of (o : option string) : string :=
  match o with Some s => s | None => EmptyString end.

(** ** Methods that do not contact the cluster *)

(** [ElasticsearchLogs.index_name] *)
Definition index_name (day : date) : M string :=
  o <- get_self ;;
  ret (_index_prefix o ++ strftime_Ymd day).

(** [ElasticsearchLogs._valid_index_name] *)
Definition _valid_index_name (index : string) : M bool :=
  o <- get_self ;;
  if negb (_valid_index_prefix index) then ret false
  else if negb (PyStr.startswith index (_index_prefix o)) || (255 <? PyStr.len index)
  then ret false
  else
    match PyStr.split1_last index (_index_prefix o) with
    | None => raise ValueError
    | Some index_dt_str =>
        match strptime_Ymd index_dt_str with
        | Some _ => ret true
        | None =>
            log (LogException "Invalid date format (YYYY-MM-DD) for index: %s" [index]) ;;;
            ret false
        end
    end.

(** [ElasticsearchLogs.can_delete_index] *)
Definition can_delete_index (index : string) (cutoff_date : datetime) : M bool :=
  valid <- _valid_index_name index ;;
  assert valid ;;;
  o <- get_self ;;
  match strptime_Ymd (PyStr.slice_from (String.length (_index_prefix o)) index) with
  | None => raise ValueError
  | Some index_dt =>
      ret (datetime_lt index_dt cutoff_date
           && timedelta_ge (datetime_sub cutoff_date index_dt) (mk_timedelta 1 0 0))
  end.

(** ** Methods that talk to the cluster *)

Section Cluster.

(** The cluster: the reply to a request may depend on all earlier events. *)
Variable backend : list event -> request -> reply.

(** The environment variable [FORCE_INDEX_TEMPLATE_UPDATE] (default [""]). *)
Variable ELASTICSEARCH_FORCE_INDEX_TEMPLATE_UPDATE : string.

(** One request: the reply is returned or raised, and the event recorded. *)
Definition call (r : request) : M (list string) :=
  fun w => let a := backend (trace w) r in
           (a, mkWorld (self w) (connections w) (LogEntry w) (logs w)
                       (trace w ++ [(r, a)])).

(** [LogEntry.create_or_update_template] *)
Definition create_or_update_template : M unit :=
  fun w =>
    match le_index (LogEntry w), le_index_prefix (LogEntry w) with
    | Some (index_name_, index_settings), Some prefix =>
        (assert (PyStr.truthy prefix) ;;;
         es <- get_connection ELASTICSEARCH_TEMPLATE_CONNECTION_ALIAS ;;
         call (PutTemplate es prefix index_name_ index_settings) ;;;
         ret tt) w
    | _, _ => (Raise AssertionError, w)
    end.

(** [LogEntry.init] *)
Definition LogEntry_init (index_prefix : string) (index_settings : option settings)
           (skip_template_init : bool) : M unit :=
  let wildcard_index :=
    (index_prefix ++ "*", match index_settings with Some s => s | None => [] end) in
  (fun w => set_LogEntry (mkLogEntryClass (Some wildcard_index) (Some index_prefix)
                                          (le_initialized (LogEntry w))) w) ;;;
  (if negb skip_template_init then create_or_update_template else ret tt) ;;;
  (fun w => set_LogEntry (mkLogEntryClass (le_index (LogEntry w))
                                          (le_index_prefix (LogEntry w)) true) w).

(** The [finally] block of [_initialize]. *)
Definition remove_template_connection : M unit :=
  try_except
    (remove_connection ELASTICSEARCH_TEMPLATE_CONNECTION_ALIAS)
    (fun e => match e with
              | KeyError =>
                  Some (log (LogException
                               "Elasticsearch connection not found to remove %s: %s"
                               [ELASTICSEARCH_TEMPLATE_CONNECTION_ALIAS; "KeyError"]))
              | _ => None
              end).

(** [ElasticsearchLogs._initialize] *)
Definition _initialize : M unit :=
  o <- get_self ;;
  if negb (_initialized o) then
    http_auth <-
      (if truthy_opt (_access_key o) && truthy_opt (_secret_key o)
          && truthy_opt (_aws_region o)
       then ret (Some (AWS4Auth (str_of (_access_key o)) (str_of (_secret_key o))
                                (str_of (_aws_region o)) "es"))
       else if truthy_opt (_access_key o) && truthy_opt (_secret_key o)
       then ret (Some (BasicAuth (str_of (_access_key o)) (str_of (_secret_key o))))
       else log (LogWarn "Connecting to Elasticsearch without HTTP auth") ;;; ret None) ;;
    client <- create_connection "default"
                (mkConnection (_host o) (_port o) http_auth (_use_ssl o) true
                              ELASTICSEARCH_DEFAULT_CONNECTION_TIMEOUT) ;;
    set_self (set_client (Some client)) ;;;
    create_connection ELASTICSEARCH_TEMPLATE_CONNECTION_ALIAS
      (mkConnection (_host o) (_port o) http_auth (_use_ssl o) true
                    ELASTICSEARCH_TEMPLATE_CONNECTION_TIMEOUT) ;;;
    try_finally
      (try_except
         (let force_template_update :=
            String.eqb (PyStr.lower ELASTICSEARCH_FORCE_INDEX_TEMPLATE_UPDATE) "true" in
          call (GetTemplate client (_index_prefix o)) ;;;
          LogEntry_init (_index_prefix o) (_index_settings o)
                        (negb force_template_update))
         (fun e => match e with
                   | NotFoundError =>
                       Some (LogEntry_init (_index_prefix o) (_index_settings o) false)
                   | _ => None
                   end))
      remove_template_connection ;;;
    set_self (set_initialized true)
  else ret tt.

(** [self._client.indices...]: an attribute of [None] is an [AttributeError]. *)
Definition the_client : M Connection :=
  o <- get_self ;;
  match _client o with
  | Some c => ret c
  | None => raise AttributeError
  end.

(** [ElasticsearchLogs.index_exists] *)
Definition index_exists (index : string) : M bool :=
  try_except
    (client <- the_client ;;
     names <- call (IndicesGet client index) ;;
     ret (existsb (String.eqb index) names))
    (fun e => match e with
              | NotFoundError => Some (ret false)
              | _ => None
              end).

(** [ElasticsearchLogs.list_indices]; the result [None] is Python's [None]. *)
Definition list_indices : M (option (list string)) :=
  _initialize ;;;
  o <- get_self ;;
  try_except
    (client <- the_client ;;
     names <- call (IndicesGet client (_index_prefix o ++ "*")) ;;
     ret (Some names))
    (fun e => match e with
              | NotFoundError =>
                  Some (log (LogException "`%s` indices not found: %s"
                                          [_index_prefix o; "NotFoundError"]) ;;;
                        ret (Some []))
              | AuthorizationException =>
                  Some (log (LogException "Unauthorized for indices `%s`: %s"
                                          [_index_prefix o; "AuthorizationException"]) ;;;
                        ret None)
              | _ => None
              end).

(** [ElasticsearchLogs.delete_index]; the result [None] is Python's [None]. *)
Definition delete_index (index : string) : M (option string) :=
  _initialize ;;;
  valid <- _valid_index_name index ;;
  assert valid ;;;
  try_except
    (client <- the_client ;;
     call (IndicesDelete client index) ;;;
     ret (Some index))
    (fun e => match e with
              | NotFoundError =>
                  Some (log (LogException "`%s` indices not found: %s"
                                          [index; "NotFoundError"]) ;;;
                        ret None)
              | AuthorizationException =>
                  Some (log (LogException "Unauthorized to delete index `%s`: %s"
                                          [index; "AuthorizationException"]) ;;;
                        ret None)
              | _ => None
              end).

End Cluster.

(** [ElasticsearchLogs.__init__] *)
Definition new_ElasticsearchLogs (host : option string) (port : option Z)
           (access_key secret_key aws_region : option string)
           (index_settings : option settings) (use_ssl : bool)
           (index_prefix : string) : ElasticsearchLogs :=
  mkElasticsearchLogs host port access_key secret_key aws_region index_prefix
                      index_settings use_ssl None false.

(** A process in which nothing has happened yet, holding the object [o]. *)
Definition initial_world (o : ElasticsearchLogs) : World :=
  mkWorld o ∅ (mkLogEntryClass None None false) [] [].

(** ** Definitions used by the statements and proofs *)

(** The characters that the class of [VALID_INDEX_PATTERN] excludes. *)
Definition forbidden : list (ascii * ascii) :=
  [("A", "Z"); one ":"; one "/"; one "*"; one "?"; one "034"; one "<"; one ">";
   one "|"; one ","; one "#"; one " "]%char.

Definition allowed (c : ascii) : bool := in_set true forbidden c.

Definition final : nat -> string -> groups -> option found := fun p _ g => Some (p, g).

(** [$] holds at [s]. *)
Definition at_end (s : string) : bool :=
  match s with
  | EmptyString => true
  | String x s' => Ascii.eqb x "010" && match s' with EmptyString => true | _ => false end
  end.

(** The negative lookahead of the pattern finds what it forbids at [s]. *)
Definition lookahead (s : string) : bool :=
  match s with
  | EmptyString => false
  | String c r =>
      (Ascii.eqb c "." && at_end r)
      || (Ascii.eqb c "."
          && match r with String c2 r2 => Ascii.eqb c2 "." && at_end r2 | EmptyString => false end)
      || in_set false [one "-"; one "_"; one "+"]%char c
  end.

(** [{lo,hi}] repetitions of an allowed character, then [$]. *)
Fixpoint body (lo hi : nat) (s : string) : bool :=
  match hi with
  | O => Nat.eqb lo 0 && at_end s
  | S hi' =>
      match s with
      | String x s' => allowed x && body (Nat.pred lo) hi' s'
      | EmptyString => false
      end || (Nat.eqb lo 0 && at_end s)
  end.

(** The loop of [Rep], as a function of its own. *)
Section RepLoop.
Variable r : regex.
Variable k : nat -> string -> groups -> option found.

Fixpoint rep_of (lo hi pos : nat) (s : string) (g : groups) {struct hi} : option found :=
  match hi with
  | O => match lo with O => k pos s g | S _ => None end
  | S hi' =>
      match run r pos s g (fun p s' g' => rep_of (Nat.pred lo) hi' p s' g') with
      | Some f => Some f
      | None => match lo with O => k pos s g | S _ => None end
      end
  end.
End RepLoop.

Fixpoint all_allowed (s : string) : bool :=
  match s with
  | EmptyString => true
  | String c s' => allowed c && all_allowed s'
  end.

Definition leap_day (y : Z) : Z := if _is_leap y then 1 else 0.

Definition valid_time (t : datetime) : bool :=
  (0 <=? hour t) && (hour t <? 24) && (0 <=? minute t) && (minute t <? 60)
  && (0 <=? second t) && (second t <? 60)
  && (0 <=? microsecond t) && (microsecond t <? 1000000).

(** What the constructor of [datetime] accepts. *)
Definition valid_datetime (t : datetime) : bool := valid_date (dt_date t) && valid_time t.

(** ** Events, sequences of calls and concrete clusters *)

(** A template registration that the cluster acknowledged. *)
Definition is_registration (e : event) : bool :=
  match e with
  | (PutTemplate _ _ _ _, Ret _) => true
  | _ => false
  end.

(** A request to register the template, acknowledged or not. *)
Definition is_put_template (e : event) : bool :=
  match fst e with
  | PutTemplate _ _ _ _ => true
  | _ => false
  end.

(** A request to the data plane: listing, looking up or deleting indices. *)
Definition is_data_plane (e : event) : bool :=
  match fst e with
  | IndicesGet _ _ | IndicesDelete _ _ => true
  | _ => false
  end.

Definition is_delete (e : event) : bool :=
  match fst e with
  | IndicesDelete _ _ => true
  | _ => false
  end.

Fixpoint count_events (p : event -> bool) (t : list event) : nat :=
  match t with
  | [] => 0
  | e :: t' => (if p e then 1 else 0) + count_events p t'
  end.

Definition succeeded {A} (r : Outcome A) : bool :=
  match r with Ret _ => true | Raise _ => false end.

(** The calls that a client of the class can make, and their effect on the
    world whatever they return or raise. *)
Inductive api_call : Type :=
| Call_initialize
| Call_list_indices
| Call_delete_index (index : string)
| Call_index_exists (index : string).

Definition run_call (backend : list event -> request -> reply) (force : string)
           (c : api_call) (w : World) : World :=
  match c with
  | Call_initialize => snd (_initialize backend force w)
  | Call_list_indices => snd (list_indices backend force w)
  | Call_delete_index index => snd (delete_index backend force index w)
  | Call_index_exists index => snd (index_exists backend index w)
  end.

Fixpoint run_calls (backend : list event -> request -> reply) (force : string)
         (cs : list api_call) (w : World) : World :=
  match cs with
  | [] => w
  | c :: cs' => run_calls backend force cs' (run_call backend force c w)
  end.

(** At most one acknowledged registration, and none before the manager is
    initialised. *)
Definition registered_once (w : World) : Prop :=
  (count_events is_registration (trace w) <= 1)%nat
  /\ (_initialized (self w) = false -> count_events is_registration (trace w) = 0%nat).

(** [c * n] for a one-character string [c] *)
Fixpoint repeat_char (c : ascii) (n : nat) : string :=
  match n with
  | O => EmptyString
  | S n' => String c (repeat_char c n')
  end.

(** A manager made with the default prefix, in a process where nothing has
    happened yet. *)
Definition example_manager : ElasticsearchLogs :=
  new_ElasticsearchLogs (Some "localhost") (Some 9200) None None None None true
                        INDEX_NAME_PREFIX.

Definition example_world : World := initial_world example_manager.

(** The client that [_initialize] makes for [example_manager]. *)
Definition example_client : Connection :=
  mkConnection (Some "localhost") (Some 9200) None true true
               ELASTICSEARCH_DEFAULT_CONNECTION_TIMEOUT.

(** A cluster that answers each kind of request in a fixed way. *)
Definition cluster_with (on_lookup on_list on_delete : reply)
  : list event -> request -> reply :=
  fun _ r =>
    match r with
    | GetTemplate _ _ => on_lookup
    | PutTemplate _ _ _ _ => Ret []
    | IndicesGet _ _ => on_list
    | IndicesDelete _ _ => on_delete
    end.

(** [s.endswith("\n")] *)
Fixpoint ends_with_newline (s : string) : bool :=
  match s with
  | EmptyString => false
  | String c EmptyString => Ascii.eqb c "010"
  | String _ s' => ends_with_newline s'
  end.

(** The first character of [s] is one of [-], [_] and [+]. *)
Definition starts_with_sign (s : string) : bool :=
  match s with
  | EmptyString => false
  | String c _ => in_set false [one "-"; one "_"; one "+"]%char c
  end.

(** ** [LogEntry.save] and [configure_es] *)

(** [INDEX_DATE_FORMAT] *)
Definition INDEX_DATE_FORMAT : string := "%Y-%m-%d".

Definition prepend (s : string) (r : Outcome string) : Outcome string :=
  match r with
  | Ret x => Ret (s ++ x)
  | Raise e => Raise e
  end.

Section Strftime.

(** What [strftime] does with the rest of a format once it meets a
    conversion other than [%Y], [%m], [%d] and [%%] (or a [%] that ends the
    format): the result depends on the C library and its locale, and may be
    an error. *)
Variable other_conversions : string -> datetime -> Outcome string.

(** [t.strftime(format)], which CPython hands to the [strftime] of the C
    library (see [strftime_Ymd]): the format ends at its first NUL character,
    ordinary characters are copied, [%Y] is the year without padding, [%m] and
    [%d] are two digits, and [%%] is a percent sign. *)
Fixpoint strftime (format : string) (t : datetime) : Outcome string :=
  match format with
  | EmptyString => Ret EmptyString
  | String c rest =>
      if Ascii.eqb c "000" then Ret EmptyString
      else if Ascii.eqb c "%" then
        match rest with
        | String x rest' =>
            if Ascii.eqb x "Y" then
              prepend (decimal (year (dt_date t))) (strftime rest' t)
            else if Ascii.eqb x "m" then
              prepend (zero_padded 2 (month (dt_date t))) (strftime rest' t)
            else if Ascii.eqb x "d" then
              prepend (zero_padded 2 (day (dt_date t))) (strftime rest' t)
            else if Ascii.eqb x "%" then
              prepend "%" (strftime rest' t)
            else other_conversions rest t
        | EmptyString => other_conversions rest t
        end
      else prepend (String c EmptyString) (strftime rest t)
  end.

End Strftime.

Definition get_LogEntry : M LogEntryClass := fun w => (Ret (LogEntry w), w).

Section Documents.

Variable other_conversions : string -> datetime -> Outcome string.

(** The class [Document] of elasticsearch_dsl: the values that keyword
    arguments hold, with the strings among them, and the method [save] that
    [LogEntry] overrides. *)
Variable Value : Type.
Variable str_value : string -> Value.
Variable Result : Type.
Variable Document_save : gmap string Value -> M Result.

(** [LogEntry.save]; [datetime_] is the field [self.datetime] of the
    document, [None] when it holds no date. *)
Definition LogEntry_save (datetime_ : option datetime) (kwargs : gmap string Value)
  : M Result :=
  cls <- get_LogEntry ;;
  assert (le_initialized cls) ;;;
  match datetime_, le_index_prefix cls with
  | Some t, Some prefix =>
      match strftime other_conversions (prefix ++ INDEX_DATE_FORMAT) t with
      | Ret index => Document_save (<["index" := str_value index]> kwargs)
      | Raise e => raise e
      end
  | _, _ => raise AttributeError
  end.

End Documents.

Section Configure.

Variable backend : list event -> request -> reply.
Variable ELASTICSEARCH_FORCE_INDEX_TEMPLATE_UPDATE : string.

(** [configure_es]: the new manager becomes the object that the methods run
    on. *)
Definition configure_es (host : option string) (port : option Z)
           (access_key secret_key aws_region index_prefix : option string)
           (use_ssl : bool) (index_settings : option settings) : M ElasticsearchLogs :=
  let es_client :=
    new_ElasticsearchLogs host port access_key secret_key aws_region index_settings
      use_ssl (if truthy_opt index_prefix then str_of index_prefix else INDEX_NAME_PREFIX) in
  set_self (fun _ => es_client) ;;;
  _initialize backend ELASTICSEARCH_FORCE_INDEX_TEMPLATE_UPDATE ;;;
  get_self.

End Configure.

(** ["%" in s] and the like *)
Fixpoint has_char (c : ascii) (s : string) : bool :=
  match s with
  | EmptyString => false
  | String x s' => Ascii.eqb x c || has_char c s'
  end.

(** *** The run of [_initialize] on a manager that is not initialised *)

(** The credentials that [_initialize] gives to its connections. *)
Definition http_auth_of (o : ElasticsearchLogs) : option http_auth :=
  if truthy_opt (_access_key o) && truthy_opt (_secret_key o) && truthy_opt (_aws_region o)
  then Some (AWS4Auth (str_of (_access_key o)) (str_of (_secret_key o))
                      (str_of (_aws_region o)) "es")
  else if truthy_opt (_access_key o) && truthy_opt (_secret_key o)
  then Some (BasicAuth (str_of (_access_key o)) (str_of (_secret_key o)))
  else None.

(** The client that [_initialize] makes, and its template connection. *)
Definition client_of (o : ElasticsearchLogs) : Connection :=
  mkConnection (_host o) (_port o) (http_auth_of o) (_use_ssl o) true
               ELASTICSEARCH_DEFAULT_CONNECTION_TIMEOUT.

Definition template_connection_of (o : ElasticsearchLogs) : Connection :=
  mkConnection (_host o) (_port o) (http_auth_of o) (_use_ssl o) true
               ELASTICSEARCH_TEMPLATE_CONNECTION_TIMEOUT.

(** The log once the connections are made: a warning without credentials. *)
Definition warned (w : World) : list LogRecord :=
  match http_auth_of (self w) with
  | Some _ => logs w
  | None => (logs w ++ [LogWarn "Connecting to Elasticsearch without HTTP auth"])%list
  end.

(** The world in which the [try] statement of [_initialize] starts. *)
Definition connected (w : World) : World :=
  mkWorld (set_client (Some (client_of (self w))) (self w))
          (<[ELASTICSEARCH_TEMPLATE_CONNECTION_ALIAS := template_connection_of (self w)]>
             (<["default" := client_of (self w)]> (connections w)))
          (LogEntry w) (warned w) (trace w).

(** The world in which [_initialize] ends with the outcome [r]. *)
Definition after_initialize (w : World) (r : Outcome unit) (cls : LogEntryClass)
           (t : list event) : World :=
  let o := set_client (Some (client_of (self w))) (self w) in
  mkWorld (if succeeded r then set_initialized true o else o)
          (delete ELASTICSEARCH_TEMPLATE_CONNECTION_ALIAS
                  (<["default" := client_of (self w)]> (connections w)))
          cls (warned w) t.

(** The index, the template request and the attributes of [LogEntry] that
    [LogEntry.init] makes for a manager. *)
Definition wildcard_index (o : ElasticsearchLogs) : string * settings :=
  (_index_prefix o ++ "*", match _index_settings o with Some s => s | None => [] end).

Definition put_template (o : ElasticsearchLogs) : request :=
  PutTemplate (template_connection_of o) (_index_prefix o) (fst (wildcard_index o))
              (snd (wildcard_index o)).

Definition configured (o : ElasticsearchLogs) (initialized : bool) : LogEntryClass :=
  mkLogEntryClass (Some (wildcard_index o)) (Some (_index_prefix o)) initialized.

Section FreshInitialize.

Variable backend : list event -> request -> reply.
Variable FORCE : string.

(** [LogEntry.init] with the registration of the template, after the events
    [t]: the outcome, the flag of [LogEntry] and the events it adds. *)
Definition register (w : World) (t : list event) : Outcome unit * bool * list event :=
  if PyStr.truthy (_index_prefix (self w)) then
    let a := backend t (put_template (self w)) in
    (match a with Ret _ => Ret tt | Raise e => Raise e end,
     if succeeded a then true else le_initialized (LogEntry w),
     [(put_template (self w), a)])
  else (Raise AssertionError, le_initialized (LogEntry w), []).

(** The run of [_initialize], spelled out by the replies of the cluster: the
    lookup, then the registration when the template is missing or the update
    is forced, once more when a forced registration is answered with
    not-found.  The lemma [initialize_fresh_run] shows that this is what
    [_initialize] computes. *)
Definition fresh_initialize (w : World) : Outcome unit * World :=
  let o := self w in
  let lookup_request := GetTemplate (client_of o) (_index_prefix o) in
  let lookup := backend (trace w) lookup_request in
  let t := (trace w ++ [(lookup_request, lookup)])%list in
  let registered (t : list event) :=
    match register w t with
    | (r, b, evs) => (r, after_initialize w r (configured o b) (t ++ evs)%list)
    end in
  match lookup with
  | Ret _ =>
      if String.eqb (PyStr.lower FORCE) "true" then
        match register w t with
        | (Raise NotFoundError, _, evs) => registered (t ++ evs)%list
        | _ => registered t
        end
      else (Ret tt, after_initialize w (Ret tt) (configured o true) t)
  | Raise NotFoundError => registered t
  | Raise e => (Raise e, after_initialize w (Raise e) (LogEntry w) t)
  end.

End FreshInitialize.

(** *** The pattern of prefixes and the format of dates *)

(** The strings that the lookahead of [VALID_INDEX_PATTERN] rules out, beside
    those that begin with a sign: one or two dots, alone or before a final
    newline. *)
Definition dots : list string :=
  ["."; ".."; String "." (String "010" EmptyString);
   String "." (String "." (String "010" EmptyString))].

Definition is_dots (s : string) : bool := existsb (String.eqb s) dots.

(** Patterns made of characters, classes, sequences and alternatives, as
    those inside the groups of [FORMAT_REGEX]. *)
Fixpoint plain (r : regex) : bool :=
  match r with
  | Chr _ | Set_ _ _ => true
  | Seq r1 r2 | Alt r1 r2 => plain r1 && plain r2
  | _ => false
  end.

(** The strings that such a pattern matches. *)
Inductive matches : regex -> string -> Prop :=
| matches_Chr (c : ascii) : matches (Chr c) (String c EmptyString)
| matches_Set (negated : bool) (ranges : list (ascii * ascii)) (c : ascii) :
    in_set negated ranges c = true -> matches (Set_ negated ranges) (String c EmptyString)
| matches_Seq (r1 r2 : regex) (m1 m2 : string) :
    matches r1 m1 -> matches r2 m2 -> matches (Seq r1 r2) (m1 ++ m2)
| matches_Alt_l (r1 r2 : regex) (m : string) : matches r1 m -> matches (Alt r1 r2) m
| matches_Alt_r (r1 r2 : regex) (m : string) : matches r2 m -> matches (Alt r1 r2) m.

(** The pattern inside a group. *)
Definition inner (r : regex) : regex :=
  match r with
  | Group _ r' => r'
  | _ => r
  end.

(** The ways to write the month or the day [n] that [strptime] reads: two
    digits, or one digit when [n] is below ten. *)
Definition written (n : Z) (s : string) : Prop :=
  s = zero_padded 2 n \/ (n < 10 /\ s = String (digit_char n) EmptyString).

(** * Properties *)

(** ** Strings, digits and the date format *)

Lemma append_nil (s : string) : EmptyString ++ s = s.
Proof. reflexivity. Qed.

Lemma append_cons (c : ascii) (p s : string) : String c p ++ s = String c (p ++ s).
Proof. reflexivity. Qed.

Lemma append_length (p s : string) :
  String.length (p ++ s) = (String.length p + String.length s)%nat.
Proof.
  induction p as [|c p IH]; [reflexivity|].
  rewrite append_cons. simpl. now rewrite IH.
Qed.

Lemma startswith_app (p s : string) : PyStr.startswith (p ++ s) p = true.
Proof.
  induction p as [|c p IH]; [reflexivity|].
  rewrite append_cons. simpl. now rewrite Ascii.eqb_refl.
Qed.

Lemma slice_from_app (p s : string) : PyStr.slice_from (String.length p) (p ++ s) = s.
Proof.
  induction p as [|c p IH]; [reflexivity|].
  rewrite append_cons. exact IH.
Qed.

Lemma split1_last_app (p s : string) :
  p <> EmptyString -> PyStr.split1_last (p ++ s) p = Some s.
Proof.
  intros Hp. unfold PyStr.split1_last.
  destruct p as [|c p]; [congruence|].
  assert (H : PyStr.after_first (String c p ++ s) (String c p) = Some s).
  { rewrite append_cons. unfold PyStr.after_first.
    rewrite <- append_cons, startswith_app.
    f_equal. apply slice_from_app. }
  now rewrite H.
Qed.

Lemma len_app (p s : string) : PyStr.len (p ++ s) = PyStr.len p + PyStr.len s.
Proof. unfold PyStr.len. rewrite append_length. lia. Qed.

Lemma digit_cases (n : Z) :
  let k := n mod 10 in
  k = 0 \/ k = 1 \/ k = 2 \/ k = 3 \/ k = 4 \/ k = 5 \/ k = 6 \/ k = 7 \/ k = 8 \/ k = 9.
Proof. intros k. pose proof (Z.mod_pos_bound n 10 ltac:(lia)). lia. Qed.

Ltac digit_case n :=
  unfold digit_char;
  pose proof (digit_cases n) as Hdc; cbv zeta in Hdc;
  repeat (destruct Hdc as [Hdc|Hdc]); rewrite Hdc.

Lemma digit_char_is_digit (n : Z) : in_set false [("0", "9")]%char (digit_char n) = true.
Proof. digit_case n; reflexivity. Qed.

Lemma digit_char_not_space (n : Z) : Ascii.eqb (digit_char n) " " = false.
Proof. digit_case n; reflexivity. Qed.

Lemma digit_char_value (n : Z) :
  let c := nat_of_ascii (digit_char n) in
  (Nat.leb 48 c && Nat.leb c 57)%bool = true /\ Z.of_nat (c - 48) = n mod 10.
Proof. digit_case n; split; reflexivity. Qed.

Lemma zero_padded_2 (n : Z) :
  zero_padded 2 n = String (digit_char (n / 10)) (String (digit_char n) EmptyString).
Proof. reflexivity. Qed.

Lemma zero_padded_4 (n : Z) :
  zero_padded 4 n =
  String (digit_char (n / 10 / 10 / 10))
    (String (digit_char (n / 10 / 10))
       (String (digit_char (n / 10)) (String (digit_char n) EmptyString))).
Proof. reflexivity. Qed.

Ltac Zify.zify_post_hook ::= Z.to_euclidean_division_equations.

Lemma int_digits_step (acc n : Z) (s : string) :
  int_digits acc (String (digit_char n) s) = int_digits (10 * acc + n mod 10) s.
Proof.
  cbn [int_digits].
  destruct (digit_char_value n) as [H1 H2]. cbv zeta in H1, H2.
  now rewrite H1, H2.
Qed.

Lemma int_zero_padded_4 (n : Z) : 0 <= n < 10000 -> int (zero_padded 4 n) = Some n.
Proof.
  intros Hn. rewrite zero_padded_4. cbn [int].
  rewrite digit_char_not_space, !int_digits_step. cbn [int_digits].
  f_equal. lia.
Qed.

Lemma int_zero_padded_2 (n : Z) : 0 <= n < 100 -> int (zero_padded 2 n) = Some n.
Proof.
  intros Hn. rewrite zero_padded_2. cbn [int].
  rewrite digit_char_not_space, !int_digits_step. cbn [int_digits].
  f_equal. lia.
Qed.

(** The year group consumes the four digits of a zero-padded year. *)
Lemma run_year (y : Z) (rest : string) (k : nat -> string -> groups -> option found) :
  run TimeRE_Y 0
      (zero_padded 4 y ++ rest) [] k
  = k 4%nat rest [("Y", zero_padded 4 y)].
Proof.
  rewrite zero_padded_4, !append_cons, append_nil.
  cbn [run digit range TimeRE_Y]. rewrite !digit_char_is_digit.
  cbn [Nat.sub String.substring]. now destruct rest.
Qed.

Lemma month_cases (m : Z) : 1 <= m <= 12 ->
  m = 1 \/ m = 2 \/ m = 3 \/ m = 4 \/ m = 5 \/ m = 6 \/ m = 7 \/ m = 8 \/ m = 9
  \/ m = 10 \/ m = 11 \/ m = 12.
Proof. lia. Qed.

Lemma run_day_end (d : Z) (g : groups) : 1 <= d <= 31 ->
  run TimeRE_d 8 (zero_padded 2 d) g (fun p _ g' => Some (p, g'))
  = Some (10%nat, ("d", zero_padded 2 d) :: g).
Proof.
  intros Hd.
  assert (H : exists n : nat, (n < 31)%nat /\ d = Z.of_nat (S n)).
  { exists (Z.to_nat (d - 1)). lia. }
  destruct H as (n & Hn & ->).
  do 31 (destruct n as [|n]; [reflexivity|]). lia.
Qed.

Lemma substring_0_0 (s : string) : substring 0 0 s = EmptyString.
Proof. now destruct s. Qed.

Lemma run_month_then (m : Z) (rest : string) (g : groups)
      (k : nat -> string -> groups -> option found) (f : found) : 1 <= m <= 12 ->
  k 7%nat rest (("m", zero_padded 2 m) :: g) = Some f ->
  run TimeRE_m 5 (zero_padded 2 m ++ rest) g k = Some f.
Proof.
  intros Hm Hk.
  destruct (month_cases m Hm) as [->|[->|[->|[->|[->|[->|[->|[->|[->|[->|[->| ->]]]]]]]]]]];
    set (zp := zero_padded 2 _) in *; vm_compute in zp; subst zp;
    rewrite !append_cons, append_nil; cbn; rewrite substring_0_0, Hk; reflexivity.
Qed.

Lemma isoformat_length (d : date) : String.length (isoformat d) = 10%nat.
Proof.
  unfold isoformat. rewrite zero_padded_4, !zero_padded_2.
  rewrite !append_cons, !append_nil. reflexivity.
Qed.

Lemma valid_date_bounds (d : date) : valid_date d = true ->
  1 <= year d <= 9999 /\ 1 <= month d <= 12 /\ 1 <= day d <= 31.
Proof.
  unfold valid_date, _check_date_fields, MINYEAR, MAXYEAR. intros H.
  repeat (apply andb_prop in H; destruct H as [H ?]).
  assert (_days_in_month (year d) (month d) <= 31).
  { unfold _days_in_month.
    destruct ((month d =? 2) && _is_leap (year d)); [lia|].
    destruct (month_cases (month d) ltac:(lia))
      as [->|[->|[->|[->|[->|[->|[->|[->|[->|[->|[->| ->]]]]]]]]]]]; simpl; lia. }
  lia.
Qed.

(** Parsing the formatted day gives the day back, at midnight. *)
Lemma strptime_isoformat (d : date) :
  valid_date d = true -> strptime_Ymd (isoformat d) = Some (midnight d).
Proof.
  intros Hv. destruct (valid_date_bounds d Hv) as (Hy & Hm & Hd).
  assert (Hre : re_match FORMAT_REGEX (isoformat d)
                = Some (10%nat, [("d", zero_padded 2 (day d));
                                 ("m", zero_padded 2 (month d));
                                 ("Y", zero_padded 4 (year d))])).
  { unfold re_match, FORMAT_REGEX, isoformat.
    cbn [run]. rewrite run_year.
    change ("-" ++ ?t) with (String "-" t). cbn [run Ascii.eqb Bool.eqb].
    apply run_month_then; [exact Hm|].
    cbn [run Ascii.eqb Bool.eqb]. now apply run_day_end. }
  unfold strptime_Ymd. rewrite Hre, isoformat_length. cbn [Nat.eqb negb group String.eqb Ascii.eqb Bool.eqb].
  rewrite int_zero_padded_4, !int_zero_padded_2 by lia.
  unfold valid_date in Hv. rewrite Hv. now destruct d.
Qed.

(** From the year 1000 on, [strftime] writes what [isoformat] writes. *)
Lemma strftime_isoformat (d : date) : 1000 <= year d -> strftime_Ymd d = isoformat d.
Proof.
  intros Hy. unfold strftime_Ymd, isoformat, decimal.
  destruct (Z.ltb_spec (year d) 10); [lia|].
  destruct (Z.ltb_spec (year d) 100); [lia|].
  destruct (Z.ltb_spec (year d) 1000); [lia|]. reflexivity.
Qed.

Lemma zero_padded_1 (n : Z) : zero_padded 1 n = String (digit_char n) EmptyString.
Proof. reflexivity. Qed.

Lemma zero_padded_3 (n : Z) :
  zero_padded 3 n
  = String (digit_char (n / 10 / 10))
      (String (digit_char (n / 10)) (String (digit_char n) EmptyString)).
Proof. reflexivity. Qed.

(** The year as [strftime] writes it: one to four digits. *)
Lemma decimal_cases (y : Z) :
  (y < 1000 /\ (decimal y = zero_padded 1 y \/ decimal y = zero_padded 2 y
                \/ decimal y = zero_padded 3 y))
  \/ (1000 <= y /\ decimal y = zero_padded 4 y).
Proof.
  unfold decimal.
  destruct (Z.ltb_spec y 10); [left; split; [lia | now left]|].
  destruct (Z.ltb_spec y 100); [left; split; [lia | right; now left]|].
  destruct (Z.ltb_spec y 1000); [left; split; [lia | right; now right]|].
  right. split; [lia | reflexivity].
Qed.

(** A year below 1000 is written with fewer than four digits, and [strptime]
    does not read it: [%Y] takes exactly four. *)
Lemma strptime_strftime_short_year (d : date) :
  year d < 1000 -> strptime_Ymd (strftime_Ymd d) = None.
Proof.
  intros Hy. unfold strptime_Ymd.
  assert (Hre : re_match FORMAT_REGEX (strftime_Ymd d) = None);
    [|now rewrite Hre].
  unfold strftime_Ymd.
  destruct (decimal_cases (year d)) as [(_ & [->|[->| ->]])|(Hge & _)]; [| | |lia];
    rewrite ?zero_padded_1, ?zero_padded_2, ?zero_padded_3, !append_cons, !append_nil;
    unfold re_match, FORMAT_REGEX, TimeRE_Y, digit, range;
    cbn [run]; rewrite ?digit_char_is_digit; reflexivity.
Qed.

Lemma run_Eol_final (pos : nat) (s : string) (g : groups) :
  is_not_None (run Eol pos s g final) = at_end s.
Proof.
  destruct s as [|x [|y s]]; cbn [run at_end]; try reflexivity;
    destruct (Ascii.eqb x "010"); reflexivity.
Qed.

Lemma run_Rep (r : regex) (lo hi pos : nat) (s : string) (g : groups)
      (k : nat -> string -> groups -> option found) :
  run (Rep r lo hi) pos s g k = rep_of r k lo hi pos s g.
Proof. reflexivity. Qed.

Lemma run_rep_body (lo hi pos : nat) (s : string) (g : groups) :
  is_not_None (rep_of (Group None (Set_ true forbidden))
                      (fun p s' g' => run Eol p s' g' final) lo hi pos s g)
  = body lo hi s.
Proof.
  revert lo pos s. induction hi as [|hi IH]; intros lo pos s.
  - cbn [rep_of body]. destruct lo; cbn [Nat.eqb andb]; [apply run_Eol_final | reflexivity].
  - cbn [body rep_of]. 
    assert (Hstep : forall k', run (Group None (Set_ true forbidden)) pos s g k'
              = match s with
                | String x s' => if allowed x then k' (S pos) s' g else None
                | EmptyString => None
                end) by (intros k'; now destruct s).
    rewrite Hstep. clear Hstep.
    destruct s as [|x s].
    + destruct lo; cbn [Nat.eqb andb orb]; [apply run_Eol_final | reflexivity].
    + destruct (allowed x); cbn [andb orb].
      * rewrite <- (IH (Nat.pred lo) (S pos) s).
        match goal with |- is_not_None (match ?a with _ => _ end) = _ => destruct a end;
          [reflexivity|].
        destruct lo; cbn [Nat.eqb andb orb is_not_None]; [apply run_Eol_final | reflexivity].
      * destruct lo; cbn [Nat.eqb andb orb is_not_None]; [apply run_Eol_final | reflexivity].
Qed.

Lemma run_lookahead (s : string) :
  is_not_None
    (run (Alt (Seq (Chr ".") Eol)
              (Alt (Seq (Chr ".") (Seq (Chr ".") Eol))
                   (Set_ false [one "-"; one "_"; one "+"]%char)))
         0 s [] (fun p _ g' => Some (p, g')))
  = lookahead s.
Proof.
  destruct s as [|c [|c2 [|c3 [|c4 r]]]]; [reflexivity|..];
    cbn [run lookahead at_end];
    destruct (Ascii.eqb c "."), (in_set false [one "-"; one "_"; one "+"]%char c);
    try reflexivity;
    try (destruct (Ascii.eqb c2 "."), (Ascii.eqb c2 "010"); try reflexivity);
    try (destruct (Ascii.eqb c3 "010"); reflexivity).
Qed.

(** What [re.match(VALID_INDEX_PATTERN, s)] decides. *)
Lemma valid_index_prefix_unfold (s : string) :
  _valid_index_prefix s = negb (lookahead s) && body 1 255 s.
Proof.
  rewrite <- run_lookahead.
  unfold _valid_index_prefix, re_match, VALID_INDEX_PATTERN.
  fold forbidden.
  remember (Rep (Group None (Set_ true forbidden)) 1 255) as R eqn:HR.
  remember (Alt (Seq (Chr ".") Eol) _) as L eqn:HL.
  cbn [run].
  destruct (run L 0 s [] _); cbn [is_not_None negb andb]; [reflexivity|].
  subst R. rewrite run_Rep. exact (run_rep_body 1 255 0 s []).
Qed.

Lemma at_end_length (s : string) : at_end s = true -> (String.length s <= 1)%nat.
Proof.
  destruct s as [|x [|y s]]; cbn [at_end String.length];
    rewrite ?andb_false_r; intros H; (discriminate || lia).
Qed.

Lemma at_end_allowed (s : string) : at_end s = true -> all_allowed s = true.
Proof.
  destruct s as [|x [|y s]]; cbn [at_end all_allowed]; [reflexivity| |].
  - rewrite andb_true_r. intros H%Ascii.eqb_eq. now subst x.
  - rewrite andb_false_r. discriminate.
Qed.

Lemma body_all_allowed (lo hi : nat) (s : string) :
  body lo hi s = true -> all_allowed s = true.
Proof.
  revert lo s. induction hi as [|hi IH]; intros lo s; cbn [body].
  - intros [_ H]%andb_prop. now apply at_end_allowed.
  - intros [H|[_ H]%andb_prop]%orb_prop; [|now apply at_end_allowed].
    destruct s as [|x s]; [discriminate|].
    apply andb_prop in H as [Hx Hs]. cbn [all_allowed]. rewrite Hx.
    exact (IH _ _ Hs).
Qed.

Lemma body_nonempty (lo hi : nat) : body (S lo) hi EmptyString = false.
Proof. destruct hi; reflexivity. Qed.

Lemma body_length (lo hi : nat) (s : string) :
  body lo hi s = true -> (lo <= String.length s <= S hi)%nat.
Proof.
  revert lo s. induction hi as [|hi IH]; intros lo s; cbn [body].
  - intros [Hlo H]%andb_prop. apply Nat.eqb_eq in Hlo. apply at_end_length in H. lia.
  - intros [H|[Hlo H]%andb_prop]%orb_prop.
    + destruct s as [|x s]; [discriminate|].
      apply andb_prop in H as [_ Hs]. apply IH in Hs. cbn [String.length]. lia.
    + apply Nat.eqb_eq in Hlo. apply at_end_length in H. lia.
Qed.

Lemma body_intro (lo hi : nat) (s : string) :
  all_allowed s = true -> (lo <= String.length s <= hi)%nat -> body lo hi s = true.
Proof.
  revert lo s. induction hi as [|hi IH]; intros lo s Ha Hl; cbn [body].
  - destruct s; cbn [String.length] in Hl; [|lia].
    assert (lo = 0%nat) as -> by lia. reflexivity.
  - destruct s as [|x s]; cbn [String.length] in Hl.
    + assert (lo = 0%nat) as -> by lia. reflexivity.
    + cbn [all_allowed] in Ha. apply andb_prop in Ha as [Hx Hs].
      rewrite Hx, (IH (Nat.pred lo) s Hs) by lia. reflexivity.
Qed.

Lemma all_allowed_app (p t : string) :
  all_allowed (p ++ t) = all_allowed p && all_allowed t.
Proof.
  induction p as [|c p IH]; [reflexivity|].
  rewrite append_cons. cbn [all_allowed]. now rewrite IH, andb_assoc.
Qed.

Lemma lookahead_app (p t : string) :
  p <> EmptyString -> lookahead p = false -> (3 <= String.length t)%nat ->
  lookahead (p ++ t) = false.
Proof.
  intros Hp Hl Ht. destruct p as [|c p]; [congruence|].
  rewrite append_cons. cbn [lookahead] in Hl |- *.
  apply orb_false_elim in Hl as [_ Hc]. rewrite Hc, orb_false_r.
  assert (H1 : at_end (p ++ t) = false).
  { destruct (at_end (p ++ t)) eqn:E; [|reflexivity].
    apply at_end_length in E. rewrite append_length in E. lia. }
  rewrite H1, andb_false_r. cbn [orb].
  destruct (p ++ t) as [|c2 r2] eqn:E; [now rewrite andb_false_r|].
  assert (H2 : at_end r2 = false).
  { destruct (at_end r2) eqn:E2; [|reflexivity].
    apply at_end_length in E2.
    assert (String.length (p ++ t) = S (String.length r2)) by now rewrite E.
    rewrite append_length in *. lia. }
  now rewrite H2, !andb_false_r.
Qed.

Lemma allowed_digit_char (n : Z) : allowed (digit_char n) = true.
Proof. digit_case n; reflexivity. Qed.

Lemma all_allowed_isoformat (d : date) : all_allowed (isoformat d) = true.
Proof.
  unfold isoformat. rewrite zero_padded_4, !zero_padded_2.
  rewrite !append_cons, !append_nil. cbn [all_allowed].
  rewrite !allowed_digit_char. reflexivity.
Qed.

(** A valid prefix is not empty and has only allowed characters. *)
Lemma valid_index_prefix_inv (p : string) :
  _valid_index_prefix p = true ->
  p <> EmptyString /\ lookahead p = false /\ all_allowed p = true.
Proof.
  rewrite valid_index_prefix_unfold. intros [Hl Hb]%andb_prop.
  apply negb_true_iff in Hl. repeat split; [|exact Hl|now apply body_all_allowed in Hb].
  intros ->. now rewrite body_nonempty in Hb.
Qed.

(** A valid prefix of at most 245 characters followed by a formatted day
    matches the pattern again. *)
Lemma valid_index_prefix_name (p : string) (d : date) :
  _valid_index_prefix p = true -> PyStr.len p <= 245 ->
  _valid_index_prefix (p ++ isoformat d) = true.
Proof.
  intros Hv Hlen. destruct (valid_index_prefix_inv p Hv) as (Hne & Hl & Ha).
  rewrite valid_index_prefix_unfold.
  rewrite lookahead_app by (rewrite ?isoformat_length; auto; lia).
  cbn [negb andb]. apply body_intro.
  - now rewrite all_allowed_app, Ha, all_allowed_isoformat.
  - rewrite append_length, isoformat_length. unfold PyStr.len in Hlen. lia.
Qed.

Lemma leap_day_range (y : Z) : 0 <= leap_day y <= 1.
Proof. unfold leap_day. destruct (_is_leap y); lia. Qed.

Lemma days_before_year_succ (y : Z) :
  _days_before_year (y + 1) = _days_before_year y + 365 + leap_day y.
Proof.
  unfold _days_before_year, leap_day, _is_leap.
  destruct (Z.eqb_spec (y mod 4) 0), (Z.eqb_spec (y mod 100) 0),
    (Z.eqb_spec (y mod 400) 0); cbn [negb andb orb]; lia.
Qed.

Lemma days_before_year_mono (a b : Z) : a <= b -> _days_before_year a <= _days_before_year b.
Proof. unfold _days_before_year. lia. Qed.

Lemma days_before_month_succ (y m : Z) : 1 <= m <= 11 ->
  _days_before_month y (m + 1) = _days_before_month y m + _days_in_month y m.
Proof.
  intros Hm. unfold _days_before_month, _days_in_month.
  assert (H : m = 1 \/ m = 2 \/ m = 3 \/ m = 4 \/ m = 5 \/ m = 6 \/ m = 7 \/ m = 8
              \/ m = 9 \/ m = 10 \/ m = 11) by lia.
  repeat (destruct H as [H|H]); subst m; destruct (_is_leap y); reflexivity.
Qed.

Lemma days_in_month_pos (y m : Z) : 1 <= m <= 12 -> 28 <= _days_in_month y m <= 31.
Proof.
  intros Hm. unfold _days_in_month.
  destruct (month_cases m Hm) as [->|[->|[->|[->|[->|[->|[->|[->|[->|[->|[->| ->]]]]]]]]]]];
    destruct (_is_leap y); cbn; lia.
Qed.

Lemma days_before_month_mono (y a b : Z) : 1 <= a -> a <= b -> b <= 12 ->
  _days_before_month y a <= _days_before_month y b.
Proof.
  intros Ha Hab Hb.
  assert (H : exists n : nat, b = a + Z.of_nat n) by (exists (Z.to_nat (b - a)); lia).
  destruct H as [n ->]. clear Hab.
  induction n as [|n IH]; [replace (a + Z.of_nat 0) with a by lia; lia|].
  replace (a + Z.of_nat (S n)) with (a + Z.of_nat n + 1) in * by lia.
  rewrite days_before_month_succ by lia.
  pose proof (days_in_month_pos y (a + Z.of_nat n) ltac:(lia)). 
  specialize (IH ltac:(lia)). lia.
Qed.

Lemma days_before_december (y : Z) :
  _days_before_month y 12 + _days_in_month y 12 = 365 + leap_day y.
Proof. unfold _days_before_month, _days_in_month, leap_day. destruct (_is_leap y); reflexivity. Qed.

Lemma days_before_month_nonneg (y m : Z) : 1 <= m <= 12 -> 0 <= _days_before_month y m.
Proof.
  intros Hm. pose proof (days_before_month_mono y 1 m ltac:(lia) ltac:(lia) ltac:(lia)).
  unfold _days_before_month at 1 in H. cbn in H. lia.
Qed.

Lemma check_date_fields_inv (y m d : Z) : _check_date_fields y m d = true ->
  1 <= y <= 9999 /\ 1 <= m <= 12 /\ 1 <= d <= _days_in_month y m.
Proof.
  unfold _check_date_fields, MINYEAR, MAXYEAR. intros H.
  repeat (apply andb_prop in H; destruct H as [H ?]). lia.
Qed.

(** The day of the year stays within the year. *)
Lemma day_of_year_range (y m d : Z) : _check_date_fields y m d = true ->
  1 <= _days_before_month y m + d <= 365 + leap_day y.
Proof.
  intros (Hy & Hm & Hd)%check_date_fields_inv.
  pose proof (days_before_month_nonneg y m Hm).
  pose proof (days_before_month_mono y m 12 ltac:(lia) ltac:(lia) ltac:(lia)).
  pose proof (days_before_december y).
  assert (m = 12 \/ m <= 11) as [->|Hm'] by lia; [lia|].
  pose proof (days_before_month_succ y m ltac:(lia)).
  pose proof (days_before_month_mono y (m + 1) 12 ltac:(lia) ltac:(lia) ltac:(lia)).
  pose proof (days_in_month_pos y 12 ltac:(lia)). lia.
Qed.

(** [toordinal] is strictly monotone for the order of the field tuples. *)
Lemma tuple_cmp_toordinal (a b : date) :
  valid_date a = true -> valid_date b = true ->
  tuple_cmp [year a; month a; day a] [year b; month b; day b]
  = (toordinal a ?= toordinal b).
Proof.
  destruct a as [ya ma da], b as [yb mb db]. unfold valid_date, toordinal, _ymd2ord.
  cbn [year month day]. intros Ha Hb.
  pose proof (day_of_year_range _ _ _ Ha) as Ra.
  pose proof (day_of_year_range _ _ _ Hb) as Rb.
  apply check_date_fields_inv in Ha as (Hya & Hma & Hda).
  apply check_date_fields_inv in Hb as (Hyb & Hmb & Hdb).
  cbn [tuple_cmp]. symmetry.
  destruct (Z.compare_spec ya yb) as [->|Hlt|Hgt].
  - destruct (Z.compare_spec ma mb) as [->|Hlt|Hgt].
    + destruct (Z.compare_spec da db); [apply Z.compare_eq_iff | apply Z.compare_lt_iff
                                        | apply Z.compare_gt_iff]; lia.
    + apply Z.compare_lt_iff.
      pose proof (days_before_month_succ yb ma ltac:(lia)).
      pose proof (days_before_month_mono yb (ma + 1) mb ltac:(lia) ltac:(lia) ltac:(lia)).
      lia.
    + apply Z.compare_gt_iff.
      pose proof (days_before_month_succ yb mb ltac:(lia)).
      pose proof (days_before_month_mono yb (mb + 1) ma ltac:(lia) ltac:(lia) ltac:(lia)).
      lia.
  - apply Z.compare_lt_iff.
    pose proof (days_before_year_succ ya).
    pose proof (days_before_year_mono (ya + 1) yb ltac:(lia)). lia.
  - apply Z.compare_gt_iff.
    pose proof (days_before_year_succ yb).
    pose proof (days_before_year_mono (yb + 1) ya ltac:(lia)). lia.
Qed.

Lemma tuple_cmp_app (a b a' b' : list Z) : List.length a = List.length b ->
  tuple_cmp (a ++ a')%list (b ++ b')%list
  = match tuple_cmp a b with Eq => tuple_cmp a' b' | c => c end.
Proof.
  revert b. induction a as [|x a IH]; intros [|y b] Hl; try discriminate; [reflexivity|].
  cbn [app tuple_cmp]. destruct (x ?= y); try reflexivity.
  apply IH. now injection Hl.
Qed.

(** The retention test, in terms of day numbers: an index is deletable when
    its day is before the day of the cutoff. *)
Lemma retention_test (d : date) (cutoff_date : datetime) :
  valid_date d = true -> valid_datetime cutoff_date = true ->
  datetime_lt (midnight d) cutoff_date
  && timedelta_ge (datetime_sub cutoff_date (midnight d)) (mk_timedelta 1 0 0)
  = (toordinal d <? toordinal (dt_date cutoff_date)).
Proof.
  intros Hd [Hc Ht]%andb_prop.
  unfold datetime_lt, datetime_fields.
  change [year (dt_date (midnight d)); month (dt_date (midnight d)); day (dt_date (midnight d));
          hour (midnight d); minute (midnight d); second (midnight d);
          microsecond (midnight d)]
    with ([year d; month d; day d] ++ [0; 0; 0; 0])%list.
  change [year (dt_date cutoff_date); month (dt_date cutoff_date); day (dt_date cutoff_date);
          hour cutoff_date; minute cutoff_date; second cutoff_date; microsecond cutoff_date]
    with ([year (dt_date cutoff_date); month (dt_date cutoff_date); day (dt_date cutoff_date)]
          ++ [hour cutoff_date; minute cutoff_date; second cutoff_date;
              microsecond cutoff_date])%list.
  rewrite tuple_cmp_app by reflexivity.
  rewrite (tuple_cmp_toordinal d (dt_date cutoff_date) Hd Hc).
  unfold valid_time in Ht.
  repeat (apply andb_prop in Ht; destruct Ht as [Ht ?]).
  unfold datetime_sub, timedelta_ge, mk_timedelta.
  cbn [midnight hour minute second microsecond dt_date days seconds microseconds].
  set (od := toordinal d). set (oc := toordinal (dt_date cutoff_date)).
  set (S := second cutoff_date + minute cutoff_date * 60 + hour cutoff_date * 3600
            - (0 + 0 * 60 + 0 * 3600)).
  set (U := microsecond cutoff_date - 0).
  assert (HU : U / 1000000 = 0 /\ U mod 1000000 = U) by (subst U; lia).
  destruct HU as [HU1 HU2]. rewrite HU1, HU2.
  assert (HS : (S + 0) / 86400 = 0 /\ (S + 0) mod 86400 = S) by (subst S; lia).
  destruct HS as [HS1 HS2]. rewrite HS1, HS2.
  change ((1 + (0 + 0 / 1000000) / 86400)) with 1.
  change ((0 + 0 / 1000000) mod 86400) with 0.
  change (0 mod 1000000) with 0.
  cbn [tuple_cmp].
  destruct (Z.compare_spec od oc) as [Heq|Hlt|Hgt].
  - replace (od <? oc) with false by (symmetry; apply Z.ltb_ge; lia).
    replace (oc - od + 0 ?= 1) with Lt by (symmetry; apply Z.compare_lt_iff; lia).
    apply andb_false_r.
  - replace (od <? oc) with true by (symmetry; apply Z.ltb_lt; lia).
    cbn [andb].
    destruct (Z.compare_spec (oc - od + 0) 1) as [E|E|E]; [|lia|reflexivity].
    destruct (Z.compare_spec S 0) as [E1|E1|E1]; [|subst S; lia|reflexivity].
    destruct (Z.compare_spec U 0) as [E2|E2|E2]; [reflexivity|subst U; lia|reflexivity].
  - replace (od <? oc) with false by (symmetry; apply Z.ltb_ge; lia). reflexivity.
Qed.

(** ** Naming, validation and the retention decision *)

Ltac unfold_monad :=
  repeat progress unfold create_connection, set_self, try_finally, try_except, call,
    LogEntry_init, set_LogEntry, remove_template_connection, remove_connection,
    create_or_update_template, get_connection, assert, bind, log, get_self, the_client,
    ret, raise in *.

(** The name that [index_name] builds passes validation when the prefix
    leaves room for the date. *)
Lemma valid_index_name_of_day (w : World) (d : date) :
  let p := _index_prefix (self w) in
  _valid_index_prefix p = true -> PyStr.len p <= 245 -> valid_date d = true ->
  _valid_index_name (p ++ isoformat d) w = (Ret true, w).
Proof.
  cbv zeta. intros Hp Hl Hd.
  destruct (valid_index_prefix_inv _ Hp) as (Hne & _ & _).
  unfold _valid_index_name. unfold_monad. cbv beta iota.
  rewrite (valid_index_prefix_name _ d Hp Hl), startswith_app. cbn [negb orb].
  assert (Hlen : (255 <? PyStr.len (_index_prefix (self w) ++ isoformat d)) = false).
  { apply Z.ltb_ge. rewrite len_app. unfold PyStr.len at 2. rewrite isoformat_length. lia. }
  rewrite Hlen, (split1_last_app _ _ Hne), (strptime_isoformat d Hd). reflexivity.
Qed.

Lemma can_delete_index_of_day (w : World) (d : date) (cutoff_date : datetime) :
  let p := _index_prefix (self w) in
  _valid_index_prefix p = true -> PyStr.len p <= 245 -> valid_date d = true ->
  valid_datetime cutoff_date = true ->
  can_delete_index (p ++ isoformat d) cutoff_date w
  = (Ret (toordinal d <? toordinal (dt_date cutoff_date)), w).
Proof.
  cbv zeta. intros Hp Hl Hd Hc.
  unfold can_delete_index, bind at 1.
  rewrite (valid_index_name_of_day w d Hp Hl Hd).
  unfold_monad. cbv beta iota.
  rewrite slice_from_app, (strptime_isoformat d Hd), (retention_test d cutoff_date Hd Hc).
  reflexivity.
Qed.

(** Claim C1 (amended): the retention boundary of [can_delete_index].  With a
    cutoff at midnight of 2024-03-10, the index of 2024-03-08 is deletable, the
    index of 2024-03-09 is deletable too, and the index of 2024-03-10 is not;
    in general an index dated exactly one day before a midnight cutoff is
    deletable, since the test is [cutoff - d >= timedelta(days=1)].  The
    names are the prefix followed by the day written as [YYYY-MM-DD]. *)
Theorem can_delete_index_boundary (w : World) :
  let p := _index_prefix (self w) in
  let cutoff_date := midnight (mkdate 2024 3 10) in
  _valid_index_prefix p = true -> PyStr.len p <= 245 ->
  fst (can_delete_index (p ++ "2024-03-08") cutoff_date w) = Ret true
  /\ fst (can_delete_index (p ++ "2024-03-09") cutoff_date w) = Ret true
  /\ fst (can_delete_index (p ++ "2024-03-10") cutoff_date w) = Ret false
  /\ forall d c : date,
      valid_date d = true -> valid_date c = true -> toordinal c = toordinal d + 1 ->
      fst (can_delete_index (p ++ isoformat d) (midnight c) w) = Ret true.
Proof.
  cbv zeta. intros Hp Hl.
  change "2024-03-08" with (isoformat (mkdate 2024 3 8)).
  change "2024-03-09" with (isoformat (mkdate 2024 3 9)).
  change "2024-03-10" with (isoformat (mkdate 2024 3 10)).
  rewrite !(can_delete_index_of_day w _ _ Hp Hl) by reflexivity.
  repeat split.
  intros d c Hd Hc Ho.
  rewrite (can_delete_index_of_day w d (midnight c) Hp Hl Hd).
  - cbn [fst midnight dt_date]. f_equal. apply Z.ltb_lt. lia.
  - unfold valid_datetime. cbn [midnight dt_date]. now rewrite Hc.
Qed.

(** *** What validation guarantees *)

(** With a prefix that is not empty, validation returns a boolean. *)
Lemma valid_index_name_returns (index : string) (w : World) :
  _index_prefix (self w) <> EmptyString ->
  exists b, fst (_valid_index_name index w) = Ret b.
Proof.
  intros Hne. unfold _valid_index_name. unfold_monad. cbv beta iota.
  destruct (negb (_valid_index_prefix index)); [eauto|].
  destruct (_ || _); [eauto|].
  destruct (_index_prefix (self w)) as [|c p]; [congruence|].
  cbn [PyStr.split1_last]. destruct (strptime_Ymd _); eauto.
Qed.

(** A name is valid only if what follows the prefix parses as a date. *)
Lemma valid_index_name_suffix (p s : string) (w : World) :
  _index_prefix (self w) = p -> p <> EmptyString ->
  fst (_valid_index_name (p ++ s) w) = Ret true ->
  exists d, valid_date d = true /\ strptime_Ymd s = Some (midnight d).
Proof.
  intros Hp Hne. unfold _valid_index_name. unfold_monad. cbv beta iota. rewrite Hp.
  destruct (negb (_valid_index_prefix (p ++ s))); [discriminate|].
  destruct (_ || _); [discriminate|].
  rewrite (split1_last_app p s Hne).
  destruct (strptime_Ymd s) as [t|] eqn:Ht; [intros _ | discriminate].
  unfold strptime_Ymd in Ht.
  repeat match type of Ht with
         | context [match ?x with _ => _ end] => destruct x eqn:?; try discriminate
         end.
  injection Ht as <-. eexists (mkdate _ _ _). split; [eassumption | reflexivity].
Qed.

(** Names whose suffix does not parse are rejected, whatever the prefix. *)
Lemma valid_index_name_rejects (p s : string) (w : World) :
  _index_prefix (self w) = p -> p <> EmptyString -> strptime_Ymd s = None ->
  fst (_valid_index_name (p ++ s) w) = Ret false.
Proof.
  intros Hp Hne Hs.
  assert (Hw : _index_prefix (self w) <> EmptyString) by congruence.
  destruct (valid_index_name_returns (p ++ s) w Hw) as [[|] Hb]; [|exact Hb].
  destruct (valid_index_name_suffix p s w Hp Hne Hb) as (d & _ & Hd). congruence.
Qed.

Lemma valid_index_name_rejects_examples (p : string) (w : World) :
  _index_prefix (self w) = p -> p <> EmptyString ->
  fst (_valid_index_name (p ++ "2024-13-40") w) = Ret false
  /\ fst (_valid_index_name (p ++ "2024-01-01extra") w) = Ret false.
Proof.
  intros Hp Hne. split; apply valid_index_name_rejects; auto; vm_compute; reflexivity.
Qed.

(** Claim C2 (amended): round trip of [index_name].  For every prefix that
    [_valid_index_prefix] accepts and that has at most 245 characters, and for
    every day [d] of the calendar, the name that [index_name d] builds is
    [prefix + strftime(d)].  For the years 1000 to 9999 it passes
    [_valid_index_name] (which returns [True] and changes nothing), and
    parsing its date suffix, taken either as [name.split(prefix, 1)[-1]] or
    as [name[len(prefix):]], gives [d] back, at midnight.  For the years 1 to
    999 [strftime] writes the year with fewer than four digits, [strptime]
    does not read it, and [_valid_index_name] returns [False].  A longer
    prefix is excluded: the name would exceed 255 characters. *)
Theorem index_name_round_trip (w : World) (d : date) :
  let p := _index_prefix (self w) in
  _valid_index_prefix p = true -> PyStr.len p <= 245 -> valid_date d = true ->
  exists name,
    index_name d w = (Ret name, w)
    /\ PyStr.split1_last name p = Some (strftime_Ymd d)
    /\ (1000 <= year d ->
        _valid_index_name name w = (Ret true, w)
        /\ strptime_Ymd (strftime_Ymd d) = Some (midnight d)
        /\ strptime_Ymd (PyStr.slice_from (String.length p) name) = Some (midnight d))
    /\ (year d < 1000 ->
        fst (_valid_index_name name w) = Ret false
        /\ strptime_Ymd (strftime_Ymd d) = None).
Proof.
  cbv zeta. intros Hp Hl Hd.
  destruct (valid_index_prefix_inv _ Hp) as (Hne & _ & _).
  exists (_index_prefix (self w) ++ strftime_Ymd d).
  split; [reflexivity|]. split; [now apply split1_last_app|]. split.
  - intros Hy. rewrite (strftime_isoformat d Hy).
    split; [now apply valid_index_name_of_day|].
    split; [now apply strptime_isoformat|].
    rewrite slice_from_app. now apply strptime_isoformat.
  - intros Hy. pose proof (strptime_strftime_short_year d Hy) as Hn.
    split; [|exact Hn]. now apply valid_index_name_rejects.
Qed.

Lemma at_end_no_newline (s : string) :
  ends_with_newline s = false ->
  at_end s = match s with EmptyString => true | _ => false end.
Proof.
  destruct s as [|x [|y s]]; cbn [ends_with_newline at_end]; intros H;
    rewrite ?H, ?andb_false_r; reflexivity.
Qed.

Lemma ends_with_newline_tail (x : ascii) (s : string) :
  ends_with_newline (String x s) = false -> ends_with_newline s = false.
Proof. destruct s; [reflexivity | now cbn [ends_with_newline]]. Qed.

Lemma body_no_newline (lo hi : nat) (s : string) :
  ends_with_newline s = false ->
  body lo hi s
  = all_allowed s && Nat.leb lo (String.length s) && Nat.leb (String.length s) hi.
Proof.
  revert lo s. induction hi as [|hi IH]; intros lo s Hn; cbn [body];
    rewrite (at_end_no_newline s Hn).
  - destruct s; cbn [all_allowed String.length]; [|now rewrite !andb_false_r].
    cbn [andb]. rewrite andb_true_r. now destruct lo.
  - destruct s as [|x s]; cbn [all_allowed String.length].
    + cbn [orb andb]. rewrite andb_true_r. now destruct lo.
    + rewrite andb_false_r, orb_false_r.
      rewrite (IH _ _ (ends_with_newline_tail x s Hn)).
      destruct (allowed x), (all_allowed s); cbn [andb]; try reflexivity.
      destruct lo; reflexivity.
Qed.

Lemma lookahead_no_newline (s : string) :
  ends_with_newline s = false ->
  lookahead s = String.eqb s "." || String.eqb s ".." || starts_with_sign s.
Proof.
  intros Hn. destruct s as [|c [|c2 r2]]; [reflexivity| |].
  - cbn [lookahead starts_with_sign String.eqb at_end].
    destruct (Ascii.eqb c "."); reflexivity.
  - pose proof (ends_with_newline_tail c _ Hn) as Hr.
    pose proof (ends_with_newline_tail c2 r2 Hr) as Hr2.
    cbn [lookahead starts_with_sign String.eqb].
    rewrite (at_end_no_newline _ Hr), (at_end_no_newline r2 Hr2).
    destruct (Ascii.eqb c "."), (Ascii.eqb c2 "."), r2; reflexivity.
Qed.

(** What [_valid_index_prefix] decides on strings that do not end with a
    newline: 1 to 255 characters, none of them excluded by the class, not
    ["."] or [".."], and no [-], [_] or [+] in front. *)
Lemma valid_index_prefix_spec (s : string) :
  ends_with_newline s = false ->
  _valid_index_prefix s = true
  <-> (1 <= PyStr.len s <= 255
       /\ all_allowed s = true
       /\ s <> "." /\ s <> ".."
       /\ starts_with_sign s = false).
Proof.
  intros Hn. rewrite valid_index_prefix_unfold, (body_no_newline 1 255 s Hn),
    (lookahead_no_newline s Hn). unfold PyStr.len.
  destruct (String.eqb_spec s ".") as [->|H1]; [cbn; intuition (discriminate || congruence)|].
  destruct (String.eqb_spec s "..") as [->|H2]; [cbn; intuition (discriminate || congruence)|].
  cbn [orb negb].
  destruct (starts_with_sign s); cbn [negb andb]; [intuition discriminate|].
  destruct (all_allowed s); cbn [andb]; [|intuition discriminate].
  destruct (Nat.leb_spec 1 (String.length s)) as [Ha|Ha],
    (Nat.leb_spec (String.length s) 255) as [Hb|Hb];
    cbn [andb]; split; intros Hx; try discriminate; try (repeat split; auto; lia);
    destruct Hx as (Hl & _); lia.
Qed.

(** ** Initialisation and the operations on the cluster *)

Section ClusterProperties.
Variable backend : list event -> request -> reply.
Variable FORCE : string.   (* the value of FORCE_INDEX_TEMPLATE_UPDATE *)

Lemma initialize_ready (w : World) :
  _initialized (self w) = true -> _initialize backend FORCE w = (Ret tt, w).
Proof.
  intros H. unfold _initialize, bind, get_self, ret. now rewrite H.
Qed.

(** *** The run of [_initialize] on a manager that is not initialised *)

Lemma initialize_fresh_connected (w : World) :
  _initialized (self w) = false ->
  let o := self w in
  _initialize backend FORCE w
  = ((try_finally
        (try_except
           (call backend (GetTemplate (client_of o) (_index_prefix o)) ;;;
            LogEntry_init backend (_index_prefix o) (_index_settings o)
              (negb (String.eqb (PyStr.lower FORCE) "true")))
           (fun e => match e with
                     | NotFoundError =>
                         Some (LogEntry_init backend (_index_prefix o) (_index_settings o)
                                             false)
                     | _ => None
                     end))
        (remove_template_connection) ;;;
      set_self (set_initialized true)) (connected w)).
Proof.
  intros H. cbv zeta. unfold _initialize. unfold bind at 1. unfold get_self at 1.
  cbv beta iota. rewrite H. cbn [negb].
  unfold connected, warned, client_of, template_connection_of, http_auth_of.
  destruct (truthy_opt (_access_key (self w)) && truthy_opt (_secret_key (self w))
            && truthy_opt (_aws_region (self w)));
    [|destruct (truthy_opt (_access_key (self w)) && truthy_opt (_secret_key (self w)))];
    reflexivity.
Qed.


Lemma LogEntry_init_skip (w w1 : World) :
  let o := self w in
  LogEntry_init backend (_index_prefix o) (_index_settings o) true w1
  = (Ret tt, mkWorld (self w1) (connections w1) (configured o true) (logs w1) (trace w1)).
Proof. reflexivity. Qed.

Lemma LogEntry_init_register (w w1 : World) :
  connections w1 !! ELASTICSEARCH_TEMPLATE_CONNECTION_ALIAS
  = Some (template_connection_of (self w)) ->
  le_initialized (LogEntry w1) = le_initialized (LogEntry w) ->
  let o := self w in
  LogEntry_init backend (_index_prefix o) (_index_settings o) false w1
  = match register backend w (trace w1) with
    | (r, b, evs) =>
        (r, mkWorld (self w1) (connections w1) (configured o b) (logs w1)
                    (trace w1 ++ evs))
    end.
Proof.
  intros Hc Hl. cbv zeta. unfold LogEntry_init, register. unfold_monad. cbv beta iota.
  cbn [negb LogEntry le_index le_index_prefix le_initialized connections trace self logs].
  destruct (PyStr.truthy (_index_prefix (self w))); cbv beta iota;
    cbn [LogEntry le_index le_index_prefix le_initialized connections trace self logs].
  - rewrite Hc. cbv beta iota. cbv zeta.
    cbn [LogEntry le_index le_index_prefix le_initialized connections trace self logs].
    unfold put_template, wildcard_index, configured. cbn [fst snd].
    destruct (backend (trace w1) _) as [?|e]; cbn [succeeded]; rewrite ?Hl; reflexivity.
  - rewrite app_nil_r, Hl. reflexivity.
Qed.

Lemma connected_template (w : World) :
  connections (connected w) !! ELASTICSEARCH_TEMPLATE_CONNECTION_ALIAS
  = Some (template_connection_of (self w)).
Proof. unfold connected. cbn [connections]. apply lookup_insert_eq. Qed.

Lemma remove_template_connection_connected (w : World) (s : ElasticsearchLogs)
      (cls : LogEntryClass) (t : list event) :
  remove_template_connection
    (mkWorld s (connections (connected w)) cls (logs (connected w)) t)
  = (Ret tt,
     mkWorld s (delete ELASTICSEARCH_TEMPLATE_CONNECTION_ALIAS
                       (<["default" := client_of (self w)]> (connections w)))
             cls (warned w) t).
Proof.
  unfold remove_template_connection. unfold_monad. cbn [connections].
  rewrite connected_template. unfold connected. cbn [connections logs self].
  now rewrite delete_insert_eq.
Qed.

Lemma register_raises (w : World) (t evs : list event) (e : exn) (b : bool) :
  register backend w t = (Raise e, b, evs) -> b = le_initialized (LogEntry w).
Proof.
  unfold register. destruct (PyStr.truthy _); [|congruence].
  cbv zeta. destruct (backend t _); cbn [succeeded]; congruence.
Qed.

(** [_initialize] on a manager that is not initialised, in one step. *)
Lemma initialize_fresh_run (w : World) :
  _initialized (self w) = false ->
  _initialize backend FORCE w = fresh_initialize backend FORCE w.
Proof.
  intros H. rewrite (initialize_fresh_connected w H). cbv zeta.
  unfold fresh_initialize.
  unfold bind at 1. unfold try_finally, try_except. unfold bind at 1. unfold call at 1.
  cbv zeta. change (trace (connected w)) with (trace w).
  change (self (connected w)) with (set_client (Some (client_of (self w))) (self w)).
  change (LogEntry (connected w)) with (LogEntry w).
  destruct (backend (trace w) (GetTemplate (client_of (self w)) (_index_prefix (self w))))
    as [l|e].
  - destruct (String.eqb (PyStr.lower FORCE) "true"); cbn [negb].
    + rewrite (LogEntry_init_register w) by (apply connected_template || reflexivity).
      cbn [trace self connections logs].
      destruct (register backend w _) as [[r b] evs] eqn:Hr.
      destruct r as [[]|e].
      * rewrite remove_template_connection_connected. reflexivity.
      * destruct e; try (rewrite remove_template_connection_connected; reflexivity).
        rewrite (LogEntry_init_register w)
          by (apply connected_template || exact (register_raises _ _ _ _ _ Hr)).
        cbn [trace self connections logs].
        match goal with
        | |- context [register backend w ?t] =>
            destruct (register backend w t) as [[r2 b2] evs2]
        end.
        rewrite remove_template_connection_connected.
        destruct r2 as [[]|e2]; reflexivity.
    + rewrite (LogEntry_init_skip w). cbn [trace self connections logs].
      rewrite remove_template_connection_connected. reflexivity.
  - destruct e; try (rewrite remove_template_connection_connected; reflexivity).
    rewrite (LogEntry_init_register w) by (apply connected_template || reflexivity).
    cbn [trace self connections logs].
    destruct (register backend w _) as [[r b] evs].
    rewrite remove_template_connection_connected.
    destruct r as [[]|e]; reflexivity.
Qed.


Lemma fresh_initialize_shape (w : World) :
  exists cls t,
    snd (fresh_initialize backend FORCE w)
    = after_initialize w (fst (fresh_initialize backend FORCE w)) cls t.
Proof.
  unfold fresh_initialize. cbv zeta.
  destruct (backend (trace w) _) as [l|e].
  - destruct (String.eqb _ _); [|cbn [fst snd]; eauto].
    destruct (register backend w _) as [[[[]|e] b] evs]; [cbn [fst snd]; eauto|].
    destruct e; try (cbn [fst snd]; eauto).
    destruct (register backend w _) as [[r b2] evs2]. cbn [fst snd]. eauto.
  - destruct e; try (cbn [fst snd]; eauto).
    destruct (register backend w _) as [[r b2] evs2]. cbn [fst snd]. eauto.
Qed.

Lemma client_of_fields (o : ElasticsearchLogs) :
  mkConnection (conn_host (client_of o)) (conn_port (client_of o))
    (conn_http_auth (client_of o)) (conn_use_ssl (client_of o))
    (conn_verify_certs (client_of o)) ELASTICSEARCH_TEMPLATE_CONNECTION_TIMEOUT
  = template_connection_of o.
Proof. reflexivity. Qed.

Lemma initialize_fresh_client (w : World) :
  _initialized (self w) = false ->
  _client (self (snd (_initialize backend FORCE w))) = Some (client_of (self w)).
Proof.
  intros H. rewrite (initialize_fresh_run w H).
  destruct (fresh_initialize_shape w) as (cls & t & ->).
  unfold after_initialize. cbn [self]. now destruct (succeeded _).
Qed.

Lemma truthy_nonempty (p : string) : p <> EmptyString -> PyStr.truthy p = true.
Proof. destruct p; [congruence | reflexivity]. Qed.

(** *** What every run of [_initialize] keeps *)

Ltac crunch :=
  repeat (cbn [self connections LogEntry logs trace negb fst snd le_index le_index_prefix
               le_initialized set_client set_initialized _client _initialized _index_prefix
               _index_settings];
          match goal with
          | |- context [<[?a := ?c]> ?m !! ?a] => rewrite (lookup_insert_eq m a c)
          | |- context [match backend ?t ?r with _ => _ end] =>
              let E := fresh "E" in destruct (backend t r) as [?|[]] eqn:E
          | |- context [if ?b then _ else _] =>
              let E := fresh "E" in destruct b eqn:E
          end).

Lemma initialize_fresh (w : World) :
  _initialized (self w) = false ->
  let r := fst (_initialize backend FORCE w) in
  let w' := snd (_initialize backend FORCE w) in
  connections w' !! ELASTICSEARCH_TEMPLATE_CONNECTION_ALIAS = None
  /\ _index_prefix (self w') = _index_prefix (self w)
  /\ (exists c, _client (self w') = Some c)
  /\ _initialized (self w') = succeeded r
  /\ (exists evs, trace w' = (trace w ++ evs)%list
                  /\ count_events is_data_plane evs = 0%nat
                  /\ (count_events is_registration evs <= 1)%nat
                  /\ (count_events is_registration evs = 1%nat -> r = Ret tt)).
Proof.
  intros H. cbv zeta. unfold _initialize. unfold_monad. rewrite H.
  crunch.
  all: cbn [self connections LogEntry logs trace negb fst snd le_index le_index_prefix
               le_initialized set_client set_initialized _client _initialized _index_prefix
               _index_settings succeeded].
  all: rewrite ?lookup_delete_eq.
  all: repeat split; eauto.
  all: rewrite <- ?app_assoc; eexists; (split; [reflexivity|]); cbn; repeat split; try lia; try congruence.
Qed.

Lemma count_events_app (p : event -> bool) (a b : list event) :
  count_events p (a ++ b)%list = (count_events p a + count_events p b)%nat.
Proof. induction a as [|e a IH]; cbn [app count_events]; lia. Qed.




Lemma initialize_prefix (w : World) :
  _index_prefix (self (snd (_initialize backend FORCE w))) = _index_prefix (self w).
Proof.
  destruct (_initialized (self w)) eqn:H.
  - now rewrite initialize_ready.
  - apply (initialize_fresh w H).
Qed.


(** The requests of [_initialize]: none to the data plane, at most one
    acknowledged registration, and none when the manager stays uninitialised. *)
Lemma initialize_trace (w : World) :
  exists evs,
    trace (snd (_initialize backend FORCE w)) = (trace w ++ evs)%list
    /\ count_events is_data_plane evs = 0%nat
    /\ (count_events is_registration evs <= 1)%nat
    /\ (_initialized (self w) = true -> evs = [])
    /\ (_initialized (self (snd (_initialize backend FORCE w))) = false ->
        count_events is_registration evs = 0%nat).
Proof.
  destruct (_initialized (self w)) eqn:H.
  - rewrite initialize_ready by exact H. exists []. cbn [snd]. rewrite app_nil_r.
    repeat split; auto.
  - destruct (initialize_fresh w H) as (_ & _ & _ & Hf & evs & Ht & Hd & Hr & Hr1).
    cbv zeta in *. exists evs. repeat split; auto; [discriminate|].
    intros Hu. rewrite Hf in Hu.
    destruct (count_events is_registration evs) as [|[|n]] eqn:E; [reflexivity| |lia].
    rewrite Hr1 in Hu by reflexivity. discriminate.
Qed.

Lemma valid_index_name_prefix (index : string) (w1 w2 : World) :
  _index_prefix (self w1) = _index_prefix (self w2) ->
  fst (_valid_index_name index w1) = fst (_valid_index_name index w2).
Proof.
  intros Hp. unfold _valid_index_name. unfold_monad. rewrite Hp.
  repeat match goal with
         | |- context [if ?b then _ else _] => destruct b
         | |- context [match ?o with Some _ => _ | None => _ end] => destruct o
         end; reflexivity.
Qed.

(** Validation changes nothing but the log. *)
Lemma valid_index_name_world (index : string) (w : World) :
  self (snd (_valid_index_name index w)) = self w
  /\ trace (snd (_valid_index_name index w)) = trace w
  /\ (fst (_valid_index_name index w) = Ret true -> snd (_valid_index_name index w) = w).
Proof.
  unfold _valid_index_name. unfold_monad.
  repeat match goal with
         | |- context [if ?b then _ else _] => destruct b
         | |- context [match ?o with Some _ => _ | None => _ end] => destruct o
         end; cbn [fst snd self trace]; repeat split; auto; discriminate.
Qed.

(** What [delete_index] sends after the requests of [_initialize]: nothing,
    or one delete request for a name that passed validation. *)
Lemma delete_index_trace (index : string) (w : World) :
  exists evs,
    trace (snd (delete_index backend FORCE index w))
    = (trace (snd (_initialize backend FORCE w)) ++ evs)%list
    /\ self (snd (delete_index backend FORCE index w))
       = self (snd (_initialize backend FORCE w))
    /\ (evs = []
        \/ (exists c rep, evs = [(IndicesDelete c index, rep)])
           /\ fst (_valid_index_name index w) = Ret true
           /\ fst (_initialize backend FORCE w) = Ret tt).
Proof.
  unfold delete_index, bind.
  pose proof (initialize_prefix w) as Hp.
  destruct (_initialize backend FORCE w) as [[[]|e] w1] eqn:Hi; cbn [fst snd] in *;
    [|exists []; rewrite app_nil_r; auto].
  pose proof (valid_index_name_prefix index w1 w Hp) as Hv.
  destruct (valid_index_name_world index w1) as (Hs & Ht & Hw).
  destruct (_valid_index_name index w1) as [[[|]|e] w2] eqn:Hn; cbn [fst snd] in *;
    [|exists []; cbn [assert raise snd]; rewrite Ht, app_nil_r; auto..].
  specialize (Hw eq_refl). subst w2. cbn [assert ret].
  unfold_monad. cbv beta iota.
  destruct (_client (self w1)) as [c|] eqn:Hc; rewrite ?Hc; cbv beta iota;
    [|exists []; cbn [snd]; rewrite app_nil_r; auto].
  exists [(IndicesDelete c index, backend (trace w1) (IndicesDelete c index))].
  split; [|split; [|right; eauto]];
    destruct (backend (trace w1) (IndicesDelete c index)) as [?|[]];
    cbn [snd trace self]; reflexivity.
Qed.

(** [list_indices] once [_initialize] has returned and left a client. *)
Lemma list_indices_run (w w1 : World) (c : Connection) :
  _initialize backend FORCE w = (Ret tt, w1) ->
  _client (self w1) = Some c ->
  let r := IndicesGet c (_index_prefix (self w1) ++ "*") in
  list_indices backend FORCE w
  = match backend (trace w1) r with
    | Ret names => (Ret (Some names), snd (call backend r w1))
    | Raise NotFoundError =>
        (Ret (Some []),
         snd (log (LogException "`%s` indices not found: %s"
                     [_index_prefix (self w1); "NotFoundError"])
                  (snd (call backend r w1))))
    | Raise AuthorizationException =>
        (Ret None,
         snd (log (LogException "Unauthorized for indices `%s`: %s"
                     [_index_prefix (self w1); "AuthorizationException"])
                  (snd (call backend r w1))))
    | Raise e => (Raise e, snd (call backend r w1))
    end.
Proof.
  intros Hi Hc. cbv zeta. unfold list_indices, bind at 1. rewrite Hi.
  unfold_monad. cbv beta iota. rewrite Hc. cbv beta iota.
  destruct (backend (trace w1) _) as [?|[]]; reflexivity.
Qed.

(** [delete_index] of a valid name once [_initialize] has returned and left
    a client. *)
Lemma delete_index_run (w w1 : World) (c : Connection) (index : string) :
  _initialize backend FORCE w = (Ret tt, w1) ->
  _client (self w1) = Some c ->
  fst (_valid_index_name index w) = Ret true ->
  let r := IndicesDelete c index in
  delete_index backend FORCE index w
  = match backend (trace w1) r with
    | Ret _ => (Ret (Some index), snd (call backend r w1))
    | Raise NotFoundError =>
        (Ret None,
         snd (log (LogException "`%s` indices not found: %s" [index; "NotFoundError"])
                  (snd (call backend r w1))))
    | Raise AuthorizationException =>
        (Ret None,
         snd (log (LogException "Unauthorized to delete index `%s`: %s"
                     [index; "AuthorizationException"])
                  (snd (call backend r w1))))
    | Raise e => (Raise e, snd (call backend r w1))
    end.
Proof.
  intros Hi Hc Hv. cbv zeta.
  pose proof (initialize_prefix w) as Hp. rewrite Hi in Hp. cbn [snd] in Hp.
  rewrite <- (valid_index_name_prefix index w1 w Hp) in Hv.
  destruct (valid_index_name_world index w1) as (_ & _ & Hw). specialize (Hw Hv).
  unfold delete_index, bind at 1. rewrite Hi. unfold bind at 1.
  destruct (_valid_index_name index w1) as [r' w2]. cbn [fst snd] in *. subst r' w2.
  unfold_monad. cbv beta iota. rewrite Hc. cbv beta iota.
  destruct (backend (trace w1) _) as [?|[]]; reflexivity.
Qed.

Lemma list_indices_trace (w : World) :
  exists evs,
    trace (snd (list_indices backend FORCE w))
    = (trace (snd (_initialize backend FORCE w)) ++ evs)%list
    /\ self (snd (list_indices backend FORCE w))
       = self (snd (_initialize backend FORCE w))
    /\ count_events is_registration evs = 0%nat
    /\ (evs = [] \/ fst (_initialize backend FORCE w) = Ret tt).
Proof.
  unfold list_indices, bind.
  destruct (_initialize backend FORCE w) as [[[]|e] w1] eqn:Hi; cbn [fst snd] in *;
    [|exists []; rewrite app_nil_r; auto].
  unfold_monad. cbv beta iota.
  destruct (_client (self w1)) as [c|] eqn:Hc; rewrite ?Hc; cbv beta iota;
    [|exists []; cbn [snd]; rewrite app_nil_r; auto].
  set (r := IndicesGet c (_index_prefix (self w1) ++ "*")).
  exists [(r, backend (trace w1) r)].
  repeat split; [| |right; reflexivity];
    destruct (backend (trace w1) r) as [?|[]];
    cbn [snd trace self]; reflexivity.
Qed.

Lemma index_exists_trace (index : string) (w : World) :
  exists evs,
    trace (snd (index_exists backend index w)) = (trace w ++ evs)%list
    /\ self (snd (index_exists backend index w)) = self w
    /\ count_events is_registration evs = 0%nat.
Proof.
  unfold index_exists. unfold_monad. cbv beta iota.
  destruct (_client (self w)) as [c|] eqn:Hc; rewrite ?Hc; cbv beta iota;
    [|exists []; cbn [snd]; rewrite app_nil_r; auto].
  exists [(IndicesGet c index, backend (trace w) (IndicesGet c index))].
  repeat split;
    destruct (backend (trace w) (IndicesGet c index)) as [?|[]];
    cbn [snd trace self]; reflexivity.
Qed.

Lemma registered_once_initialize (w : World) :
  registered_once w -> registered_once (snd (_initialize backend FORCE w)).
Proof.
  intros [H1 H0]. destruct (initialize_trace w) as (evs & Ht & _ & Hr & Hq & Hu).
  destruct (_initialized (self w)) eqn:Hf.
  - rewrite initialize_ready by exact Hf. cbn [snd].
    split; [exact H1 | intros E; congruence].
  - specialize (H0 eq_refl). unfold registered_once.
    rewrite Ht, count_events_app, H0. split; [exact Hr|]. intros Hn. now rewrite Hu.
Qed.

Lemma registered_once_extend (w w' : World) (evs : list event) :
  registered_once w -> trace w' = (trace w ++ evs)%list -> self w' = self w ->
  count_events is_registration evs = 0%nat -> registered_once w'.
Proof.
  intros [H1 H0] Ht Hs He. unfold registered_once.
  rewrite Ht, Hs, count_events_app, He, Nat.add_0_r. now split.
Qed.

Lemma registered_once_call (c : api_call) (w : World) :
  registered_once w -> registered_once (run_call backend FORCE c w).
Proof.
  intros H. destruct c as [| |index|index]; cbn [run_call].
  - now apply registered_once_initialize.
  - destruct (list_indices_trace w) as (evs & Ht & Hs & He & _).
    exact (registered_once_extend _ _ evs (registered_once_initialize w H) Ht Hs He).
  - destruct (delete_index_trace index w) as (evs & Ht & Hs & He).
    apply (registered_once_extend _ _ evs (registered_once_initialize w H) Ht Hs).
    destruct He as [->|[(c & rep & ->) _]]; reflexivity.
  - destruct (index_exists_trace index w) as (evs & Ht & Hs & He).
    exact (registered_once_extend _ _ evs H Ht Hs He).
Qed.

Lemma registered_once_calls (cs : list api_call) (w : World) :
  registered_once w -> registered_once (run_calls backend FORCE cs w).
Proof.
  revert w. induction cs as [|c cs IH]; intros w H; cbn [run_calls]; [exact H|].
  apply IH. now apply registered_once_call.
Qed.

(** [index_exists] sends its lookup whenever the manager has a client. *)
Lemma index_exists_sends (index : string) (w : World) (c : Connection) :
  _client (self w) = Some c ->
  trace (snd (index_exists backend index w))
  = (trace w ++ [(IndicesGet c index, backend (trace w) (IndicesGet c index))])%list.
Proof.
  intros Hc. unfold index_exists. unfold_monad. cbv beta iota. rewrite Hc. cbv beta iota.
  destruct (backend (trace w) (IndicesGet c index)) as [?|[]]; reflexivity.
Qed.

(** The registration requests of one run of [_initialize]: at most two. *)
Lemma initialize_put_requests (w : World) :
  exists evs,
    trace (snd (_initialize backend FORCE w)) = (trace w ++ evs)%list
    /\ (count_events is_put_template evs <= 2)%nat.
Proof.
  destruct (_initialized (self w)) eqn:H.
  - rewrite initialize_ready by exact H. exists []. cbn [snd count_events].
    rewrite app_nil_r. split; [reflexivity | lia].
  - rewrite (initialize_fresh_run w H). unfold fresh_initialize, register. cbv zeta.
    destruct (String.eqb _ _), (PyStr.truthy _);
      repeat match goal with
             | |- context [match backend ?t ?r with _ => _ end] =>
                 destruct (backend t r) as [?|[]]
             end;
      cbn [fst snd after_initialize trace]; rewrite <- ?app_assoc;
      eexists; (split; [reflexivity|]); cbn; lia.
Qed.

(** On an initialised manager no operation sends a registration request,
    and the manager stays initialised. *)
Lemma initialized_call (c : api_call) (w : World) :
  _initialized (self w) = true ->
  _initialized (self (run_call backend FORCE c w)) = true
  /\ count_events is_put_template (trace (run_call backend FORCE c w))
     = count_events is_put_template (trace w).
Proof.
  intros H. pose proof (initialize_ready w H) as Hrun.
  destruct c as [| |index|index]; cbn [run_call].
  - rewrite Hrun. now split.
  - destruct (list_indices_trace w) as (evs & Ht & Hs & _ & _).
    rewrite Hrun in Ht, Hs. cbn [snd] in Ht, Hs. rewrite Hs. split; [exact H|].
    assert (He : count_events is_put_template evs = 0%nat).
    { revert Ht. unfold list_indices, bind at 1. rewrite Hrun. unfold_monad. cbv beta iota.
      destruct (_client (self w)) as [c|]; cbv beta iota.
      - destruct (backend (trace w) _) as [?|[]]; cbn [snd trace];
          intros Ht; apply app_inv_head in Ht; subst evs; reflexivity.
      - cbn [snd]. intros Ht. rewrite <- (app_nil_r (trace w)) in Ht at 1.
        apply app_inv_head in Ht. now subst evs. }
    now rewrite Ht, count_events_app, He, Nat.add_0_r.
  - destruct (delete_index_trace index w) as (evs & Ht & Hs & He).
    rewrite Hrun in Ht, Hs. cbn [snd] in Ht, Hs. rewrite Hs. split; [exact H|].
    rewrite Ht, count_events_app.
    destruct He as [->|[(c & r & ->) _]]; cbn; lia.
  - destruct (index_exists_trace index w) as (evs & Ht & Hs & _).
    rewrite Hs. split; [exact H|].
    assert (He : count_events is_put_template evs = 0%nat).
    { destruct (_client (self w)) as [c|] eqn:Hc.
      - rewrite (index_exists_sends index w c Hc) in Ht.
        apply app_inv_head in Ht. now subst evs.
      - revert Ht. unfold index_exists. unfold_monad. cbv beta iota. rewrite Hc.
        cbn [snd]. intros Ht. rewrite <- (app_nil_r (trace w)) in Ht at 1.
        apply app_inv_head in Ht. now subst evs. }
    now rewrite Ht, count_events_app, He, Nat.add_0_r.
Qed.

Lemma initialized_calls (cs : list api_call) (w : World) :
  _initialized (self w) = true ->
  count_events is_put_template (trace (run_calls backend FORCE cs w))
  = count_events is_put_template (trace w).
Proof.
  revert w. induction cs as [|c cs IH]; intros w H; cbn [run_calls]; [reflexivity|].
  destruct (initialized_call c w H) as [Hf Hc]. now rewrite (IH _ Hf).
Qed.

(** Claim C7 (amended): initialisation and the registration of the template.
    On a manager that is already initialised [_initialize] returns at once and
    leaves the whole world as it was: no template lookup, no registration, no
    connection made; and from then on no sequence of calls of [_initialize],
    [list_indices], [delete_index] and [index_exists] sends a registration
    request.  Over any sequence of such calls on a new manager, whatever the
    cluster answers, the trace holds at most one registration that the cluster
    acknowledged.  The request itself can be sent more often: one run of
    [_initialize] sends it up to twice (a forced update that is answered with
    not-found is sent again), and a run that raised is repeated by the next
    call. *)
Theorem initialize_at_most_once :
  (forall w, _initialized (self w) = true -> _initialize backend FORCE w = (Ret tt, w))
  /\ (forall o cs,
        (count_events is_registration
           (trace (run_calls backend FORCE cs (initial_world o))) <= 1)%nat)
  /\ (forall w cs,
        _initialized (self w) = true ->
        count_events is_put_template (trace (run_calls backend FORCE cs w))
        = count_events is_put_template (trace w))
  /\ (forall w, exists evs,
        trace (snd (_initialize backend FORCE w)) = (trace w ++ evs)%list
        /\ (count_events is_put_template evs <= 2)%nat).
Proof.
  split; [exact initialize_ready|]. split; [|split].
  - intros o cs. apply (registered_once_calls cs (initial_world o)).
    split; [cbn; lia | reflexivity].
  - intros w cs H. now apply initialized_calls.
  - exact initialize_put_requests.
Qed.

(** Claim C10: [list_indices] returns what the cluster lists, unvalidated.
    When [_initialize] returns and the cluster answers the request for
    [prefix + "*"] with the names [names], the result is exactly [names]: no
    name is dropped, whether or not it passes [_valid_index_name]. *)
Theorem list_indices_returns_backend_names (w : World) (c : Connection)
        (names : list string) :
  let w1 := snd (_initialize backend FORCE w) in
  fst (_initialize backend FORCE w) = Ret tt ->
  _client (self w1) = Some c ->
  backend (trace w1) (IndicesGet c (_index_prefix (self w1) ++ "*")) = Ret names ->
  fst (list_indices backend FORCE w) = Ret (Some names).
Proof.
  cbv zeta. intros Hr Hc Hb.
  destruct (_initialize backend FORCE w) as [r w1] eqn:Hi. cbn [fst snd] in *. subst r.
  rewrite (list_indices_run w w1 c Hi Hc). cbv zeta. now rewrite Hb.
Qed.

(** Claim C5 (amended): not-found and unauthorized answers.  Once
    [_initialize] has returned, [list_indices] returns the empty list when the
    cluster answers not-found and [None] when it answers unauthorized.
    [delete_index] of a valid name returns the name when the cluster accepts
    the deletion, and [None] both when the cluster answers not-found and when
    it answers unauthorized: the two cases return the same value and differ
    only in the record that is logged. *)
Theorem unauthorized_and_not_found (w : World) (c : Connection) (index : string) :
  let w1 := snd (_initialize backend FORCE w) in
  let listing := backend (trace w1) (IndicesGet c (_index_prefix (self w1) ++ "*")) in
  let deletion := backend (trace w1) (IndicesDelete c index) in
  fst (_initialize backend FORCE w) = Ret tt ->
  _client (self w1) = Some c ->
  (listing = Raise NotFoundError -> fst (list_indices backend FORCE w) = Ret (Some []))
  /\ (listing = Raise AuthorizationException ->
      fst (list_indices backend FORCE w) = Ret None)
  /\ (fst (_valid_index_name index w) = Ret true ->
      (succeeded deletion = true ->
       fst (delete_index backend FORCE index w) = Ret (Some index))
      /\ (deletion = Raise NotFoundError ->
          fst (delete_index backend FORCE index w) = Ret None
          /\ logs (snd (delete_index backend FORCE index w))
             = (logs w1 ++ [LogException "`%s` indices not found: %s"
                              [index; "NotFoundError"]])%list)
      /\ (deletion = Raise AuthorizationException ->
          fst (delete_index backend FORCE index w) = Ret None
          /\ logs (snd (delete_index backend FORCE index w))
             = (logs w1 ++ [LogException "Unauthorized to delete index `%s`: %s"
                              [index; "AuthorizationException"]])%list)).
Proof.
  cbv zeta. intros Hr Hc.
  destruct (_initialize backend FORCE w) as [r w1] eqn:Hi. cbn [fst snd] in *. subst r.
  rewrite (list_indices_run w w1 c Hi Hc). cbv zeta.
  split; [now intros ->|]. split; [now intros ->|].
  intros Hv. rewrite (delete_index_run w w1 c index Hi Hc Hv). cbv zeta.
  split; [|split].
  - now destruct (backend (trace w1) (IndicesDelete c index)).
  - now intros ->.
  - now intros ->.
Qed.


Lemma startswith_split (s p : string) :
  PyStr.startswith s p = true -> s = p ++ PyStr.slice_from (String.length p) s.
Proof.
  revert s. induction p as [|c p IH]; intros s H; [reflexivity|].
  destruct s as [|d s]; [discriminate|]. cbn [PyStr.startswith] in H.
  destruct (Ascii.eqb_spec c d) as [->|]; [|discriminate].
  rewrite append_cons. cbn [String.length PyStr.slice_from]. f_equal. now apply IH.
Qed.

(** A name that passed validation has a date that parses after the prefix. *)
Lemma valid_index_name_date (index : string) (w : World) :
  fst (_valid_index_name index w) = Ret true ->
  exists t, strptime_Ymd (PyStr.slice_from (String.length (_index_prefix (self w))) index)
            = Some t.
Proof.
  unfold _valid_index_name. unfold_monad. cbv beta iota.
  destruct (negb (_valid_index_prefix index)); [discriminate|].
  destruct (negb (PyStr.startswith index (_index_prefix (self w)))) eqn:Hs;
    [discriminate|].
  apply negb_false_iff in Hs. cbn [orb].
  destruct (255 <? PyStr.len index); [discriminate|].
  destruct (_index_prefix (self w)) as [|c p] eqn:Hp; [discriminate|].
  pose proof (split1_last_app (String c p)
                (PyStr.slice_from (String.length (String c p)) index)
                ltac:(discriminate)) as Hsp.
  rewrite <- (startswith_split index (String c p) Hs) in Hsp. rewrite Hsp.
  destruct (strptime_Ymd _) as [t|]; [eauto | discriminate].
Qed.

Lemma can_delete_index_invalid (index : string) (cutoff_date : datetime) (w : World) :
  fst (_valid_index_name index w) = Ret false ->
  fst (can_delete_index index cutoff_date w) = Raise AssertionError.
Proof.
  intros H. unfold can_delete_index, bind at 1.
  destruct (_valid_index_name index w) as [r w2]. cbn [fst] in H. now subst r.
Qed.

Lemma can_delete_index_valid (index : string) (cutoff_date : datetime) (w : World) :
  fst (_valid_index_name index w) = Ret true ->
  succeeded (fst (can_delete_index index cutoff_date w)) = true.
Proof.
  intros H. destruct (valid_index_name_date index w H) as [t Ht].
  destruct (valid_index_name_world index w) as (_ & _ & Hw). specialize (Hw H).
  unfold can_delete_index, bind at 1.
  destruct (_valid_index_name index w) as [r w2]. cbn [fst snd] in *. subst r w2.
  unfold_monad. cbv beta iota. now rewrite Ht.
Qed.



(** Claim C9: no deletion without validation.  For a name on which
    [_valid_index_name] returns [False], [can_delete_index] raises
    [AssertionError], and [delete_index] raises (an [AssertionError] as soon
    as [_initialize] returns) and sends nothing beyond the requests of
    [_initialize].  In every run [_initialize] sends no delete request and
    [delete_index] sends at most one, for the very name it was given and only
    when that name passed validation.  For a name that passed validation the
    assertions hold: [can_delete_index] returns a boolean, and [delete_index]
    sends its delete request once the manager is initialised. *)
Theorem deletion_requires_valid_name (w : World) (index : string)
        (cutoff_date : datetime) :
  let init := _initialize backend FORCE w in
  (fst (_valid_index_name index w) = Ret false ->
   fst (can_delete_index index cutoff_date w) = Raise AssertionError
   /\ succeeded (fst (delete_index backend FORCE index w)) = false
   /\ (fst init = Ret tt -> fst (delete_index backend FORCE index w) = Raise AssertionError)
   /\ trace (snd (delete_index backend FORCE index w)) = trace (snd init))
  /\ (exists evs0 evs,
        trace (snd init) = (trace w ++ evs0)%list
        /\ count_events is_delete evs0 = 0%nat
        /\ trace (snd (delete_index backend FORCE index w)) = (trace (snd init) ++ evs)%list
        /\ (evs = []
            \/ (exists c rep, evs = [(IndicesDelete c index, rep)])
               /\ fst (_valid_index_name index w) = Ret true))
  /\ (fst (_valid_index_name index w) = Ret true ->
      succeeded (fst (can_delete_index index cutoff_date w)) = true
      /\ forall c, fst init = Ret tt -> _client (self (snd init)) = Some c ->
                   trace (snd (delete_index backend FORCE index w))
                   = (trace (snd init)
                      ++ [(IndicesDelete c index,
                           backend (trace (snd init)) (IndicesDelete c index))])%list).
Proof.
  cbv zeta. destruct (delete_index_trace index w) as (evs & Ht & _ & He).
  destruct (initialize_trace w) as (evs0 & Ht0 & Hd0 & _).
  split; [|split].
  - intros Hv. split; [now apply can_delete_index_invalid|].
    destruct He as [->|(_ & Hv' & _)]; [|congruence].
    rewrite app_nil_r in Ht.
    assert (Hd : forall w1, _initialize backend FORCE w = (Ret tt, w1) ->
                            fst (delete_index backend FORCE index w) = Raise AssertionError).
    { intros w1 Hi. pose proof (initialize_prefix w) as Hp. rewrite Hi in Hp.
      cbn [snd] in Hp. rewrite <- (valid_index_name_prefix index w1 w Hp) in Hv.
      unfold delete_index, bind. rewrite Hi.
      destruct (_valid_index_name index w1) as [r w2]. cbn [fst] in Hv. now subst r. }
    split; [|split; [|exact Ht]].
    + destruct (_initialize backend FORCE w) as [[[]|e] w1] eqn:Hi.
      * now rewrite (Hd w1 eq_refl).
      * unfold delete_index, bind. now rewrite Hi.
    + destruct (_initialize backend FORCE w) as [r w1]. cbn [fst]. intros ->.
      exact (Hd w1 eq_refl).
  - exists evs0, evs. split; [exact Ht0|]. split; [|split; [exact Ht|]].
    + clear - Hd0. induction evs0 as [|[r a] t IH]; [reflexivity|].
      cbn [count_events] in *. unfold is_data_plane, is_delete in *. cbn [fst] in *.
      destruct r; cbn in *; try discriminate; apply IH; lia.
    + destruct He as [->|(Hc & Hv & _)]; [now left | right; now split].
  - intros Hv. split; [now apply can_delete_index_valid|].
    intros c Hr Hc.
    destruct (_initialize backend FORCE w) as [r w1] eqn:Hi. cbn [fst snd] in *. subst r.
    rewrite (delete_index_run w w1 c index Hi Hc Hv). cbv zeta.
    destruct (backend (trace w1) (IndicesDelete c index)) as [?|[]] eqn:E;
      unfold call, log; cbn [snd trace]; rewrite ?E; reflexivity.
Qed.
End ClusterProperties.

(** ** Concrete runs *)

(** C1, counterexample: the index of 2024-03-09 is deletable at the cutoff
    2024-03-10. *)
Lemma can_delete_index_one_day_before :
  fst (can_delete_index "logentry_2024-03-09" (midnight (mkdate 2024 3 10)) example_world)
  = Ret true
  /\ fst (can_delete_index "logentry_2024-03-09" (midnight (mkdate 2024 3 10))
                           example_world)
     <> Ret false.
Proof. split; [vm_compute; reflexivity | vm_compute; discriminate]. Qed.

(** The boundary on the default prefix, and the day before 1 March of a leap
    year. *)
Lemma can_delete_index_boundary_witness :
  fst (can_delete_index "logentry_2024-03-08" (midnight (mkdate 2024 3 10)) example_world)
  = Ret true
  /\ fst (can_delete_index "logentry_2024-03-09" (midnight (mkdate 2024 3 10))
                           example_world) = Ret true
  /\ fst (can_delete_index "logentry_2024-03-10" (midnight (mkdate 2024 3 10))
                           example_world) = Ret false
  /\ fst (can_delete_index ("logentry_" ++ isoformat (mkdate 2024 2 29))
                           (midnight (mkdate 2024 3 1)) example_world) = Ret true.
Proof.
  assert (Hp : _valid_index_prefix (_index_prefix (self example_world)) = true)
    by (vm_compute; reflexivity).
  assert (Hl : PyStr.len (_index_prefix (self example_world)) <= 245)
    by (vm_compute; discriminate).
  destruct (can_delete_index_boundary example_world Hp Hl) as (H8 & H9 & H10 & Hd).
  split; [exact H8 | split; [exact H9 | split; [exact H10 |]]].
  apply (Hd (mkdate 2024 2 29) (mkdate 2024 3 1)); vm_compute; reflexivity.
Defined.

(** C2, counterexample: a prefix of 250 characters is accepted by
    [_valid_index_prefix], and the name built from it is not valid; and under
    the default prefix the name built for a day of the year 999 is not valid
    either. *)
Lemma index_name_long_prefix_invalid :
  let p := repeat_char "a" 250 in
  let w := initial_world
             (new_ElasticsearchLogs None None None None None None true p) in
  _valid_index_prefix p = true
  /\ valid_date (mkdate 2024 1 1) = true
  /\ fst ((name <- index_name (mkdate 2024 1 1) ;; _valid_index_name name) w) = Ret false
  /\ valid_date (mkdate 999 1 1) = true
  /\ fst (index_name (mkdate 999 1 1) example_world) = Ret "logentry_999-01-01"
  /\ fst ((name <- index_name (mkdate 999 1 1) ;; _valid_index_name name) example_world)
     = Ret false.
Proof. vm_compute. repeat split. Qed.

(** The round trip of 9 March 2024 under the default prefix. *)
Lemma index_name_round_trip_witness :
  exists name,
    index_name (mkdate 2024 3 9) example_world = (Ret name, example_world)
    /\ _valid_index_name name example_world = (Ret true, example_world)
    /\ PyStr.split1_last name "logentry_" = Some (strftime_Ymd (mkdate 2024 3 9))
    /\ strptime_Ymd (strftime_Ymd (mkdate 2024 3 9)) = Some (midnight (mkdate 2024 3 9))
    /\ strptime_Ymd (PyStr.slice_from 9 name) = Some (midnight (mkdate 2024 3 9)).
Proof.
  destruct (index_name_round_trip example_world (mkdate 2024 3 9))
    as (name & Hi & Hs & Hy & _).
  - vm_compute; reflexivity.
  - vm_compute; discriminate.
  - vm_compute; reflexivity.
  - destruct Hy as (Hv & Hp & Hq); [vm_compute; discriminate|].
    exists name.
    split; [exact Hi | split; [exact Hv | split; [exact Hs | split; [exact Hp | exact Hq]]]].
Defined.

(** Claim C3, the code at the failing input: [_valid_index_name] accepts
    ["logentry_2024-1-5"], whose month and day lack the leading zero, because
    [strptime] reads [%m] and [%d] with or without it; [index_name] itself
    writes that day as ["2024-01-05"]. *)
Theorem valid_index_name_accepts_unpadded_date :
  fst (_valid_index_name "logentry_2024-1-5" example_world) = Ret true
  /\ strptime_Ymd "2024-1-5" = Some (midnight (mkdate 2024 1 5))
  /\ strftime_Ymd (mkdate 2024 1 5) = "2024-01-05".
Proof. vm_compute. repeat split. Qed.

(** Claim C4, the code at the failing input: [_valid_index_prefix] accepts
    a string of 256 characters made of 255 letters and a final newline, since
    [$] also matches just before a newline that ends the string. *)
Theorem valid_index_prefix_accepts_256_characters :
  let p := repeat_char "a" 255 ++ String "010" EmptyString in
  PyStr.len p = 256 /\ _valid_index_prefix p = true.
Proof. vm_compute. split; reflexivity. Qed.

(** C5, counterexample: [delete_index] returns the same value when the index
    is not found and when the deletion is not authorised. *)
Lemma delete_index_same_result_on_denial :
  let not_found := cluster_with (Ret []) (Ret []) (Raise NotFoundError) in
  let unauthorized := cluster_with (Ret []) (Ret []) (Raise AuthorizationException) in
  fst (_valid_index_name "logentry_2024-03-08" example_world) = Ret true
  /\ fst (delete_index not_found "" "logentry_2024-03-08" example_world) = Ret None
  /\ fst (delete_index unauthorized "" "logentry_2024-03-08" example_world)
     = fst (delete_index not_found "" "logentry_2024-03-08" example_world).
Proof. vm_compute. split; [reflexivity | split; reflexivity]. Qed.

(** A cluster that denies the listing and has lost the index to delete. *)
Lemma unauthorized_and_not_found_witness :
  let cluster := cluster_with (Ret []) (Raise AuthorizationException)
                              (Raise NotFoundError) in
  fst (list_indices cluster "" example_world) = Ret None
  /\ fst (delete_index cluster "" "logentry_2024-03-08" example_world) = Ret None.
Proof.
  cbv zeta.
  set (cluster := cluster_with (Ret []) (Raise AuthorizationException)
                               (Raise NotFoundError)).
  assert (Hi : fst (_initialize cluster "" example_world) = Ret tt)
    by (vm_compute; reflexivity).
  assert (Hc : _client (self (snd (_initialize cluster "" example_world)))
               = Some example_client) by (vm_compute; reflexivity).
  destruct (unauthorized_and_not_found cluster "" example_world example_client
              "logentry_2024-03-08" Hi Hc) as (_ & Hl & Hd).
  split; [apply Hl; vm_compute; reflexivity|].
  destruct Hd as (_ & Hn & _); [vm_compute; reflexivity|].
  apply Hn. vm_compute; reflexivity.
Defined.



(** A second [_initialize] changes nothing, and three calls register once. *)
Lemma initialize_at_most_once_witness :
  let cluster := cluster_with (Raise NotFoundError) (Ret []) (Ret []) in
  let ready := snd (_initialize cluster "" example_world) in
  _initialize cluster "" ready = (Ret tt, ready)
  /\ (count_events is_registration
        (trace (run_calls cluster ""
                  [Call_initialize; Call_list_indices; Call_initialize]
                  example_world)) <= 1)%nat.
Proof.
  cbv zeta.
  destruct (initialize_at_most_once (cluster_with (Raise NotFoundError) (Ret []) (Ret []))
                                    "") as (Hn & Hc & _ & _).
  split; [apply Hn; vm_compute; reflexivity | apply (Hc example_manager)].
Defined.

(** Claim C7, the code at the failing inputs.  With a forced update on a
    cluster that answers every registration with not-found, one call of
    [_initialize] sends the registration twice.  On a cluster that has no
    template and whose registration times out, each of two calls of
    [_initialize] sends it. *)
Lemma registration_request_sent_twice :
  let stubborn := fun (_ : list event) (r : request) =>
                    match r with
                    | PutTemplate _ _ _ _ => Raise NotFoundError
                    | _ => Ret []
                    end in
  let slow := fun (_ : list event) (r : request) =>
                match r with
                | GetTemplate _ _ => Raise NotFoundError
                | PutTemplate _ _ _ _ => Raise (TransportError "timeout")
                | _ => Ret []
                end in
  fst (_initialize stubborn "true" example_world) = Raise NotFoundError
  /\ count_events is_put_template
       (trace (snd (_initialize stubborn "true" example_world))) = 2%nat
  /\ count_events is_put_template
       (trace (snd (_initialize slow "" example_world))) = 1%nat
  /\ count_events is_put_template
       (trace (run_calls slow "" [Call_initialize; Call_initialize] example_world))
     = 2%nat.
Proof. vm_compute. repeat split. Qed.



(** A name without a date is refused before any delete request. *)
Lemma deletion_requires_valid_name_witness :
  let cluster := cluster_with (Ret []) (Ret []) (Ret []) in
  fst (can_delete_index "logentry_bad" (midnight (mkdate 2024 3 10)) example_world)
  = Raise AssertionError
  /\ fst (delete_index cluster "" "logentry_bad" example_world) = Raise AssertionError
  /\ trace (snd (delete_index cluster "" "logentry_bad" example_world))
     = trace (snd (_initialize cluster "" example_world)).
Proof.
  cbv zeta.
  destruct (deletion_requires_valid_name (cluster_with (Ret []) (Ret []) (Ret [])) ""
              example_world "logentry_bad" (midnight (mkdate 2024 3 10)))
    as (Hi & _ & _).
  destruct Hi as (Hc & _ & Hd & Ht); [vm_compute; reflexivity|].
  split; [exact Hc | split; [apply Hd; vm_compute; reflexivity | exact Ht]].
Defined.

(** A listing that holds a name without a date. *)
Lemma list_indices_returns_backend_names_witness :
  let cluster := cluster_with (Ret []) (Ret ["logentry_2024-01-01"; "logentry_bad"])
                              (Ret []) in
  fst (list_indices cluster "" example_world)
  = Ret (Some ["logentry_2024-01-01"; "logentry_bad"])
  /\ fst (_valid_index_name "logentry_bad" example_world) = Ret false.
Proof.
  cbv zeta. split; [|vm_compute; reflexivity].
  apply (list_indices_returns_backend_names _ "" example_world example_client);
    vm_compute; reflexivity.
Defined.

(** * Further properties *)

(** ** Further properties of naming, validation and retention *)

Lemma strptime_midnight (s : string) (t : datetime) :
  strptime_Ymd s = Some t -> exists d, valid_date d = true /\ t = midnight d.
Proof.
  unfold strptime_Ymd. intros Ht.
  repeat match type of Ht with
         | context [match ?x with _ => _ end] => destruct x eqn:?; try discriminate
         end.
  injection Ht as <-. eexists (mkdate _ _ _). split; [eassumption | reflexivity].
Qed.

Lemma can_delete_index_date (index : string) (cutoff_date : datetime) (w : World) :
  fst (_valid_index_name index w) = Ret true ->
  valid_datetime cutoff_date = true ->
  exists d,
    valid_date d = true
    /\ strptime_Ymd (PyStr.slice_from (String.length (_index_prefix (self w))) index)
       = Some (midnight d)
    /\ can_delete_index index cutoff_date w
       = (Ret (toordinal d <? toordinal (dt_date cutoff_date)), w).
Proof.
  intros Hv Hc. destruct (valid_index_name_date index w Hv) as [t Ht].
  destruct (strptime_midnight _ _ Ht) as (d & Hd & ->). exists d.
  split; [exact Hd|]. split; [exact Ht|].
  destruct (valid_index_name_world index w) as (_ & _ & Hw). specialize (Hw Hv).
  unfold can_delete_index, bind at 1.
  destruct (_valid_index_name index w) as [r w2]. cbn [fst snd] in *. subst r w2.
  unfold_monad. cbv beta iota. rewrite Ht, (retention_test d cutoff_date Hd Hc).
  reflexivity.
Qed.

Lemma can_delete_index_true_valid (index : string) (cutoff_date : datetime) (w : World) :
  fst (can_delete_index index cutoff_date w) = Ret true ->
  fst (_valid_index_name index w) = Ret true.
Proof.
  unfold can_delete_index, bind at 1.
  destruct (_valid_index_name index w) as [[[|]|e] w2]; cbn [fst];
    [reflexivity | discriminate..].
Qed.

(** The order of naive datetimes refines the order of their days. *)
Lemma datetime_lt_days (a b : datetime) :
  valid_datetime a = true -> valid_datetime b = true ->
  datetime_lt b a = false -> toordinal (dt_date a) <= toordinal (dt_date b).
Proof.
  intros [Ha _]%andb_prop [Hb _]%andb_prop. unfold datetime_lt, datetime_fields.
  change [year (dt_date b); month (dt_date b); day (dt_date b);
          hour b; minute b; second b; microsecond b]
    with ([year (dt_date b); month (dt_date b); day (dt_date b)]
          ++ [hour b; minute b; second b; microsecond b])%list.
  change [year (dt_date a); month (dt_date a); day (dt_date a);
          hour a; minute a; second a; microsecond a]
    with ([year (dt_date a); month (dt_date a); day (dt_date a)]
          ++ [hour a; minute a; second a; microsecond a])%list.
  rewrite tuple_cmp_app by reflexivity.
  rewrite (tuple_cmp_toordinal (dt_date b) (dt_date a) Hb Ha).
  destruct (Z.compare_spec (toordinal (dt_date b)) (toordinal (dt_date a)));
    [lia | discriminate | lia].
Qed.

Lemma append_inv_head (p s t : string) : p ++ s = p ++ t -> s = t.
Proof.
  induction p as [|c p IH]; [now rewrite !append_nil|].
  rewrite !append_cons. intros H. injection H as H. now apply IH.
Qed.

(** Property X6: the retention decision for a naive cutoff.  The cutoff is a
    [datetime] without [tzinfo], which is what the record [datetime] of this
    development holds (against an aware cutoff the comparison with the naive
    date of the index raises [TypeError]; that case is outside the statement).
    For a name that passes validation and a naive cutoff that is a valid
    datetime, [can_delete_index] returns, changes nothing, and answers whether
    the day of the index is strictly before the calendar day of the cutoff; the
    time of day of the cutoff plays no role. *)
Theorem can_delete_index_decision (index : string) (cutoff_date : datetime) (w : World) :
  fst (_valid_index_name index w) = Ret true ->
  valid_datetime cutoff_date = true ->
  exists d,
    valid_date d = true
    /\ strptime_Ymd (PyStr.slice_from (String.length (_index_prefix (self w))) index)
       = Some (midnight d)
    /\ can_delete_index index cutoff_date w
       = (Ret (toordinal d <? toordinal (dt_date cutoff_date)), w)
    /\ can_delete_index index (midnight (dt_date cutoff_date)) w
       = can_delete_index index cutoff_date w.
Proof.
  intros Hv Hc. destruct (can_delete_index_date index cutoff_date w Hv Hc) as (d & Hd & Hs & Hr).
  exists d. split; [exact Hd|]. split; [exact Hs|]. split; [exact Hr|].
  assert (Hm : valid_datetime (midnight (dt_date cutoff_date)) = true).
  { apply andb_prop in Hc as [Hc _]. unfold valid_datetime. cbn [midnight dt_date].
    now rewrite Hc. }
  destruct (can_delete_index_date index _ w Hv Hm) as (d' & _ & Hs' & Hr').
  rewrite Hr, Hr'. rewrite Hs in Hs'. injection Hs' as ->. reflexivity.
Qed.

(** Property X7: the retention decision is monotone in the cutoff: an index
    that can be deleted at a cutoff can be deleted at every later cutoff. *)
Theorem can_delete_index_monotone (index : string) (c1 c2 : datetime) (w : World) :
  valid_datetime c1 = true -> valid_datetime c2 = true ->
  datetime_lt c2 c1 = false ->
  fst (can_delete_index index c1 w) = Ret true ->
  fst (can_delete_index index c2 w) = Ret true.
Proof.
  intros H1 H2 Hle Hd.
  pose proof (can_delete_index_true_valid index c1 w Hd) as Hv.
  destruct (can_delete_index_date index c1 w Hv H1) as (d & _ & Hs & Hr).
  destruct (can_delete_index_date index c2 w Hv H2) as (d' & _ & Hs' & Hr').
  rewrite Hs in Hs'. injection Hs' as <-.
  rewrite Hr in Hd. rewrite Hr'. cbn [fst] in *. injection Hd as Hd. f_equal.
  apply Z.ltb_lt in Hd. apply Z.ltb_lt.
  pose proof (datetime_lt_days c1 c2 H1 H2 Hle). lia.
Qed.

Lemma digit_char_inj (a b : Z) : digit_char a = digit_char b -> a mod 10 = b mod 10.
Proof.
  intros H. destruct (digit_char_value a) as [_ Ha]. destruct (digit_char_value b) as [_ Hb].
  cbv zeta in Ha, Hb. rewrite H in Ha. congruence.
Qed.

Lemma digit_char_not_dash (n : Z) : digit_char n <> "-"%char.
Proof. digit_case n; discriminate. Qed.

(** [strftime] writes different days differently, whatever the number of
    digits of the year. *)
Lemma strftime_Ymd_inj (d1 d2 : date) :
  valid_date d1 = true -> valid_date d2 = true ->
  strftime_Ymd d1 = strftime_Ymd d2 -> d1 = d2.
Proof.
  intros H1 H2.
  destruct (valid_date_bounds d1 H1) as (Hy1 & Hm1 & Hd1).
  destruct (valid_date_bounds d2 H2) as (Hy2 & Hm2 & Hd2).
  destruct d1 as [y1 m1 a1], d2 as [y2 m2 a2]. cbn [year month day] in *.
  unfold strftime_Ymd, decimal. cbn [year month day].
  destruct (Z.ltb_spec y1 10), (Z.ltb_spec y1 100), (Z.ltb_spec y1 1000); try lia;
    destruct (Z.ltb_spec y2 10), (Z.ltb_spec y2 100), (Z.ltb_spec y2 1000); try lia;
    rewrite ?zero_padded_1, ?zero_padded_2, ?zero_padded_3, ?zero_padded_4,
      !append_cons, !append_nil;
    intros E; injection E; intros;
    repeat match goal with
           | H : digit_char _ = "-"%char |- _ => now apply digit_char_not_dash in H
           | H : "-"%char = digit_char _ |- _ => symmetry in H; now apply digit_char_not_dash in H
           | H : digit_char _ = digit_char _ |- _ => apply digit_char_inj in H
           end;
    f_equal; lia.
Qed.

(** Property X5: [index_name] gives different days different names: under any
    prefix, two days of the calendar get the same name only if they are the
    same day. *)
Theorem index_name_injective (w : World) (d1 d2 : date) :
  valid_date d1 = true -> valid_date d2 = true ->
  fst (index_name d1 w) = fst (index_name d2 w) <-> d1 = d2.
Proof.
  intros H1 H2. split; [|now intros ->].
  unfold index_name. unfold_monad. cbn [fst]. intros H.
  injection H as H. apply append_inv_head in H.
  now apply strftime_Ymd_inj.
Qed.


(** ** The pattern of prefixes, on every string *)

Lemma body_exact (lo hi : nat) (s : string) :
  (lo <= hi)%nat ->
  body lo hi s
  = all_allowed s
    && ((Nat.leb lo (String.length s) && Nat.leb (String.length s) hi)
        || (ends_with_newline s && Nat.eqb (String.length s) (S hi))).
Proof.
  revert lo s. induction hi as [|hi IH]; intros lo s Hl.
  - assert (lo = 0%nat) as -> by lia. cbn [body Nat.eqb andb].
    destruct s as [|x [|y s]]; cbn [at_end all_allowed String.length ends_with_newline];
      try reflexivity.
    + destruct (Ascii.eqb_spec x "010") as [->|]; [reflexivity|].
      now rewrite !andb_false_r.
    + now rewrite !andb_false_r.
  - cbn [body]. destruct s as [|x s].
    + cbn [all_allowed String.length ends_with_newline at_end andb orb].
      rewrite andb_true_r, orb_false_r. now destruct lo.
    + rewrite (IH (Nat.pred lo) s) by lia.
      cbn [all_allowed String.length at_end].
      destruct s as [|y s].
      * cbn [all_allowed String.length ends_with_newline].
        destruct (Ascii.eqb_spec x "010") as [->|];
          destruct lo as [|[|lo]]; cbn; rewrite ?andb_false_r, ?orb_false_r, ?andb_true_r;
          try reflexivity; now destruct (allowed x).
      * rewrite andb_false_r, andb_false_r, orb_false_r.
        change (ends_with_newline (String x (String y s)))
          with (ends_with_newline (String y s)).
        rewrite <- andb_assoc. f_equal. f_equal.
        destruct lo; reflexivity.
Qed.

Lemma lookahead_exact (s : string) : lookahead s = is_dots s || starts_with_sign s.
Proof.
  unfold is_dots, dots. cbn [existsb].
  destruct s as [|c [|c2 [|c3 [|c4 r]]]]; cbn [lookahead at_end starts_with_sign String.eqb];
    try reflexivity;
    destruct (Ascii.eqb_spec c "."); subst; cbn [andb orb];
    rewrite ?andb_false_r, ?orb_false_r; try reflexivity;
    destruct (Ascii.eqb_spec c2 "."), (Ascii.eqb_spec c2 "010"); subst; cbn [andb orb];
    rewrite ?andb_false_r, ?orb_false_r, ?andb_true_r; try reflexivity; try discriminate;
    destruct (Ascii.eqb_spec c3 "010"); subst; cbn [andb orb];
    rewrite ?andb_false_r, ?orb_false_r, ?andb_true_r; try reflexivity.
Qed.

(** Property X1: what [_valid_index_prefix] accepts, on every string.  A string
    matches [VALID_INDEX_PATTERN] exactly when none of its characters is
    excluded by the class (the capital letters [A-Z], [:], [/], [*], [?], the
    double quote, [<], [>], [|], [,], [#] and the blank), it does not begin with
    [-], [_] or [+], it is not one or two dots (alone or before a final
    newline), and it has 1 to 255 characters, or 256 of which the last one is
    a newline. *)
Theorem valid_index_prefix_exact (s : string) :
  _valid_index_prefix s = true
  <-> (all_allowed s = true
       /\ starts_with_sign s = false
       /\ is_dots s = false
       /\ (1 <= PyStr.len s <= 255
           \/ (PyStr.len s = 256 /\ ends_with_newline s = true))).
Proof.
  rewrite valid_index_prefix_unfold, lookahead_exact, (body_exact 1 255 s) by lia.
  unfold PyStr.len.
  destruct (is_dots s), (starts_with_sign s), (all_allowed s); cbn [orb negb andb];
    try (split; [discriminate | intros (? & ? & ? & _); discriminate]).
  destruct (ends_with_newline s);
    destruct (Nat.leb_spec 1 (String.length s)), (Nat.leb_spec (String.length s) 255),
      (Nat.eqb_spec (String.length s) 256); cbn [andb orb];
    split; intros Hx; try discriminate; try reflexivity;
    try (repeat split; auto; lia);
    destruct Hx as (_ & _ & _ & [Hx|[Hx Hx']]); try discriminate; lia.
Qed.

(** ** The names that validation accepts *)

Lemma append_assoc (a b c : string) : (a ++ b) ++ c = a ++ (b ++ c).
Proof.
  induction a as [|x a IH]; [reflexivity|]. rewrite !append_cons. now rewrite IH.
Qed.

Lemma append_nil_r (a : string) : a ++ EmptyString = a.
Proof. induction a as [|x a IH]; [reflexivity|]. rewrite append_cons. now rewrite IH. Qed.

Lemma substring_prefix (m rest : string) : substring 0 (String.length m) (m ++ rest) = m.
Proof.
  induction m as [|x m IH]; [apply substring_0_0|].
  rewrite append_cons. cbn [String.length substring]. now rewrite IH.
Qed.

(** Whatever [run] accepts begins with a string that the pattern matches,
    and the continuation accepted the rest. *)
Lemma run_matches (r : regex) :
  plain r = true ->
  forall pos s g k f,
    run r pos s g k = Some f ->
    exists m rest,
      s = m ++ rest /\ matches r m /\ k (pos + String.length m)%nat rest g = Some f.
Proof.
  induction r as [c|negated ranges|r1 IH1 r2 IH2|r1 IH1 r2 IH2| | | | |];
    cbn [plain]; try discriminate; intros Hp pos s g k f H.
  - cbn [run] in H. destruct s as [|x s]; [discriminate|].
    destruct (Ascii.eqb_spec x c) as [->|]; [|discriminate].
    exists (String c EmptyString), s. rewrite Nat.add_1_r.
    repeat split; [constructor | exact H].
  - cbn [run] in H. destruct s as [|x s]; [discriminate|].
    destruct (in_set negated ranges x) eqn:E; [|discriminate].
    exists (String x EmptyString), s. rewrite Nat.add_1_r.
    repeat split; [now constructor | exact H].
  - apply andb_prop in Hp as [Hp1 Hp2]. cbn [run] in H.
    destruct (IH1 Hp1 _ _ _ _ _ H) as (m1 & rest1 & -> & Hm1 & H1).
    destruct (IH2 Hp2 _ _ _ _ _ H1) as (m2 & rest2 & -> & Hm2 & H2).
    exists (m1 ++ m2), rest2. rewrite append_assoc, append_length, Nat.add_assoc.
    repeat split; [now constructor | exact H2].
  - apply andb_prop in Hp as [Hp1 Hp2]. cbn [run] in H.
    destruct (run r1 pos s g k) as [f1|] eqn:E1.
    + injection H as <-. destruct (IH1 Hp1 _ _ _ _ _ E1) as (m & rest & -> & Hm & Hk).
      exists m, rest. repeat split; [now apply matches_Alt_l | exact Hk].
    + destruct (IH2 Hp2 _ _ _ _ _ H) as (m & rest & -> & Hm & Hk).
      exists m, rest. repeat split; [now apply matches_Alt_r | exact Hk].
Qed.

Lemma run_group (name : string) (r : regex) (pos : nat) (s : string) (g : groups)
      (k : nat -> string -> groups -> option found) (f : found) :
  plain r = true ->
  run (Group (Some name) r) pos s g k = Some f ->
  exists m rest,
    s = m ++ rest /\ matches r m
    /\ k (pos + String.length m)%nat rest ((name, m) :: g) = Some f.
Proof.
  intros Hp H. cbn [run] in H.
  destruct (run_matches r Hp _ _ _ _ _ H) as (m & rest & -> & Hm & Hk).
  exists m, rest. repeat split; [exact Hm|].
  replace (pos + String.length m - pos)%nat with (String.length m) in Hk by lia.
  now rewrite substring_prefix in Hk.
Qed.

Ltac invert_matches :=
  repeat match goal with
         | H : matches (Alt _ _) _ |- _ => inversion H; subst; clear H
         | H : matches (Seq _ _) _ |- _ => inversion H; subst; clear H
         | H : matches (Chr _) _ |- _ => inversion H; subst; clear H
         | H : matches (Set_ _ _) _ |- _ => inversion H; subst; clear H
         end.

(** The characters of a class, one by one. *)
Ltac enumerate_class :=
  repeat match goal with
         | H : in_set _ _ ?c = true |- _ =>
             destruct c as [[] [] [] [] [] [] [] []]; try discriminate H; clear H
         end.

Lemma is_digit_inv (c : ascii) :
  in_set false [("0", "9")]%char c = true -> exists n, 0 <= n <= 9 /\ c = digit_char n.
Proof.
  intros H. enumerate_class;
    first [ exists 0; split; [lia|reflexivity] | exists 1; split; [lia|reflexivity]
          | exists 2; split; [lia|reflexivity] | exists 3; split; [lia|reflexivity]
          | exists 4; split; [lia|reflexivity] | exists 5; split; [lia|reflexivity]
          | exists 6; split; [lia|reflexivity] | exists 7; split; [lia|reflexivity]
          | exists 8; split; [lia|reflexivity] | exists 9; split; [lia|reflexivity] ].
Qed.

Lemma digit_char_mod (a b : Z) : a mod 10 = b mod 10 -> digit_char a = digit_char b.
Proof. unfold digit_char. now intros ->. Qed.

Lemma year_shape (s : string) :
  matches (inner TimeRE_Y) s ->
  exists n, int s = Some n /\ 0 <= n <= 9999 /\ s = zero_padded 4 n.
Proof.
  unfold TimeRE_Y, inner, digit, range. intros H. invert_matches.
  repeat match goal with
         | H : in_set false _ ?c = true |- _ =>
             apply is_digit_inv in H; destruct H as (? & ? & ->)
         end.
  rewrite !append_cons, !append_nil.
  match goal with
  | |- context [String (digit_char ?a) (String (digit_char ?b)
                  (String (digit_char ?c) (String (digit_char ?d) EmptyString)))] =>
      exists (1000 * a + 100 * b + 10 * c + d)
  end.
  split; [|split; [lia|]].
  - cbn [int]. rewrite digit_char_not_space, !int_digits_step. cbn [int_digits].
    f_equal. lia.
  - rewrite zero_padded_4. do 4 (apply f_equal2; [apply digit_char_mod; lia|]). reflexivity.
Qed.

Lemma month_shape (s : string) :
  matches (inner TimeRE_m) s ->
  exists n, int s = Some n /\ 1 <= n <= 12 /\ written n s.
Proof.
  unfold TimeRE_m, inner, range. intros H. invert_matches. all: enumerate_class.
  all: eexists; (split; [vm_compute; reflexivity|]); (split; [lia|]).
  all: first [ left; reflexivity | right; split; [lia | reflexivity] ].
Qed.

Lemma day_shape (s : string) :
  matches (inner TimeRE_d) s ->
  exists n, int s = Some n /\ 1 <= n <= 31
            /\ (written n s \/ s = String " " (String (digit_char n) EmptyString)).
Proof.
  unfold TimeRE_d, inner, digit, range. intros H. invert_matches. all: enumerate_class.
  all: eexists; (split; [vm_compute; reflexivity|]); (split; [lia|]).
  all: first [ left; left; reflexivity | left; right; split; [lia | reflexivity]
             | right; reflexivity ].
Qed.

Lemma run_Seq_Chr (c : ascii) (r : regex) (pos : nat) (s : string) (g : groups)
      (k : nat -> string -> groups -> option found) :
  run (Seq (Chr c) r) pos s g k
  = match s with
    | String x s' => if Ascii.eqb x c then run r (S pos) s' g k else None
    | EmptyString => None
    end.
Proof. reflexivity. Qed.

Lemma run_Seq_Group (name : string) (r r2 : regex) (pos : nat) (s : string) (g : groups)
      (k : nat -> string -> groups -> option found) :
  run (Seq (Group (Some name) r) r2) pos s g k
  = run (Group (Some name) r) pos s g (fun p s' g' => run r2 p s' g' k).
Proof. reflexivity. Qed.

(** What [re.match] with [FORMAT_REGEX] finds. *)
Lemma format_regex_shape (s : string) (end_ : nat) (g : groups) :
  re_match FORMAT_REGEX s = Some (end_, g) ->
  exists Y M D rest,
    s = Y ++ "-" ++ M ++ "-" ++ D ++ rest
    /\ matches (inner TimeRE_Y) Y /\ matches (inner TimeRE_m) M
    /\ matches (inner TimeRE_d) D
    /\ g = [("d", D); ("m", M); ("Y", Y)]
    /\ end_ = String.length (Y ++ "-" ++ M ++ "-" ++ D).
Proof.
  unfold re_match.
  change FORMAT_REGEX
    with (Seq (Group (Some "Y") (inner TimeRE_Y))
            (Seq (Chr "-")
               (Seq (Group (Some "m") (inner TimeRE_m))
                  (Seq (Chr "-") (Group (Some "d") (inner TimeRE_d)))))).
  assert (HY : plain (inner TimeRE_Y) = true) by reflexivity.
  assert (Hm : plain (inner TimeRE_m) = true) by reflexivity.
  assert (Hd : plain (inner TimeRE_d) = true) by reflexivity.
  set (rY := inner TimeRE_Y) in *. set (rm := inner TimeRE_m) in *.
  set (rd := inner TimeRE_d) in *.
  intros H. rewrite run_Seq_Group in H.
  apply (run_group _ _ _ _ _ _ _ HY) in H as (Y & s1 & -> & HmY & H).
  rewrite run_Seq_Chr in H. destruct s1 as [|x s1]; [discriminate|].
  destruct (Ascii.eqb_spec x "-") as [->|]; [|discriminate].
  rewrite run_Seq_Group in H.
  apply (run_group _ _ _ _ _ _ _ Hm) in H as (M & s2 & -> & HmM & H).
  rewrite run_Seq_Chr in H. destruct s2 as [|x s2]; [discriminate|].
  destruct (Ascii.eqb_spec x "-") as [->|]; [|discriminate].
  apply (run_group _ _ _ _ _ _ _ Hd) in H as (D & rest & -> & HmD & H).
  injection H as <- <-.
  exists Y, M, D, rest. split; [reflexivity|]. repeat split; try assumption.
  rewrite !append_length. cbn [String.length]. lia.
Qed.

Lemma length_zero_nil (s : string) : String.length s = 0%nat -> s = EmptyString.
Proof. destruct s; [reflexivity | discriminate]. Qed.

(** The strings that [strptime] reads as a date. *)
Lemma strptime_shape (s : string) (t : datetime) :
  strptime_Ymd s = Some t ->
  exists d M D,
    valid_date d = true /\ t = midnight d
    /\ s = zero_padded 4 (year d) ++ "-" ++ M ++ "-" ++ D
    /\ written (month d) M
    /\ (written (day d) D \/ D = String " " (String (digit_char (day d)) EmptyString)).
Proof.
  unfold strptime_Ymd. destruct (re_match FORMAT_REGEX s) as [[end_ g]|] eqn:E;
    [|discriminate].
  apply format_regex_shape in E as (Y & M & D & rest & -> & HY & HM & HD & -> & ->).
  destruct (Nat.eqb_spec (String.length (Y ++ "-" ++ M ++ "-" ++ D ++ rest))
                         (String.length (Y ++ "-" ++ M ++ "-" ++ D))) as [El|];
    [|discriminate].
  assert (rest = EmptyString) as ->.
  { apply length_zero_nil. rewrite !append_length in El. lia. }
  rewrite append_nil_r. cbn [negb group].
  change (String.eqb "d" "Y") with false. change (String.eqb "m" "Y") with false.
  change (String.eqb "Y" "Y") with true. change (String.eqb "d" "m") with false.
  change (String.eqb "m" "m") with true. change (String.eqb "d" "d") with true.
  cbv beta iota.
  destruct (year_shape Y HY) as (y & -> & _ & ->).
  destruct (month_shape M HM) as (m & -> & _ & Hm).
  destruct (day_shape D HD) as (d & -> & _ & Hd).
  destruct (_check_date_fields y m d) eqn:Hc; [|discriminate].
  intros [= <-]. exists (mkdate y m d), M, D. repeat split; assumption.
Qed.

Lemma all_allowed_no_space (s : string) :
  all_allowed (String " " s) = false.
Proof. reflexivity. Qed.

Lemma valid_index_name_shape (index : string) (w : World) :
  let p := _index_prefix (self w) in
  fst (_valid_index_name index w) = Ret true ->
  p <> EmptyString
  /\ _valid_index_prefix index = true
  /\ PyStr.len index <= 255
  /\ exists d M D,
       valid_date d = true
       /\ index = p ++ zero_padded 4 (year d) ++ "-" ++ M ++ "-" ++ D
       /\ written (month d) M /\ written (day d) D
       /\ strptime_Ymd (PyStr.slice_from (String.length p) index) = Some (midnight d).
Proof.
  cbv zeta. intros H. pose proof H as H0.
  unfold _valid_index_name in H. unfold_monad. cbv beta iota in H.
  destruct (_valid_index_prefix index) eqn:Hv; cbn [negb] in H; [|discriminate].
  destruct (PyStr.startswith index (_index_prefix (self w))) eqn:Hs; cbn [negb orb] in H;
    [|discriminate].
  destruct (Z.ltb_spec 255 (PyStr.len index)) as [|Hl]; [discriminate|].
  destruct (_index_prefix (self w)) as [|c p] eqn:Hp; [discriminate|].
  split; [discriminate|]. split; [reflexivity|]. split; [exact Hl|].
  destruct (valid_index_name_date index w H0) as [t Ht]. rewrite Hp in Ht.
  destruct (strptime_shape _ _ Ht) as (d & M & D & Hd & -> & Hsuffix & HM & HD).
  exists d, M, D. split; [exact Hd|].
  pose proof (startswith_split index (String c p) Hs) as Hi. rewrite Hsuffix in Hi.
  split; [exact Hi|]. split; [exact HM|]. split; [|exact Ht].
  destruct HD as [HD| ->]; [exact HD|].
  destruct (valid_index_prefix_inv index Hv) as (_ & _ & Ha).
  rewrite Hi, !all_allowed_app in Ha.
  rewrite all_allowed_no_space, !andb_false_r in Ha. discriminate.
Qed.

Lemma int_written (n : Z) (s : string) : 0 <= n < 100 -> written n s -> int s = Some n.
Proof.
  intros Hn [->|[Hlt ->]]; [now apply int_zero_padded_2|].
  cbn [int]. rewrite digit_char_not_space, int_digits_step. cbn [int_digits]. f_equal. lia.
Qed.

Lemma written_length (n : Z) (s : string) :
  written n s -> String.length s = 2%nat \/ String.length s = 1%nat.
Proof. intros [->|[_ ->]]; [left | right]; reflexivity. Qed.

Lemma run_month_unpadded (m : Z) (rest : string) (g : groups)
      (k : nat -> string -> groups -> option found) (f : found) :
  1 <= m <= 9 ->
  k 6%nat (String "-" rest) (("m", String (digit_char m) EmptyString) :: g) = Some f ->
  run TimeRE_m 5 (String (digit_char m) (String "-" rest)) g k = Some f.
Proof.
  intros Hm Hk.
  assert (H : m = 1 \/ m = 2 \/ m = 3 \/ m = 4 \/ m = 5 \/ m = 6 \/ m = 7 \/ m = 8 \/ m = 9)
    by lia.
  destruct H as [->|[->|[->|[->|[->|[->|[->|[->| ->]]]]]]]];
    set (c := digit_char _) in *; vm_compute in c; subst c;
    cbn; rewrite ?substring_0_0, Hk; reflexivity.
Qed.

Lemma run_day_written (pos : nat) (d : Z) (D : string) (g : groups) :
  pos = 7%nat \/ pos = 8%nat -> 1 <= d <= 31 -> written d D ->
  run TimeRE_d pos D g (fun p _ g' => Some (p, g'))
  = Some ((pos + String.length D)%nat, ("d", D) :: g).
Proof.
  intros Hpos Hd HD.
  assert (H : exists n : nat, (n < 31)%nat /\ d = Z.of_nat (S n)).
  { exists (Z.to_nat (d - 1)). lia. }
  destruct H as (n & Hn & ->).
  destruct Hpos as [->| ->]; destruct HD as [->|[Hlt ->]];
    do 31 (destruct n as [|n]; [first [reflexivity | lia]|]); lia.
Qed.

(** The other direction: every way of writing a date of the calendar is
    read back as that date. *)
Lemma strptime_written (d : date) (M D : string) :
  valid_date d = true -> written (month d) M -> written (day d) D ->
  strptime_Ymd (zero_padded 4 (year d) ++ "-" ++ M ++ "-" ++ D) = Some (midnight d).
Proof.
  intros Hv HM HD. destruct (valid_date_bounds d Hv) as (Hy & Hm & Hd).
  set (s := zero_padded 4 (year d) ++ "-" ++ M ++ "-" ++ D).
  assert (Hre : re_match FORMAT_REGEX s
                = Some (String.length s, [("d", D); ("m", M); ("Y", zero_padded 4 (year d))])).
  { subst s.
    change (zero_padded 4 (year d) ++ "-" ++ M ++ "-" ++ D)
      with (zero_padded 4 (year d) ++ String "-" (M ++ String "-" D)).
    unfold re_match, FORMAT_REGEX. cbn [run]. rewrite run_year.
    cbn [run Ascii.eqb Bool.eqb].
    rewrite !append_length. cbn [String.length]. rewrite !append_length.
    cbn [String.length].
    change (String.length (zero_padded 4 (year d))) with 4%nat.
    destruct HM as [->|[Hlt ->]].
    - apply run_month_then; [exact Hm|]. cbn [run Ascii.eqb Bool.eqb].
      rewrite (run_day_written 8 (day d) D) by (auto; lia).
      change (String.length (zero_padded 2 (month d))) with 2%nat.
      repeat f_equal; lia.
    - rewrite append_cons, append_nil.
      apply run_month_unpadded; [lia|]. cbn [run Ascii.eqb Bool.eqb].
      rewrite (run_day_written 7 (day d) D) by (auto; lia).
      cbn [String.length]. repeat f_equal; lia. }
  unfold strptime_Ymd. rewrite Hre, Nat.eqb_refl.
  cbn [negb group]. 
  change (String.eqb "d" "Y") with false. change (String.eqb "m" "Y") with false.
  change (String.eqb "Y" "Y") with true. change (String.eqb "d" "m") with false.
  change (String.eqb "m" "m") with true. change (String.eqb "d" "d") with true.
  cbv beta iota.
  rewrite int_zero_padded_4, (int_written (month d) M), (int_written (day d) D)
    by (assumption || lia).
  unfold valid_date in Hv. rewrite Hv. now destruct d.
Qed.

(** Property X2: what [_valid_index_name] accepts among the names made of
    characters with code points below 256.  These are the strings of this
    development, and on them the class [\d] of the date pattern is the digits
    [0] to [9]; decimal digits of other scripts, which [\d] and [int] take as
    well, lie above and are outside the statement.  On such a name
    [_valid_index_name] returns [True] exactly when the name matches the
    pattern of prefixes, has at most 255 characters and consists of the
    (non-empty) prefix of the manager followed by a date of the calendar
    written as the four digits of the year, [-], the month, [-], the day, where
    month and day are written with two digits or, below ten, with one. *)
Theorem valid_index_name_exact (index : string) (w : World) :
  let p := _index_prefix (self w) in
  fst (_valid_index_name index w) = Ret true
  <-> (p <> EmptyString
       /\ _valid_index_prefix index = true
       /\ PyStr.len index <= 255
       /\ exists d M D,
            valid_date d = true
            /\ index = p ++ zero_padded 4 (year d) ++ "-" ++ M ++ "-" ++ D
            /\ written (month d) M /\ written (day d) D).
Proof.
  cbv zeta. split.
  - intros H. destruct (valid_index_name_shape index w H)
      as (Hp & Hv & Hl & d & M & D & Hd & Hi & HM & HD & _).
    repeat split; try assumption. now exists d, M, D.
  - intros (Hp & Hv & Hl & d & M & D & Hd & -> & HM & HD).
    unfold _valid_index_name. unfold_monad. cbv beta iota.
    rewrite Hv, startswith_app. cbn [negb orb].
    destruct (Z.ltb_spec 255 (PyStr.len (_index_prefix (self w) ++ zero_padded 4 (year d)
                                          ++ "-" ++ M ++ "-" ++ D))) as [|_]; [lia|].
    rewrite (split1_last_app _ _ Hp), (strptime_written d M D Hd HM HD).
    reflexivity.
Qed.

(** ** Initialisation, configuration and the operations on the cluster *)

Section CallerProperties.
Variable backend : list event -> request -> reply.
Variable FORCE : string.

(** Property X9: when the template is registered.  On a manager that is not
    initialised, with no forced update, [_initialize] first looks the template
    up with its client.  If the lookup succeeds nothing else is sent and
    [_initialize] returns.  If the template is not found, one registration is
    sent on a connection that differs from the client only by its timeout of
    60 seconds, for the prefix, the pattern [prefix + "*"] and the index
    settings (none when they are [None]), and [_initialize] returns or raises
    as the registration does; with an empty prefix nothing is sent and the
    assertion of [create_or_update_template] fails.  Any other error of the
    lookup is raised and nothing else is sent. *)
Theorem template_registration (w : World) (client : Connection) :
  let o := self w in
  let p := _index_prefix o in
  let init := _initialize backend FORCE w in
  let lookup_request := GetTemplate client p in
  let lookup := backend (trace w) lookup_request in
  let t := (trace w ++ [(lookup_request, lookup)])%list in
  let template_connection :=
    mkConnection (conn_host client) (conn_port client) (conn_http_auth client)
      (conn_use_ssl client) (conn_verify_certs client)
      ELASTICSEARCH_TEMPLATE_CONNECTION_TIMEOUT in
  let put :=
    PutTemplate template_connection p (p ++ "*")
      (match _index_settings o with Some s => s | None => [] end) in
  _initialized o = false ->
  _client (self (snd init)) = Some client ->
  String.eqb (PyStr.lower FORCE) "true" = false ->
  (succeeded lookup = true -> trace (snd init) = t /\ fst init = Ret tt)
  /\ (lookup = Raise NotFoundError -> p <> EmptyString ->
      trace (snd init) = (t ++ [(put, backend t put)])%list
      /\ fst init = match backend t put with Ret _ => Ret tt | Raise e => Raise e end)
  /\ (lookup = Raise NotFoundError -> p = EmptyString ->
      trace (snd init) = t /\ fst init = Raise AssertionError)
  /\ (forall e, lookup = Raise e -> e <> NotFoundError ->
                trace (snd init) = t /\ fst init = Raise e).
Proof.
  cbv zeta. intros H Hc Hf. rewrite (initialize_fresh_client backend FORCE w H) in Hc.
  injection Hc as <-. rewrite client_of_fields, (initialize_fresh_run backend FORCE w H).
  unfold fresh_initialize. cbv zeta. rewrite Hf.
  split; [|split; [|split]].
  - destruct (backend (trace w) _); [|discriminate]. intros _. split; reflexivity.
  - intros -> Hp. unfold register. rewrite (truthy_nonempty _ Hp). cbv zeta.
    cbn [fst snd after_initialize trace]. split; reflexivity.
  - intros -> Hp. unfold register. rewrite Hp. cbn [PyStr.truthy fst snd].
    unfold after_initialize. cbn [trace]. now rewrite app_nil_r.
  - intros e -> He. destruct e; try congruence; split; reflexivity.
Qed.

(** Property X10: the forced update.  When [FORCE_INDEX_TEMPLATE_UPDATE] is
    [true] in any letter case and the lookup succeeds, [_initialize] sends the
    registration although the template exists.  Since the registration runs
    inside the [try] block, a registration that the cluster answers with
    not-found is sent a second time by the [except NotFoundError] clause, and
    the outcome of [_initialize] is that of the second attempt. *)
Theorem forced_template_update (w : World) (client : Connection) :
  let o := self w in
  let p := _index_prefix o in
  let init := _initialize backend FORCE w in
  let lookup_request := GetTemplate client p in
  let lookup := backend (trace w) lookup_request in
  let t := (trace w ++ [(lookup_request, lookup)])%list in
  let template_connection :=
    mkConnection (conn_host client) (conn_port client) (conn_http_auth client)
      (conn_use_ssl client) (conn_verify_certs client)
      ELASTICSEARCH_TEMPLATE_CONNECTION_TIMEOUT in
  let put :=
    PutTemplate template_connection p (p ++ "*")
      (match _index_settings o with Some s => s | None => [] end) in
  let first := backend t put in
  let again := backend (t ++ [(put, first)])%list put in
  _initialized o = false ->
  _client (self (snd init)) = Some client ->
  String.eqb (PyStr.lower FORCE) "true" = true ->
  p <> EmptyString ->
  succeeded lookup = true ->
  (first <> Raise NotFoundError ->
   trace (snd init) = (t ++ [(put, first)])%list
   /\ fst init = match first with Ret _ => Ret tt | Raise e => Raise e end)
  /\ (first = Raise NotFoundError ->
      trace (snd init) = (t ++ [(put, first); (put, again)])%list
      /\ fst init = match again with Ret _ => Ret tt | Raise e => Raise e end).
Proof.
  cbv zeta. intros H Hc Hf Hp Hl. rewrite (initialize_fresh_client backend FORCE w H) in Hc.
  injection Hc as <-. rewrite client_of_fields, (initialize_fresh_run backend FORCE w H).
  unfold fresh_initialize. cbv zeta. rewrite Hf.
  destruct (backend (trace w) _) as [l|]; [clear Hl|discriminate].
  unfold register. rewrite (truthy_nonempty _ Hp). cbv zeta.
  change (put_template (self w))
    with (PutTemplate (template_connection_of (self w)) (_index_prefix (self w))
            (_index_prefix (self w) ++ "*")
            (match _index_settings (self w) with Some s => s | None => [] end)).
  split.
  - intros Hn. destruct (backend _ _) as [l1|e]; [split; reflexivity|].
    destruct e; try congruence; split; reflexivity.
  - intros ->. cbn [fst snd after_initialize trace]. rewrite <- !app_assoc. split; reflexivity.
Qed.


(** Property X8: the connections that [_initialize] makes.  On a manager that
    is not initialised, and whatever the cluster answers, [_initialize] stores
    a client made from the host, the port and the SSL flag of the manager, with
    certificate verification and a timeout of 15 seconds, registers it as the
    default connection, and leaves no template connection behind; the flag is
    set exactly when [_initialize] returns, and nothing else of the manager
    changes.  The client signs with AWS4 when access key, secret key and region
    are all set, uses the pair of keys when only the region is missing, and
    otherwise has no credentials, in which case a warning is logged. *)
Theorem initialize_connections (w : World) :
  let o := self w in
  let init := _initialize backend FORCE w in
  let credentials := truthy_opt (_access_key o) && truthy_opt (_secret_key o) in
  _initialized o = false ->
  exists client,
    self (snd init) = set_initialized (succeeded (fst init)) (set_client (Some client) o)
    /\ connections (snd init)
       = delete ELASTICSEARCH_TEMPLATE_CONNECTION_ALIAS (<["default" := client]> (connections w))
    /\ client = mkConnection (_host o) (_port o) (conn_http_auth client) (_use_ssl o) true
                             ELASTICSEARCH_DEFAULT_CONNECTION_TIMEOUT
    /\ (credentials = true -> truthy_opt (_aws_region o) = true ->
        conn_http_auth client
        = Some (AWS4Auth (str_of (_access_key o)) (str_of (_secret_key o))
                         (str_of (_aws_region o)) "es")
        /\ logs (snd init) = logs w)
    /\ (credentials = true -> truthy_opt (_aws_region o) = false ->
        conn_http_auth client
        = Some (BasicAuth (str_of (_access_key o)) (str_of (_secret_key o)))
        /\ logs (snd init) = logs w)
    /\ (credentials = false ->
        conn_http_auth client = None
        /\ logs (snd init)
           = (logs w ++ [LogWarn "Connecting to Elasticsearch without HTTP auth"])%list).
Proof.
  cbv zeta. intros H. exists (client_of (self w)).
  rewrite (initialize_fresh_run backend FORCE w H).
  destruct (fresh_initialize_shape backend FORCE w) as (cls & t & ->).
  unfold after_initialize. cbn [self connections logs].
  split; [|split; [reflexivity|split; [reflexivity|]]].
  - destruct (succeeded _); cbn [set_initialized set_client _initialized]; [reflexivity|].
    unfold set_initialized, set_client. cbn. now rewrite <- H.
  - unfold warned, client_of, http_auth_of. cbn [conn_http_auth].
    split; [|split].
    + intros -> ->. now split.
    + intros -> ->. now split.
    + intros ->. now split.
Qed.

Lemma initialize_LogEntry (w : World) :
  let o := self w in
  let init := _initialize backend FORCE w in
  _initialized o = false ->
  fst init = Ret tt ->
  LogEntry (snd init)
  = mkLogEntryClass
      (Some (_index_prefix o ++ "*",
             match _index_settings o with Some s => s | None => [] end))
      (Some (_index_prefix o)) true.
Proof.
  cbv zeta. intros H. rewrite (initialize_fresh_run backend FORCE w H).
  unfold fresh_initialize, register. cbv zeta.
  destruct (backend (trace w) _) as [l|e].
  - destruct (String.eqb _ _); [|reflexivity].
    destruct (PyStr.truthy _); [|discriminate].
    destruct (backend _ _) as [l1|e]; [reflexivity|].
    destruct e; try discriminate.
    destruct (backend _ _) as [l2|e]; [reflexivity|discriminate].
  - destruct e; try discriminate.
    destruct (PyStr.truthy _); [|discriminate].
    destruct (backend _ _) as [l2|e]; [reflexivity|discriminate].
Qed.


Lemma configured_prefix_nonempty (index_prefix : option string) :
  (if truthy_opt index_prefix then str_of index_prefix else INDEX_NAME_PREFIX)
  <> EmptyString.
Proof. destruct index_prefix as [[|c s]|]; discriminate. Qed.

(** Property X11: [configure_es].  The manager it makes has the given prefix,
    or [INDEX_NAME_PREFIX] when the prefix is [None] or empty, so never an
    empty one.  When [configure_es] returns, the manager it returns is
    initialised, holds the client registered as default connection, and
    [LogEntry] is configured for its prefix.  When it raises, the manager is
    not initialised and the error is the one that the cluster gave to the
    last request.  In both cases no template connection is left. *)
Theorem configure_es_result (host : option string) (port : option Z)
        (access_key secret_key aws_region index_prefix : option string)
        (use_ssl : bool) (index_settings : option settings) (w : World) :
  let run := configure_es backend FORCE host port access_key secret_key aws_region
                          index_prefix use_ssl index_settings w in
  let prefix := if truthy_opt index_prefix then str_of index_prefix else INDEX_NAME_PREFIX in
  prefix <> EmptyString
  /\ _index_prefix (self (snd run)) = prefix
  /\ connections (snd run) !! ELASTICSEARCH_TEMPLATE_CONNECTION_ALIAS = None
  /\ (forall m, fst run = Ret m ->
        self (snd run) = m
        /\ _initialized m = true
        /\ (exists c, _client m = Some c /\ connections (snd run) !! "default" = Some c)
        /\ LogEntry (snd run)
           = mkLogEntryClass
               (Some (prefix ++ "*",
                      match index_settings with Some s => s | None => [] end))
               (Some prefix) true)
  /\ (forall e, fst run = Raise e ->
        _initialized (self (snd run)) = false
        /\ exists evs r, trace (snd run) = (trace w ++ evs ++ [(r, Raise e)])%list).
Proof.
  cbv zeta.
  pose proof (configured_prefix_nonempty index_prefix) as Hp.
  set (prefix := if truthy_opt index_prefix then str_of index_prefix else INDEX_NAME_PREFIX)
    in *.
  set (w0 := mkWorld (new_ElasticsearchLogs host port access_key secret_key aws_region
                                            index_settings use_ssl prefix)
                     (connections w) (LogEntry w) (logs w) (trace w)).
  assert (H0 : _initialized (self w0) = false) by reflexivity.
  assert (Hconf : configure_es backend FORCE host port access_key secret_key aws_region
                               index_prefix use_ssl index_settings w
                  = match _initialize backend FORCE w0 with
                    | (Ret _, w') => (Ret (self w'), w')
                    | (Raise e, w') => (Raise e, w')
                    end) by reflexivity.
  rewrite Hconf. clear Hconf.
  pose proof (initialize_LogEntry w0 H0) as Hcls. cbv zeta in Hcls.
  rewrite (initialize_fresh_run backend FORCE w0 H0) in *.
  assert (Hshape : exists r cls evs,
             fresh_initialize backend FORCE w0 = (r, after_initialize w0 r cls (trace w ++ evs))
             /\ forall e, r = Raise e -> exists evs' q, evs = (evs' ++ [(q, Raise e)])%list).
  { unfold fresh_initialize, register. cbv zeta.
    change (_index_prefix (self w0)) with prefix. rewrite (truthy_nonempty _ Hp).
    change (trace w0) with (trace w). cbv zeta.
    destruct (String.eqb _ _);
      repeat match goal with
             | |- context [match backend ?t ?r with _ => _ end] =>
                 destruct (backend t r) as [?|[]]
             end;
      rewrite <- ?app_assoc; cbn [app];
      do 3 eexists; (split; [reflexivity|]); intros e' E'; inversion E'; subst;
      first [ eexists [], _; reflexivity
            | eexists [_], _; reflexivity
            | eexists [_; _], _; reflexivity ]. }
  destruct Hshape as (r & cls & evs & Hrun & Hraise). rewrite Hrun in *.
  cbn [fst snd] in Hcls.
  split; [exact Hp|].
  destruct r as [[]|e]; cbn [fst snd get_self after_initialize succeeded self connections
                                 trace set_initialized set_client _index_prefix
                                 _initialized _client].
  - split; [reflexivity|]. split; [apply lookup_delete_eq|]. split.
    + intros m [= <-]. split; [reflexivity|]. split; [reflexivity|]. split.
      * eexists. split; [reflexivity|].
        rewrite lookup_delete_ne by discriminate. apply lookup_insert_eq.
      * now apply Hcls.
    + discriminate.
  - split; [reflexivity|]. split; [apply lookup_delete_eq|]. split; [discriminate|].
    intros e' [= <-]. split; [reflexivity|].
    destruct (Hraise e eq_refl) as (evs' & q & ->). eauto.
Qed.


Lemma valid_index_name_keeps (index : string) (w : World) :
  connections (snd (_valid_index_name index w)) = connections w
  /\ LogEntry (snd (_valid_index_name index w)) = LogEntry w.
Proof.
  unfold _valid_index_name. unfold_monad.
  repeat match goal with
         | |- context [if ?b then _ else _] => destruct b
         | |- context [match ?o with Some _ => _ | None => _ end] => destruct o
         end; cbn [fst snd connections LogEntry]; now split.
Qed.

Lemma valid_index_name_empty_prefix (index : string) (w : World) :
  _index_prefix (self w) = EmptyString ->
  _valid_index_name index w
  = (if _valid_index_prefix index && (PyStr.len index <=? 255)
     then Raise ValueError else Ret false, w).
Proof.
  intros Hp. unfold _valid_index_name. unfold_monad. cbv beta iota. rewrite Hp.
  destruct (_valid_index_prefix index); cbn [negb andb]; [|reflexivity].
  cbn [PyStr.startswith negb orb PyStr.split1_last].
  rewrite Z.ltb_antisym. now destruct (PyStr.len index <=? 255).
Qed.

(** Property X4: validation on a manager whose prefix is empty.  For every name
    that matches the pattern and has at most 255 characters,
    [_valid_index_name] does not return: [index.split(prefix, 1)] raises
    [ValueError] for the empty separator, outside the [try] block.  [can_delete_index] raises the same
    error instead of failing its assertion, and so does [delete_index] once
    [_initialize] has returned, without sending a delete request. *)
Theorem empty_prefix_raises_ValueError (index : string) (cutoff_date : datetime)
        (w : World) :
  _index_prefix (self w) = EmptyString ->
  _valid_index_prefix index = true ->
  PyStr.len index <= 255 ->
  _valid_index_name index w = (Raise ValueError, w)
  /\ can_delete_index index cutoff_date w = (Raise ValueError, w)
  /\ (fst (_initialize backend FORCE w) = Ret tt ->
      delete_index backend FORCE index w
      = (Raise ValueError, snd (_initialize backend FORCE w))).
Proof.
  intros Hp Hv Hl. apply Z.leb_le in Hl.
  assert (Hn : forall w1, _index_prefix (self w1) = EmptyString ->
                          _valid_index_name index w1 = (Raise ValueError, w1)).
  { intros w1 H1. now rewrite (valid_index_name_empty_prefix index w1 H1), Hv, Hl. }
  split; [now apply Hn|]. split.
  - unfold can_delete_index, bind at 1. now rewrite (Hn w Hp).
  - intros Hi. pose proof (initialize_prefix backend FORCE w) as Hq.
    unfold delete_index, bind at 1.
    destruct (_initialize backend FORCE w) as [r w1]. cbn [fst snd] in *. subst r.
    unfold bind at 1. rewrite (Hn w1) by congruence. reflexivity.
Qed.

(** Property X12: other errors of the cluster reach the caller.
    [index_exists] catches only not-found: any other error of the lookup,
    [AuthorizationException] included, is raised.  [list_indices] and
    [delete_index] (of a valid name) raise every error other than not-found and
    unauthorized.  In all these cases nothing is logged. *)
Theorem cluster_errors_propagate (w : World) (c : Connection) (index : string) (e : exn) :
  let w1 := snd (_initialize backend FORCE w) in
  let listing := IndicesGet c (_index_prefix (self w1) ++ "*") in
  let deletion := IndicesDelete c index in
  e <> NotFoundError ->
  (_client (self w) = Some c ->
   backend (trace w) (IndicesGet c index) = Raise e ->
   fst (index_exists backend index w) = Raise e
   /\ logs (snd (index_exists backend index w)) = logs w)
  /\ (e <> AuthorizationException ->
      fst (_initialize backend FORCE w) = Ret tt ->
      _client (self w1) = Some c ->
      (backend (trace w1) listing = Raise e ->
       fst (list_indices backend FORCE w) = Raise e
       /\ logs (snd (list_indices backend FORCE w)) = logs w1)
      /\ (fst (_valid_index_name index w) = Ret true ->
          backend (trace w1) deletion = Raise e ->
          fst (delete_index backend FORCE index w) = Raise e
          /\ logs (snd (delete_index backend FORCE index w)) = logs w1)).
Proof.
  cbv zeta. intros Hn. split.
  - intros Hc Hb. unfold index_exists. unfold_monad. cbv beta iota.
    rewrite Hc. cbv beta iota. rewrite Hb. destruct e; try congruence; now split.
  - intros Ha Hi Hc.
    destruct (_initialize backend FORCE w) as [r w1] eqn:Hrun. cbn [fst snd] in *. subst r.
    split.
    + intros Hb. rewrite (list_indices_run backend FORCE w w1 c Hrun Hc). cbv zeta.
      rewrite Hb. destruct e; try congruence; now split.
    + intros Hv Hb. rewrite (delete_index_run backend FORCE w w1 c index Hrun Hc Hv).
      cbv zeta. rewrite Hb. destruct e; try congruence; now split.
Qed.

(** Property X13: an initialised manager sends one request per operation.
    Once the manager is initialised, [list_indices] sends exactly the listing
    of [prefix + "*"] and [delete_index] of a valid name exactly the deletion
    of that name, both with the client of the manager; [delete_index] of a
    name that validation rejects fails its assertion and sends nothing.  None
    of them looks the template up again, or changes the manager, the
    connections or [LogEntry]. *)
Theorem initialized_manager_requests (w : World) (c : Connection) (index : string) :
  let listing := IndicesGet c (_index_prefix (self w) ++ "*") in
  let deletion := IndicesDelete c index in
  let unchanged (w' : World) :=
    self w' = self w /\ connections w' = connections w /\ LogEntry w' = LogEntry w in
  _initialized (self w) = true ->
  _client (self w) = Some c ->
  (trace (snd (list_indices backend FORCE w))
   = (trace w ++ [(listing, backend (trace w) listing)])%list
   /\ unchanged (snd (list_indices backend FORCE w)))
  /\ (fst (_valid_index_name index w) = Ret true ->
      trace (snd (delete_index backend FORCE index w))
      = (trace w ++ [(deletion, backend (trace w) deletion)])%list
      /\ unchanged (snd (delete_index backend FORCE index w)))
  /\ (fst (_valid_index_name index w) = Ret false ->
      fst (delete_index backend FORCE index w) = Raise AssertionError
      /\ trace (snd (delete_index backend FORCE index w)) = trace w
      /\ unchanged (snd (delete_index backend FORCE index w))).
Proof.
  cbv zeta. intros Hi Hc.
  pose proof (initialize_ready backend FORCE w Hi) as Hrun.
  split; [|split].
  - rewrite (list_indices_run backend FORCE w w c Hrun Hc). cbv zeta.
    destruct (backend (trace w) _) as [?|[]] eqn:E; unfold call, log; cbn [snd trace self connections LogEntry];
      rewrite ?E; repeat split.
  - intros Hv. rewrite (delete_index_run backend FORCE w w c index Hrun Hc Hv). cbv zeta.
    destruct (backend (trace w) _) as [?|[]] eqn:E; unfold call, log; cbn [snd trace self connections LogEntry];
      rewrite ?E; repeat split.
  - intros Hv.
    assert (Hd : delete_index backend FORCE index w
                 = (Raise AssertionError, snd (_valid_index_name index w))).
    { unfold delete_index, bind at 1. rewrite Hrun. unfold bind at 1.
      destruct (_valid_index_name index w) as [r w2]. cbn [fst snd] in *. now subst r. }
    rewrite Hd. cbn [fst snd].
    destruct (valid_index_name_world index w) as (Hs & Ht & _).
    destruct (valid_index_name_keeps index w) as (Hk & Hk').
    repeat split; assumption.
Qed.

Lemma fresh_initialize_trace (w : World) :
  let request := GetTemplate (client_of (self w)) (_index_prefix (self w)) in
  exists rest,
    trace (snd (fresh_initialize backend FORCE w))
    = (trace w ++ (request, backend (trace w) request) :: rest)%list.
Proof.
  cbv zeta. unfold fresh_initialize. cbv zeta.
  destruct (backend (trace w) _) as [l|e].
  - destruct (String.eqb _ _); [|cbn [fst snd after_initialize trace]; eauto].
    destruct (register backend w _) as [[[[]|e] b] evs];
      [cbn [fst snd after_initialize trace]; rewrite <- app_assoc; eauto|].
    destruct e;
      try (cbn [fst snd after_initialize trace]; rewrite <- app_assoc; eauto).
    destruct (register backend w _) as [[r b2] evs2].
    cbn [fst snd after_initialize trace]. rewrite <- !app_assoc. eauto.
  - destruct e; try (cbn [fst snd after_initialize trace]; eauto).
    destruct (register backend w _) as [[r b2] evs2].
    cbn [fst snd after_initialize trace]. rewrite <- !app_assoc. eauto.
Qed.

(** Property X16: [LogEntry] is shared, and [LogEntry.init] sets the prefix
    before it registers the template.  On a manager that is not initialised
    and has a prefix, when the template is not found and the registration
    raises, [_initialize] raises that error and the manager stays
    uninitialised, but [LogEntry] already carries the prefix and the wildcard
    index of this manager, with the [_initialized] flag it had before: a
    [LogEntry] that an earlier manager had initialised now saves under the new
    prefix.  When the lookup itself raises an error other than not-found,
    [LogEntry] is left as it was. *)
Theorem failed_registration_reconfigures_LogEntry (w : World) (client : Connection)
        (e : exn) :
  let o := self w in
  let p := _index_prefix o in
  let init := _initialize backend FORCE w in
  let lookup_request := GetTemplate client p in
  let lookup := backend (trace w) lookup_request in
  let t := (trace w ++ [(lookup_request, lookup)])%list in
  let template_connection :=
    mkConnection (conn_host client) (conn_port client) (conn_http_auth client)
      (conn_use_ssl client) (conn_verify_certs client)
      ELASTICSEARCH_TEMPLATE_CONNECTION_TIMEOUT in
  let wildcard_index :=
    (p ++ "*", match _index_settings o with Some s => s | None => [] end) in
  let put := PutTemplate template_connection p (fst wildcard_index) (snd wildcard_index) in
  _initialized o = false ->
  _client (self (snd init)) = Some client ->
  (lookup = Raise NotFoundError -> p <> EmptyString -> backend t put = Raise e ->
   fst init = Raise e
   /\ _initialized (self (snd init)) = false
   /\ LogEntry (snd init)
      = mkLogEntryClass (Some wildcard_index) (Some p) (le_initialized (LogEntry w)))
  /\ (lookup = Raise e -> e <> NotFoundError ->
      fst init = Raise e /\ LogEntry (snd init) = LogEntry w).
Proof.
  cbv zeta. intros H Hc. rewrite (initialize_fresh_client backend FORCE w H) in Hc.
  injection Hc as <-. rewrite client_of_fields, (initialize_fresh_run backend FORCE w H).
  unfold fresh_initialize. cbv zeta. split.
  - intros -> Hp Hb. unfold register. rewrite (truthy_nonempty _ Hp). cbv zeta.
    change (put_template (self w))
      with (PutTemplate (template_connection_of (self w)) (_index_prefix (self w))
              (_index_prefix (self w) ++ "*")
              (match _index_settings (self w) with Some s => s | None => [] end)).
    cbn [fst snd] in Hb. rewrite Hb. cbn [fst snd after_initialize succeeded self LogEntry].
    unfold set_client. cbn [_initialized]. repeat split. exact H.
  - intros -> He. destruct e; try congruence; split; reflexivity.
Qed.

(** Property X17: a failed initialisation is tried again.  When [_initialize]
    raises on a manager that is not initialised, the manager stays
    uninitialised, and the next call of [_initialize] starts over: it sends the
    template lookup again, with the same client, and sets the flag if it
    returns. *)
Theorem failed_initialize_is_retried (w : World) (client : Connection) (e : exn) :
  let init := _initialize backend FORCE w in
  let again := _initialize backend FORCE (snd init) in
  let lookup_request := GetTemplate client (_index_prefix (self w)) in
  _initialized (self w) = false ->
  _client (self (snd init)) = Some client ->
  fst init = Raise e ->
  _initialized (self (snd init)) = false
  /\ _client (self (snd again)) = Some client
  /\ (exists rest,
        trace (snd again)
        = (trace (snd init)
           ++ (lookup_request, backend (trace (snd init)) lookup_request) :: rest)%list)
  /\ _initialized (self (snd again)) = succeeded (fst again).
Proof.
  cbv zeta. intros H Hc Hr. rewrite (initialize_fresh_client backend FORCE w H) in Hc.
  injection Hc as <-.
  assert (Hs : self (snd (_initialize backend FORCE w))
               = set_client (Some (client_of (self w))) (self w)).
  { rewrite (initialize_fresh_run backend FORCE w H) in *.
    destruct (fresh_initialize_shape backend FORCE w) as (cls & t & Hw). rewrite Hw, Hr. reflexivity. }
  set (w1 := snd (_initialize backend FORCE w)) in *.
  assert (H1 : _initialized (self w1) = false) by (rewrite Hs; exact H).
  assert (Hc1 : client_of (self w1) = client_of (self w)) by (rewrite Hs; reflexivity).
  assert (Hp1 : _index_prefix (self w1) = _index_prefix (self w)) by (rewrite Hs; reflexivity).
  split; [exact H1|]. split; [|split].
  - now rewrite (initialize_fresh_client backend FORCE w1 H1), Hc1.
  - rewrite (initialize_fresh_run backend FORCE w1 H1).
    destruct (fresh_initialize_trace w1) as (rest & Ht). cbv zeta in Ht.
    rewrite Hc1, Hp1 in Ht. eauto.
  - rewrite (initialize_fresh_run backend FORCE w1 H1).
    destruct (fresh_initialize_shape backend FORCE w1) as (cls & t & ->).
    unfold after_initialize. cbn [self].
    destruct (succeeded _); cbn [set_initialized set_client _initialized]; [reflexivity|].
    exact H1.
Qed.

End CallerProperties.

(** ** Saving a document *)

Section SaveProperties.
Variable backend : list event -> request -> reply.
Variable FORCE : string.
Variable other_conversions : string -> datetime -> Outcome string.
Variable Value : Type.
Variable str_value : string -> Value.
Variable Result : Type.
Variable Document_save : gmap string Value -> M Result.

Lemma strftime_INDEX_DATE_FORMAT (t : datetime) :
  strftime other_conversions INDEX_DATE_FORMAT t = Ret (strftime_Ymd (dt_date t)).
Proof. reflexivity. Qed.

(** A prefix without a percent sign and without a NUL character is copied
    in front of the date. *)
Lemma strftime_prefix (prefix : string) (t : datetime) :
  has_char "%" prefix = false -> has_char "000" prefix = false ->
  strftime other_conversions (prefix ++ INDEX_DATE_FORMAT) t
  = Ret (prefix ++ strftime_Ymd (dt_date t)).
Proof.
  induction prefix as [|c p IH]; intros H H0.
  - rewrite !append_nil. apply strftime_INDEX_DATE_FORMAT.
  - cbn [has_char] in H, H0. apply orb_false_elim in H as [Hc Hp].
    apply orb_false_elim in H0 as [Hc0 Hp0].
    rewrite !append_cons. cbn [strftime]. rewrite Hc, Hc0, (IH Hp Hp0). reflexivity.
Qed.

(** The format ends at a NUL character: what follows it is lost, the date
    included. *)
Lemma strftime_NUL (a b : string) (t : datetime) :
  has_char "%" a = false -> has_char "000" a = false ->
  strftime other_conversions (a ++ String "000" b) t = Ret a.
Proof.
  induction a as [|c a IH]; intros H H0.
  - reflexivity.
  - cbn [has_char] in H, H0. apply orb_false_elim in H as [Hc Hp].
    apply orb_false_elim in H0 as [Hc0 Hp0].
    rewrite !append_cons. cbn [strftime]. rewrite Hc, Hc0, (IH Hp Hp0). reflexivity.
Qed.

(** Property X14: the index that [LogEntry.save] writes to.  Before
    [LogEntry.init] has completed, [save] fails its assertion and does not
    reach [Document.save].  Afterwards, for a prefix without a percent sign
    and without a NUL character, [save] calls [Document.save] with the keyword
    [index] set to the prefix followed by the day of the document as
    [strftime] writes it for [%Y-%m-%d] (the year without padding), replacing
    whatever the caller gave as [index] and leaving the other keywords alone.
    A prefix with a NUL character is used as a format up to that character
    only: the index is the part of the prefix before it, without any date. *)
Theorem LogEntry_save_index (w : World) (datetime_ : option datetime)
        (kwargs : gmap string Value) :
  let save := LogEntry_save other_conversions Value str_value Result Document_save in
  (le_initialized (LogEntry w) = false ->
   save datetime_ kwargs w = (Raise AssertionError, w))
  /\ (forall prefix t,
        le_initialized (LogEntry w) = true ->
        le_index_prefix (LogEntry w) = Some prefix ->
        datetime_ = Some t ->
        has_char "%" prefix = false -> has_char "000" prefix = false ->
        save datetime_ kwargs w
        = Document_save (<["index" := str_value (prefix ++ strftime_Ymd (dt_date t))]> kwargs)
                        w)
  /\ (forall a b t,
        le_initialized (LogEntry w) = true ->
        le_index_prefix (LogEntry w) = Some (a ++ String "000" b) ->
        datetime_ = Some t ->
        has_char "%" a = false -> has_char "000" a = false ->
        save datetime_ kwargs w = Document_save (<["index" := str_value a]> kwargs) w).
Proof.
  cbv zeta. unfold LogEntry_save, get_LogEntry. unfold_monad. cbv beta iota.
  split; [|split].
  - now intros ->.
  - intros prefix t -> -> -> Hp H0. now rewrite (strftime_prefix prefix t Hp H0).
  - intros a b t -> -> -> Hp H0.
    now rewrite append_assoc, append_cons, (strftime_NUL a _ t Hp H0).
Qed.

(** Property X15: [save] and [index_name] agree.  After [_initialize] has
    returned on a manager whose prefix has no percent sign and no NUL
    character, [LogEntry] carries the prefix of the manager, and a document is
    saved to the index that [index_name] gives for the day of the document. *)
Theorem save_after_initialize (w : World) (t : datetime) (kwargs : gmap string Value) :
  let init := _initialize backend FORCE w in
  let save := LogEntry_save other_conversions Value str_value Result Document_save in
  _initialized (self w) = false ->
  fst init = Ret tt ->
  has_char "%" (_index_prefix (self w)) = false ->
  has_char "000" (_index_prefix (self w)) = false ->
  exists name,
    le_index_prefix (LogEntry (snd init)) = Some (_index_prefix (self (snd init)))
    /\ index_name (dt_date t) (snd init) = (Ret name, snd init)
    /\ save (Some t) kwargs (snd init)
       = Document_save (<["index" := str_value name]> kwargs) (snd init).
Proof.
  cbv zeta. intros H Hi Hp H0.
  pose proof (initialize_LogEntry backend FORCE w H Hi) as Hcls.
  pose proof (initialize_prefix backend FORCE w) as Hq.
  exists (_index_prefix (self w) ++ strftime_Ymd (dt_date t)). split; [|split].
  - now rewrite Hcls, Hq.
  - unfold index_name. unfold_monad. now rewrite Hq.
  - unfold LogEntry_save, get_LogEntry. unfold_monad. cbv beta iota. rewrite Hcls.
    cbn [le_initialized le_index_prefix]. now rewrite (strftime_prefix _ t Hp H0).
Qed.

End SaveProperties.

(** ** Concrete runs of the further properties *)

(** A name without a prefix, on a manager whose prefix is empty. *)
Lemma empty_prefix_raises_ValueError_witness :
  let w := initial_world (new_ElasticsearchLogs None None None None None None true
                                                EmptyString) in
  _valid_index_name "2024-03-09" w = (Raise ValueError, w)
  /\ can_delete_index "2024-03-09" (midnight (mkdate 2024 3 10)) w = (Raise ValueError, w).
Proof.
  cbv zeta.
  destruct (empty_prefix_raises_ValueError (cluster_with (Ret []) (Ret []) (Ret [])) ""
              "2024-03-09" (midnight (mkdate 2024 3 10))
              (initial_world (new_ElasticsearchLogs None None None None None None true
                                                    EmptyString)))
    as (Hv & Hc & _).
  - reflexivity.
  - vm_compute; reflexivity.
  - vm_compute; discriminate.
  - split; [exact Hv | exact Hc].
Defined.

(** Two days in a row get different names. *)
Lemma index_name_injective_witness :
  valid_date (mkdate 2024 3 9) = true
  /\ fst (index_name (mkdate 2024 3 9) example_world)
     <> fst (index_name (mkdate 2024 3 10) example_world).
Proof.
  split; [reflexivity|]. intros H.
  apply (index_name_injective example_world (mkdate 2024 3 9) (mkdate 2024 3 10)) in H;
    [discriminate | reflexivity | reflexivity].
Defined.

(** An index named without leading zeros, and a cutoff in the afternoon of
    the next day. *)
Lemma can_delete_index_decision_witness :
  let cutoff_date := mkdatetime (mkdate 2024 1 6) 12 30 0 0 in
  exists d,
    valid_date d = true
    /\ strptime_Ymd (PyStr.slice_from (String.length (_index_prefix (self example_world)))
                                      "logentry_2024-1-5") = Some (midnight d)
    /\ can_delete_index "logentry_2024-1-5" cutoff_date example_world
       = (Ret (toordinal d <? toordinal (dt_date cutoff_date)), example_world)
    /\ can_delete_index "logentry_2024-1-5" (midnight (dt_date cutoff_date)) example_world
       = can_delete_index "logentry_2024-1-5" cutoff_date example_world.
Proof.
  cbv zeta.
  apply (can_delete_index_decision "logentry_2024-1-5"
           (mkdatetime (mkdate 2024 1 6) 12 30 0 0) example_world);
    vm_compute; reflexivity.
Defined.

(** Deletable at midnight of 10 March, hence in the morning of 11 March. *)
Lemma can_delete_index_monotone_witness :
  fst (can_delete_index "logentry_2024-03-09" (mkdatetime (mkdate 2024 3 11) 8 0 0 0)
                        example_world) = Ret true.
Proof.
  apply (can_delete_index_monotone "logentry_2024-03-09" (midnight (mkdate 2024 3 10))
           (mkdatetime (mkdate 2024 3 11) 8 0 0 0) example_world);
    vm_compute; reflexivity.
Defined.

(** The default manager has no credentials: its client has none, and the
    warning is logged. *)
Lemma initialize_connections_witness :
  let init := _initialize (cluster_with (Ret []) (Ret []) (Ret [])) "" example_world in
  _client (self (snd init)) = Some example_client
  /\ connections (snd init) !! "default" = Some example_client
  /\ connections (snd init) !! ELASTICSEARCH_TEMPLATE_CONNECTION_ALIAS = None
  /\ logs (snd init) = [LogWarn "Connecting to Elasticsearch without HTTP auth"].
Proof.
  cbv zeta.
  destruct (initialize_connections (cluster_with (Ret []) (Ret []) (Ret [])) ""
              example_world eq_refl)
    as (client & Hs & Hc & Hf & _ & _ & Hn).
  destruct (Hn eq_refl) as [Ha Hl].
  assert (Hclient : client = example_client).
  { rewrite Hf, Ha. reflexivity. }
  subst client. rewrite Hs, Hc, Hl.
  split; [reflexivity|]. split; [reflexivity|]. split; reflexivity.
Defined.

(** A cluster without the template: one lookup, one registration. *)
Lemma template_registration_witness :
  let init := _initialize (cluster_with (Raise NotFoundError) (Ret []) (Ret [])) ""
                          example_world in
  let template_connection :=
    mkConnection (Some "localhost") (Some 9200) None true true
                 ELASTICSEARCH_TEMPLATE_CONNECTION_TIMEOUT in
  trace (snd init)
  = [(GetTemplate example_client "logentry_", Raise NotFoundError);
     (PutTemplate template_connection "logentry_" "logentry_*" [], Ret [])]
  /\ fst init = Ret tt.
Proof.
  cbv zeta.
  destruct (template_registration (cluster_with (Raise NotFoundError) (Ret []) (Ret [])) ""
              example_world example_client eq_refl eq_refl eq_refl)
    as (_ & Hr & _).
  apply Hr; [reflexivity | discriminate].
Defined.

(** A forced update, written [True]: the registration is sent although the
    template exists; and a cluster that answers every registration with
    not-found receives it twice. *)
Lemma forced_template_update_witness :
  let stubborn : list event -> request -> reply :=
    fun _ r => match r with
               | PutTemplate _ _ _ _ => Raise NotFoundError
               | _ => Ret []
               end in
  let template_connection :=
    mkConnection (Some "localhost") (Some 9200) None true true
                 ELASTICSEARCH_TEMPLATE_CONNECTION_TIMEOUT in
  let put := PutTemplate template_connection "logentry_" "logentry_*" [] in
  trace (snd (_initialize (cluster_with (Ret []) (Ret []) (Ret [])) "True" example_world))
  = [(GetTemplate example_client "logentry_", Ret []); (put, Ret [])]
  /\ trace (snd (_initialize stubborn "True" example_world))
     = [(GetTemplate example_client "logentry_", Ret []);
        (put, Raise NotFoundError); (put, Raise NotFoundError)]
  /\ fst (_initialize stubborn "True" example_world) = Raise NotFoundError.
Proof.
  cbv zeta. split.
  - destruct (forced_template_update (cluster_with (Ret []) (Ret []) (Ret [])) "True"
                example_world example_client eq_refl eq_refl eq_refl
                ltac:(discriminate) eq_refl) as (Hr & _).
    apply Hr. discriminate.
  - destruct (forced_template_update
                (fun _ r => match r with
                            | PutTemplate _ _ _ _ => Raise NotFoundError
                            | _ => Ret []
                            end)
                "True" example_world example_client eq_refl eq_refl eq_refl
                ltac:(discriminate) eq_refl) as (_ & Hr).
    apply Hr. reflexivity.
Defined.

(** A cluster that times out on the data plane. *)
Lemma cluster_errors_propagate_witness :
  let timeout := TransportError "timeout" in
  let cluster := cluster_with (Ret []) (Raise timeout) (Raise timeout) in
  fst (list_indices cluster "" example_world) = Raise timeout
  /\ fst (delete_index cluster "" "logentry_2024-03-08" example_world) = Raise timeout.
Proof.
  cbv zeta.
  destruct (cluster_errors_propagate
              (cluster_with (Ret []) (Raise (TransportError "timeout"))
                            (Raise (TransportError "timeout")))
              "" example_world example_client "logentry_2024-03-08"
              (TransportError "timeout") ltac:(discriminate)) as (_ & H).
  destruct H as (Hl & Hd); [discriminate | reflexivity | reflexivity |].
  split.
  - apply Hl. reflexivity.
  - apply Hd; reflexivity.
Defined.

(** The second listing of a manager sends one request. *)
Lemma initialized_manager_requests_witness :
  let cluster := cluster_with (Ret []) (Ret ["logentry_2024-03-08"]) (Ret []) in
  let ready := snd (_initialize cluster "" example_world) in
  trace (snd (list_indices cluster "" ready))
  = (trace ready ++ [(IndicesGet example_client "logentry_*",
                      Ret ["logentry_2024-03-08"])])%list
  /\ connections (snd (list_indices cluster "" ready)) = connections ready.
Proof.
  cbv zeta.
  destruct (initialized_manager_requests
              (cluster_with (Ret []) (Ret ["logentry_2024-03-08"]) (Ret [])) ""
              (snd (_initialize (cluster_with (Ret []) (Ret ["logentry_2024-03-08"])
                                              (Ret [])) "" example_world))
              example_client "logentry_2024-03-08" eq_refl eq_refl)
    as ((Ht & _ & Hc & _) & _).
  split; [exact Ht | exact Hc].
Defined.

(** A document of the afternoon of 9 March, saved once the default manager is
    initialised. *)
Lemma save_after_initialize_witness :
  let cluster := cluster_with (Ret []) (Ret []) (Ret []) in
  let save :=
    LogEntry_save (fun _ _ => Raise ValueError) string (fun s => s) (option string)
                  (fun kwargs => ret (kwargs !! "index")) in
  let ready := snd (_initialize cluster "" example_world) in
  exists name,
    le_index_prefix (LogEntry ready) = Some (_index_prefix (self ready))
    /\ index_name (mkdate 2024 3 9) ready = (Ret name, ready)
    /\ save (Some (mkdatetime (mkdate 2024 3 9) 15 4 5 0)) ∅ ready
       = ret (<["index" := name]> (∅ : gmap string string) !! "index") ready.
Proof.
  cbv zeta.
  apply (save_after_initialize (cluster_with (Ret []) (Ret []) (Ret [])) ""
           (fun _ _ => Raise ValueError) string (fun s => s) (option string)
           (fun kwargs => ret (kwargs !! "index"))
           example_world (mkdatetime (mkdate 2024 3 9) 15 4 5 0) ∅);
    reflexivity.
Defined.

(** A registration that times out, in a process where an earlier manager had
    initialised [LogEntry] for the prefix [old_]. *)
Lemma failed_registration_reconfigures_LogEntry_witness :
  let timeout := TransportError "timeout" in
  let cluster : list event -> request -> reply :=
    fun _ r => match r with
               | GetTemplate _ _ => Raise NotFoundError
               | _ => Raise timeout
               end in
  let w := mkWorld example_manager ∅
                   (mkLogEntryClass (Some ("old_*", [])) (Some "old_") true) [] [] in
  fst (_initialize cluster "" w) = Raise timeout
  /\ _initialized (self (snd (_initialize cluster "" w))) = false
  /\ LogEntry (snd (_initialize cluster "" w))
     = mkLogEntryClass (Some ("logentry_*", [])) (Some "logentry_") true.
Proof.
  cbv zeta.
  pose (w := mkWorld example_manager (∅ : gmap string Connection)
                     (mkLogEntryClass (Some ("old_*", [])) (Some "old_") true) [] []).
  destruct (failed_registration_reconfigures_LogEntry
              (fun _ r => match r with
                          | GetTemplate _ _ => Raise NotFoundError
                          | _ => Raise (TransportError "timeout")
                          end)
              "" w example_client (TransportError "timeout") eq_refl
              ltac:(vm_compute; reflexivity)) as (Hr & _).
  apply Hr; [reflexivity | discriminate | reflexivity].
Defined.

(** A lookup that times out twice. *)
Lemma failed_initialize_is_retried_witness :
  let timeout := TransportError "timeout" in
  let cluster := cluster_with (Raise timeout) (Ret []) (Ret []) in
  let init := _initialize cluster "" example_world in
  _initialized (self (snd init)) = false
  /\ _client (self (snd (_initialize cluster "" (snd init)))) = Some example_client
  /\ (exists rest,
        trace (snd (_initialize cluster "" (snd init)))
        = (trace (snd init)
           ++ (GetTemplate example_client "logentry_", Raise timeout) :: rest)%list)
  /\ _initialized (self (snd (_initialize cluster "" (snd init))))
     = succeeded (fst (_initialize cluster "" (snd init))).
Proof.
  cbv zeta.
  apply (failed_initialize_is_retried
           (cluster_with (Raise (TransportError "timeout")) (Ret []) (Ret [])) ""
           example_world example_client (TransportError "timeout"));
    reflexivity.
Defined.
